(* ===== verification/_CoqProject ===== *)
-Q . S2P
Prelude.v
PyInt.v
Registry.v
Cli.v
Materializer.v
Trainer.v
Argv.v
Session.v
