(* ===== verification/Prelude.v ===== *)
(** * A verification development for the ZenML pipeline CLI layer

    The repository (src/) holds three Python files:
    - [src/src/zenml/cli/pipeline.py]: the [zenml pipeline ...] click
      group (register, build, run, list, delete, and the [schedule],
      [runs] and [builds] sub-groups).  Each handler prints the active
      configuration, resolves a name/ID/prefix through the ZenML
      [Client], calls one client operation and reports through
      [cli_utils] (declare, warning, error, confirmation).
    - [src/src/zenml/integrations/huggingface/materializers/
      huggingface_tf_model_materializer.py]: [HFTFModelMaterializer].
      It saves a Huggingface TF model with [save_pretrained] into a
      temporary directory and copies it under [uri/hf_tf_model].  It
      loads the model back by the architecture recorded in its config,
      and extracts three counters as metadata.
    - [src/examples/wandb_tracking/steps/trainer/trainer_step.py]: an
      example step.  An import-time guard requires a WandB experiment
      tracker, and [tf_trainer] trains a [Flatten; Dense 10] Keras model.

    The [Client] the handlers call (name/ID resolution, the entity store,
    the delete cascade, pagination), [cli_utils] and [io_utils.copy_dir]
    are not under src/.  They are modelled from the spec (sections 3 and
    4.1 to 4.4), and the manifest marks every such definition
    spec-modelled.  click, which turns a command line into a call of a
    handler, is a library: its parser is modelled from its documented
    behaviour over the declarations the decorators of [pipeline.py] make.

    ** How the parts interact
    A command line is parsed by click ([Argv.parse_argv]) into a
    [Command] or a usage error; [Argv.cli_main] runs the command through
    [dispatch].  A command is a [Cli] computation over a world: the client's server
    state, the repository root, the active stack, the local files, the
    console transcript, the user's answers and the IDs the server hands
    out.  It reaches the client only through the [Client] typeclass
    ([Cli]).  [Registry_Client] implements that class over the [Registry]
    store.  Source loading, Docker build needs and orchestration sit
    behind the [Backend] class.  The materializer and the trainer do not
    talk to the CLI.  [transformers] is the [HFLibrary] class with its
    laws, and TensorFlow's numerics are Section variables of [Trainer].

    ** Files
    - [Prelude] (this file) holds what all components share:
      - the [result] error type and its [let?] notation in [zenml_scope];
      - Python truthiness of strings and options;
      - [contains_char], [max_list] and [ceil_div];
      - the [zenml] hint databases, and the tactics [invc], [res_simpl]
        and [split_guards];
      - list lemmas.
    - [PyInt] (Module [PyInt]) is Python's [int(s)] on a string
      ([py_int]: whitespace, a sign, digits with single underscores),
      the printer [show_int], and the lemma that [py_int] reads back every
      printed integer, also inside whitespace.
    - [Registry] (Module [Registry], spec-modelled) is the Client core:
      - the four entity kinds as records in insertion-ordered lists of a
        [Store];
      - the resolver [resolve], through the [Entity] class;
      - the create operations with version assignment ([next_version])
        and the run status updates;
      - the delete cascade: a plan of primitive operations
        ([cascade_plan]), run by [transaction] with an injectable storage
        failure, and proved to refine the declarative [cascade_spec];
      - paginated listing ([list_page]) behind the validation of the
        filter model's [page] and [size] ([filter_page]: read by
        [int()], page at least 1, size from 1 to [PAGE_SIZE_MAXIMUM]);
      - the invariant [wf] (unique IDs, unique (name, version), positive
        versions, valid foreign keys, unique schedule names, pipeline IDs
        that are valid UUIDs), preserved by every operation of the step
        relation [step], and status monotonicity of runs for single
        steps.
    - [Cli] (Module [Cli]) is every handler of [pipeline.py], named as in
      the source:
      - the monad [Cli] (state passing with an early exit: click errors,
        usage errors, uncaught exceptions, a bare [return]);
      - [cli_utils] as [print_active_config], [declare], [warning],
        [cli_error], [confirmation] and [temporary_active_stack];
      - the click group as [Command] and [dispatch], and a sequence of
        invocations as [run_session];
      - [Registry_Client];
      - build documents: [build_yaml] and [build_from_yaml] over
        structured YAML values.
    - [Materializer] (Module [Materializer]):
      - the artifact store as an stdpp [gmap] from paths (segment lists)
        to blobs;
      - [save], [load] and [extract_metadata] over [HFLibrary], the copy
        loop [copy_files], and a concrete library instance;
      - the class attributes [ASSOCIATED_TYPES] and
        [ASSOCIATED_ARTIFACT_TYPE], and the type check of
        [BaseMaterializer] (spec-modelled) that [super().save] and
        [super().load] run first: Python classes as [PyType], their
        method resolution order of qualified names, and
        [can_handle_type].
    - [Trainer] (Module [Trainer]):
      - [module_guard];
      - [TrainerParameters];
      - Keras [Sequential] shapes and parameter counts;
      - [model.fit]: a fresh shuffle of the rows per epoch
        ([take_rows] of the permutation the [shuffle] variable draws),
        batches of 32 ([batches]), the epoch loop [fit_loop] with the
        data checks and the [WandbCallback] log (epoch metrics, and the
        prediction table at the end of training), and [tf_trainer].
    - [Argv] (Module [Argv]) is click's parsing of [zenml pipeline ...]:
      - the options every command declares, as [OptSpec] values named as
        in the decorators ([version_opt], [build_specs], ...), and the
        [schedule], [runs] and [builds] sub-groups;
      - click's option parser [parse_tokens] (long and short options,
        attached values, clusters, [--], interspersed arguments), the
        parameter processing [with_params] (eager [--help], one required
        argument; the filter options of the list commands are strings)
        and the group lookup [run_group];
      - [render], the canonical command line of a [Command],
        [cli_main], which runs a command line, and [run_lines], a shell
        session of command lines.
    - [Session] (Module [Session]):
      - a relation on worlds that every primitive respects is respected
        by every command and session.  The proof is done once against the
        [Client] interface and instantiated over the registry, for
        registry steps and for stacks;
      - the same for shell sessions of command lines ([run_lines]);
      - the end-to-end properties of delete, register and list, and
        the deletion of every pipeline one after the other.

    ** What the theorems show (claims C1 to C32 of the manifest)
    - [Session]:
      - the delete command is all-or-nothing and refines the
        declarative cascade (C1), and unlists runs rather than deleting
        them (C2);
      - sessions keep the store reachable from an empty one, hence
        well formed (C3);
      - delete resolves a UUID exactly (C4), a bare name to its highest
        version (C5), and an explicit version exactly (C6);
      - register appends the next version (C7); deleting the highest
        version of a name and registering it again hands out a version
        at most the deleted one, exactly it when the versions below
        were contiguous, to a record with a new ID (C8, a finding);
      - listing page by page is complete and in order (C9);
      - every command restores the active stack (C12);
      - [runs delete], [builds delete] and [schedule delete] remove
        exactly the resolved record, with no cascade (C18);
      - deleting every pipeline by its ID empties the registry: no
        pipeline, build or schedule is left and every run is unlisted
        (C27, liveness; it rests on the UUID field of [wf]);
      - [--page] and [--size] mean the same in every spelling Python's
        [int()] accepts (C31), and a value the filter model rejects
        ends every list command with an uncaught validation error, exit
        code 1 (C32, a finding).
    - [Cli]:
      - declining a confirmation changes nothing and exits 0 (C10);
      - the delete handler on each of its branches (C11);
      - the invalid [--build] error (C13);
      - [build -o PATH] then [run --build PATH]: the run reads back the
        images and [is_local] of the build the server created (C14);
      - the source-path check of register (C15).
    - [Materializer]:
      - the save/load round trip, with the temporary directory removed
        and the rest of the store untouched (C16);
      - [save] is not atomic: on a destination file that already
        exists it raises after publishing the files listed before it
        (C17, a finding);
      - [save] and [load] raise [TypeError] exactly for the types the
        materializer does not handle, and a rejected [save] writes
        nothing (C30).
    - [Trainer]:
      - the import guard (C19);
      - the step's result on well-formed data, for any shuffle: the
        built and compiled model, trained [max(epochs, 0)] epochs, and
        the callback's log (C20);
      - the optimiser updates of [model.fit]: [max(n, 0)] epochs of
        [ceil(rows / 32)] batches, each epoch a permutation of the rows
        (C21).
    - [Argv]:
      - on the declared option lists, the parser is the declarative
        reading of long-form words (C22);
      - printing a command and parsing it back gives the command (C23);
      - the spellings of the delete options agree, and the last value
        of a repeated option counts (C24);
      - an option a command does not declare (such as [--name] on
        [builds list], which has none) is refused with exit code 2
        before the command runs (C25), and so is a word that names no
        command (C26);
      - one word too many is rejected as an extra argument (C28);
      - [--help] is eager: at any word boundary after the command path
        it shows the help page, also without the argument (C29).

    ** Bounds and fuel
    The only fuel is [batches_fuel] in [Trainer]: each batch consumes at
    least one row, so the length of the data is enough, and the lemmas
    [batches_fuel_concat] and [batches_fuel_length] show that with it
    every row is read and there are [ceil(rows / 32)] batches.  Every
    other recursion is structural; click's parser consumes one or two
    words per step.  Integers are unbounded: Python's [int] is, and the
    model keeps [epochs], pages and sizes as [Z], so negative values are
    covered; the bound on a page size is the filter model's
    [PAGE_SIZE_MAXIMUM] (10000).

    ** Not modelled
    - Docker image building, orchestration and step execution: external
      collaborators (spec 1).  Only their results enter, through
      [Backend].
    - The rendering of [rich] tables, beyond the column selection of
      [print_pydantic_models].
    - YAML text: a build document is kept as the structured value
      [build.yaml(include=...)] dumps, so dumping and reading it back
      are the identity on it.
    - The numerics of TensorFlow training and WandB's logging transport:
      the training step, the metrics, the evaluation and the prediction
      table are Section variables of [Trainer], and the shuffle is the
      variable [shuffle] (any permutation, as numpy draws it).
      [WandbCallback]'s model checkpoints and graph logging, and Keras'
      progress bar, are not modelled; the data checks of Keras are
      reduced to equal cardinality and the input shape.
    - [BaseMaterializer.extract_metadata], which the materializer calls
      and whose result it discards.
    - click's "Did you mean" suggestions and help pages.  click checks
      [--config] for existence while it processes the parameters; the
      model does it first thing in the handler ([check_path_exists]), so
      when a line also has an extra argument the model reports the extra
      argument and click the path.
    - The filter operators of [list_options] values ([contains:],
      [gte:], ...): [--name N] is an exact match.
    - The filter options [list_options] declares besides [--name],
      [--page] and [--size] (ID, dates, user, workspace, sort order).
    - In [int()]: non-ASCII digits and whitespace, and the limit of
      Python 3.11 on the number of digits of a string.
    - The concurrency of spec 5: commands run one after the other.
      [temporary_active_stack] re-activates the previous stack by name,
      where [cli_utils] does it by ID. *)

From stdpp Require Export base list strings relations.
From Stdlib Require Export String Ascii.

Declare Scope zenml_scope.
Delimit Scope zenml_scope with zenml.
Open Scope string_scope.

(** ** Fallible computations *)

(** The outcome of a Python call that either returns or raises. *)
Inductive result (A E : Type) : Type :=
| Ok (a : A)
| Err (e : E).
Arguments Ok {A E} a.
Arguments Err {A E} e.

Definition bind_res {A B E} (r : result A E) (f : A -> result B E) : result B E :=
  match r with
  | Ok a => f a
  | Err e => Err e
  end.

Notation "'let?' x := c 'in' k" := (bind_res c (fun x => k))
  (at level 10, x name, c at level 100, k at level 200) : zenml_scope.
Open Scope zenml_scope.

Definition is_ok {A E} (r : result A E) : bool :=
  match r with Ok _ => true | Err _ => false end.

(** ** Python truthiness and string tests *)

(** [if s:] on a [str]: only the empty string is false. *)
Definition py_truthy (s : string) : bool := negb (String.eqb s "").

(** [if x:] on an [Optional[str]]. *)
Definition py_truthy_opt (o : option string) : bool :=
  match o with Some s => py_truthy s | None => false end.

(** [c in s] for a one-character string [c]. *)
Fixpoint contains_char (c : ascii) (s : string) : bool :=
  match s with
  | EmptyString => false
  | String d s' => Ascii.eqb c d || contains_char c s'
  end.

(** The largest element of a list of naturals, 0 for the empty list. *)
Definition max_list (l : list nat) : nat := foldr Nat.max 0 l.

(** ** Tactics and hints shared by the components *)

Create HintDb zenml discriminated.

Create Rewrite HintDb zenml_rw.

Ltac invc H := inversion H; subst; clear H.

(** ** Generic lemmas on results, lists and strings *)

Lemma bind_res_Ok_inv {A B E} (r : result A E) (f : A -> result B E) b :
  bind_res r f = Ok b -> exists a, r = Ok a /\ f a = Ok b.
Proof. destruct r; simpl; [eauto | discriminate]. Qed.

Lemma bind_res_Err_inv {A B E} (r : result A E) (f : A -> result B E) e :
  bind_res r f = Err e -> r = Err e \/ exists a, r = Ok a /\ f a = Err e.
Proof. destruct r; simpl; [eauto | intros [= ->]; auto]. Qed.

Lemma bind_res_Ok {A B E} (a : A) (f : A -> result B E) :
  bind_res (Ok a) f = f a.
Proof. reflexivity. Qed.

Lemma bind_res_Err {A B E} (e : E) (f : A -> result B E) :
  bind_res (Err e) f = Err e.
Proof. reflexivity. Qed.

#[export] Hint Rewrite @bind_res_Ok @bind_res_Err : zenml_rw.

(** Split every [bind_res ... = Ok _] hypothesis into its two halves. *)
Ltac res_simpl :=
  repeat match goal with
  | H : bind_res _ _ = Ok _ |- _ =>
      let a := fresh "a" in let Ha := fresh "Ha" in
      apply bind_res_Ok_inv in H as (a & Ha & H)
  end.

Lemma max_list_ge (l : list nat) x : In x l -> x <= max_list l.
Proof.
  induction l as [|y l IH]; simpl; [done |].
  intros [-> | Hin]; [lia | specialize (IH Hin); lia].
Qed.

Lemma max_list_In (l : list nat) : l <> [] -> In (max_list l) l.
Proof.
  induction l as [|y l IH]; simpl; [done |]. intros _.
  destruct l as [|z l]; [simpl; lia |].
  destruct (Nat.max_spec y (max_list (z :: l))) as [[_ ->] | [_ ->]];
    [right; apply IH; done | left; done].
Qed.

Lemma max_list_lub (l : list nat) m : (forall x, In x l -> x <= m) -> max_list l <= m.
Proof.
  induction l as [|y l IH]; simpl; [lia |]. intros H.
  apply Nat.max_lub; [apply H; auto | apply IH; auto].
Qed.

#[export] Hint Resolve max_list_ge max_list_lub : zenml.

Lemma contains_char_In c s : contains_char c s = true <-> In c (list_ascii_of_string s).
Proof.
  induction s as [|d s IH]; simpl; [split; [discriminate | done] |].
  rewrite orb_true_iff, IH. split.
  - intros [Hc | Hin]; [left; symmetry; apply Ascii.eqb_eq | right]; done.
  - intros [<- | Hin]; [left; apply Ascii.eqb_refl | right; done].
Qed.

Lemma py_truthy_opt_Some s : py_truthy_opt (Some s) = true <-> s <> "".
Proof.
  unfold py_truthy_opt, py_truthy. rewrite negb_true_iff.
  destruct (String.eqb_spec s ""); split; congruence.
Qed.

Lemma filter_filter_andb {A} (P Q : A -> bool) (l : list A) :
  List.filter P (List.filter Q l) = List.filter (fun x => Q x && P x) l.
Proof.
  induction l as [|x l IH]; simpl; [done |].
  destruct (Q x) eqn:Hq; simpl; [destruct (P x); simpl |]; rewrite ?Hq, ?IH; done.
Qed.

Lemma NoDup_snoc {A} (l : list A) x :
  List.NoDup l -> ~ In x l -> List.NoDup (l ++ [x]).
Proof.
  induction l as [|y l IH]; simpl; [constructor; [done | constructor] |].
  intros [Hy Hl]%NoDup_cons_iff Hx. constructor; [| tauto].
  rewrite in_app_iff. simpl. intuition.
Qed.

Lemma existsb_ext {A} (f g : A -> bool) (l : list A) :
  (forall x, f x = g x) -> existsb f l = existsb g l.
Proof. intros Hfg. induction l as [|x l IH]; simpl; [done |]. by rewrite Hfg, IH. Qed.

(** Two elements of a list that does not repeat a key agree when their
    keys do. *)
Lemma NoDup_map_eq {A K} (f : A -> K) (l : list A) x y :
  List.NoDup (map f l) -> In x l -> In y l -> f x = f y -> x = y.
Proof.
  induction l as [|z l IH]; [done |]. simpl.
  intros [Hnin Hnd]%NoDup_cons_iff [<- | Hx] [<- | Hy] Heq; auto;
    exfalso; apply Hnin; [rewrite Heq | rewrite <- Heq]; by apply in_map.
Qed.

Lemma Forall_snoc {A} (P : A -> Prop) (l : list A) x :
  Forall P l -> P x -> Forall P (l ++ [x]).
Proof. intros. apply Forall_app. auto. Qed.

Lemma Forall_filter_keep {A} (P : A -> Prop) (f : A -> bool) (l : list A) :
  Forall P l -> Forall P (List.filter f l).
Proof. rewrite !List.Forall_forall. intros H x (Hx & _)%filter_In. auto. Qed.

Lemma forallb_Forall {A} (f : A -> bool) (l : list A) :
  forallb f l = true -> Forall (fun a => f a = true) l.
Proof. rewrite forallb_forall, List.Forall_forall. done. Qed.

Lemma filter_all_true {A} (f : A -> bool) (l : list A) :
  (forall x, In x l -> f x = true) -> List.filter f l = l.
Proof.
  induction l as [|x l IH]; intros Hf; simpl; [done |].
  rewrite Hf by (left; done). f_equal. apply IH. intros y Hy. apply Hf. by right.
Qed.

#[export] Hint Resolve Forall_snoc Forall_filter_keep : zenml.

(** Case on every boolean guard of a hypothesis [if c then Err .. else ..
    = Ok ..], dropping the failing branches. *)
Ltac split_guards :=
  repeat match goal with
  | H : context [if ?c then _ else _] |- _ =>
      lazymatch type of H with _ = Ok _ => idtac end;
      destruct c eqn:?; simpl in H; try discriminate
  end;
  repeat match goal with
  | G : negb _ = false |- _ => apply negb_false_iff in G
  | G : negb _ = true |- _ => apply negb_true_iff in G
  end.

Lemma firstn_add {A} (a b : nat) (l : list A) :
  firstn (a + b) l = (firstn a l ++ firstn b (skipn a l))%list.
Proof.
  revert l. induction a as [|a IH]; intros [|x l]; simpl; rewrite ?firstn_nil; auto.
  by rewrite IH.
Qed.

(** [math.ceil(n / k)] for [k > 0]. *)
Definition ceil_div (n k : nat) : nat := (n + k - 1) / k.

Lemma ceil_div_mul_ge n k : 0 < k -> n <= ceil_div n k * k.
Proof.
  intros Hk. unfold ceil_div.
  pose proof (Nat.div_mod_eq (n + k - 1) k) as Hdm.
  pose proof (Nat.mod_upper_bound (n + k - 1) k ltac:(lia)). lia.
Qed.
