(* ===== verification/PyInt.v ===== *)
(** * Python's [int(s)] on a string

    The filter models of the list commands declare [page] and [size] as
    [int] fields, and the command line hands them over as strings;
    pydantic turns a string into an [int] with Python's [int(s)] (base
    10).  That accepts surrounding whitespace, one sign, and decimal
    digits with single underscores between them ([" +1_000 "] is 1000);
    anything else, the empty string included, is a [ValueError].  The
    whitespace is that of [str.isspace] restricted to ASCII: the
    characters 9 to 13 and 28 to 32.  [py_int] is that function, and
    [show_int] prints an integer the way [str(z)] does; [py_int] reads
    back every printed integer, also inside whitespace. *)

From Stdlib Require Import DecimalString DecimalNat.
From S2P Require Import Prelude.

Module PyInt.

(** [c.isspace()] for an ASCII character. *)
Definition py_space (c : ascii) : bool :=
  let n := nat_of_ascii c in (Nat.leb 9 n && Nat.leb n 13) || (Nat.leb 28 n && Nat.leb n 32).

Fixpoint skip_spaces (l : list ascii) : list ascii :=
  match l with
  | c :: l' => if py_space c then skip_spaces l' else l
  | [] => []
  end.

(** [s.strip()] *)
Definition strip (l : list ascii) : list ascii := rev (skip_spaces (rev (skip_spaces l))).

Definition digit_val (c : ascii) : option nat :=
  let n := nat_of_ascii c in if Nat.leb 48 n && Nat.leb n 57 then Some (n - 48) else None.

(** The digits after a first one, [(_?[0-9])*], accumulated in base 10. *)
Fixpoint read_digits (acc : nat) (l : list ascii) : option nat :=
  match l with
  | [] => Some acc
  | c :: l' =>
      match digit_val c with
      | Some d => read_digits (10 * acc + d) l'
      | None =>
          if Ascii.eqb c "_" then
            match l' with
            | c2 :: l'' => match digit_val c2 with
                           | Some d => read_digits (10 * acc + d) l''
                           | None => None
                           end
            | [] => None
            end
          else None
      end
  end.

(** [[0-9](_?[0-9])*] *)
Definition read_number (l : list ascii) : option nat :=
  match l with
  | c :: l' => match digit_val c with Some d => read_digits d l' | None => None end
  | [] => None
  end.

(** [int(s)]: [None] where Python raises [ValueError]. *)
Definition py_int (s : string) : option Z :=
  match strip (list_ascii_of_string s) with
  | c :: l =>
      if Ascii.eqb c "-" then option_map (fun n => (- Z.of_nat n)%Z) (read_number l)
      else if Ascii.eqb c "+" then option_map Z.of_nat (read_number l)
      else option_map Z.of_nat (read_number (c :: l))
  | [] => None
  end.

(** [str(n)] of a natural number, and [str(z)] of an integer. *)
Definition show_nat (n : nat) : string := NilZero.string_of_uint (Nat.to_uint n).

Definition show_int (z : Z) : string :=
  if (z <? 0)%Z then String "-" (show_nat (Z.abs_nat z)) else show_nat (Z.to_nat z).

(** ** Reading back the digits Rocq prints *)

Lemma read_digits_uint d acc :
  read_digits acc (list_ascii_of_string (NilEmpty.string_of_uint d)) = Some (Nat.of_uint_acc d acc).
Proof.
  revert acc; induction d as [|d IH|d IH|d IH|d IH|d IH|d IH|d IH|d IH|d IH|d IH];
    intros acc; [done |..]; cbn [NilEmpty.string_of_uint list_ascii_of_string read_digits];
    cbn [digit_val nat_of_ascii]; simpl; rewrite IH, Nat.tail_mul_spec; f_equal; f_equal; lia.
Qed.

Lemma to_uint_nonnil n : Nat.to_uint n <> Decimal.Nil.
Proof.
  rewrite <- (DecimalNat.Unsigned.of_to n), DecimalNat.Unsigned.to_of.
  unfold Decimal.unorm. by destruct (Decimal.nzhead _).
Qed.

Lemma read_number_show n : read_number (list_ascii_of_string (show_nat n)) = Some n.
Proof.
  pose proof (DecimalNat.Unsigned.of_to n) as Hn. pose proof (to_uint_nonnil n) as Hnn.
  unfold show_nat. destruct (Nat.to_uint n) as [|d|d|d|d|d|d|d|d|d|d]; [done |..];
    cbn [NilZero.string_of_uint NilEmpty.string_of_uint list_ascii_of_string read_number];
    cbn [digit_val nat_of_ascii]; simpl; rewrite read_digits_uint, <- Hn; reflexivity.
Qed.

(** ** Whitespace around a printed integer *)

Lemma uint_no_space d :
  Forall (fun c => py_space c = false) (list_ascii_of_string (NilEmpty.string_of_uint d)).
Proof. induction d; simpl; by constructor. Qed.

Lemma show_nat_no_space n : Forall (fun c => py_space c = false) (list_ascii_of_string (show_nat n)).
Proof.
  unfold show_nat, NilZero.string_of_uint. destruct (Nat.to_uint n); try apply uint_no_space.
  by repeat constructor.
Qed.

Lemma show_int_no_space z : Forall (fun c => py_space c = false) (list_ascii_of_string (show_int z)).
Proof.
  unfold show_int. destruct (z <? 0)%Z; [| apply show_nat_no_space].
  constructor; [reflexivity | apply show_nat_no_space].
Qed.

(** Leading whitespace is skipped up to the first other character. *)
Lemma skip_spaces_app pre l :
  Forall (fun c => py_space c = true) pre ->
  (match l with c :: _ => py_space c = false | [] => True end) ->
  skip_spaces (pre ++ l) = l.
Proof.
  intros Hpre Hl. induction Hpre as [|c pre Hc _ IH]; simpl.
  - destruct l as [|c l]; simpl; [done |]. by rewrite Hl.
  - by rewrite Hc.
Qed.

Lemma Forall_head {A} (P : A -> Prop) (l r : list A) :
  Forall P l -> l <> [] -> match (l ++ r)%list with c :: _ => P c | [] => True end.
Proof. intros Hl Hne. destruct Hl as [|c l Hc _]; [done |]. exact Hc. Qed.

Lemma strip_spaces pre l post :
  Forall (fun c => py_space c = true) pre -> Forall (fun c => py_space c = true) post ->
  Forall (fun c => py_space c = false) l -> l <> [] -> strip (pre ++ l ++ post) = l.
Proof.
  intros Hpre Hpost Hl Hne. unfold strip.
  rewrite (skip_spaces_app pre (l ++ post)) by (done || by apply Forall_head).
  rewrite rev_app_distr, skip_spaces_app.
  - apply rev_involutive.
  - by apply List.Forall_rev.
  - rewrite <- (app_nil_r (rev l)). apply Forall_head; [by apply List.Forall_rev |].
    intros Hr. apply Hne. by apply (f_equal (@rev _)) in Hr; rewrite rev_involutive in Hr.
Qed.

Lemma show_int_nonempty z : list_ascii_of_string (show_int z) <> [].
Proof.
  unfold show_int, show_nat. destruct (z <? 0)%Z; [discriminate |].
  pose proof (to_uint_nonnil (Z.to_nat z)). by destruct (Nat.to_uint (Z.to_nat z)).
Qed.

Lemma list_ascii_of_string_app s t :
  list_ascii_of_string (s ++ t) = (list_ascii_of_string s ++ list_ascii_of_string t)%list.
Proof.
  induction s as [|c s IH]; [done |].
  change (String c s ++ t)%string with (String c (s ++ t)). cbn. by rewrite IH.
Qed.

(** [int(pre + str(z) + post) == z] for whitespace [pre] and [post]. *)
Lemma py_int_show_spaces pre post z :
  forallb py_space (list_ascii_of_string pre) = true ->
  forallb py_space (list_ascii_of_string post) = true ->
  py_int (pre ++ show_int z ++ post) = Some z.
Proof.
  intros Hpre Hpost. apply forallb_Forall in Hpre, Hpost.
  unfold py_int.
  rewrite !list_ascii_of_string_app, strip_spaces by (done || apply show_int_no_space || apply show_int_nonempty).
  unfold show_int. destruct (Z.ltb_spec z 0) as [Hz | Hz].
  - cbn [list_ascii_of_string]. simpl. rewrite read_number_show. simpl. f_equal. lia.
  - destruct (list_ascii_of_string (show_nat (Z.to_nat z))) as [|c l] eqn:E.
    + pose proof (read_number_show (Z.to_nat z)) as Hr. by rewrite E in Hr.
    + pose proof (read_number_show (Z.to_nat z)) as Hr. rewrite E in Hr.
      destruct (Ascii.eqb c "-") eqn:Hm; [apply Ascii.eqb_eq in Hm; subst; discriminate |].
      destruct (Ascii.eqb c "+") eqn:Hp; [apply Ascii.eqb_eq in Hp; subst; discriminate |].
      rewrite Hr. simpl. f_equal. lia.
Qed.

Lemma string_app_empty s : (s ++ "")%string = s.
Proof.
  induction s as [|c s IH]; [done |].
  change (String c s ++ "")%string with (String c (s ++ "")). by rewrite IH.
Qed.

Lemma py_int_show z : py_int (show_int z) = Some z.
Proof.
  pose proof (py_int_show_spaces "" "" z eq_refl eq_refl) as H.
  by rewrite string_app_empty in H.
Qed.

End PyInt.
