(* ===== verification/Registry.v ===== *)
(** * The Client core: entity store, identifier resolver, delete cascade

    The command handlers of [src/src/zenml/cli/pipeline.py] call
    [Client().get_pipeline], [delete_pipeline], [delete_schedule],
    [delete_pipeline_run], [delete_build] and the [list_*] methods.  The
    client is not under src/; this file models it from the spec: the data
    model of section 3, the resolver of 4.1, the registry of 4.2 and the
    cascade engine of 4.3.  Entities live in insertion-ordered lists of a
    [Store]; every operation is a total function returning a [result]. *)

From S2P Require Import Prelude PyInt.
Import PyInt.

Module Registry.

(** ** Data model (spec section 3) *)

Inductive ExecutionStatus := Running | Completed | Failed | Unlisted.

#[export] Instance ExecutionStatus_eq_dec : EqDecision ExecutionStatus.
Proof. solve_decision. Defined.

Record Pipeline := mkPipeline {
  pipeline_id : string;
  pipeline_name : string;
  pipeline_version : nat;
  pipeline_spec : string }.

Record PipelineBuild := mkBuild {
  build_id : string;
  build_pipeline_id : string;
  build_stack_id : string;
  build_images : list (string * string);
  build_is_local : bool }.

Record PipelineRun := mkRun {
  run_id : string;
  run_name : string;
  run_pipeline_id : string;
  run_build_id : option string;
  run_stack_id : string;
  run_status : ExecutionStatus }.

Record Schedule := mkSchedule {
  schedule_id : string;
  schedule_name : string;
  schedule_pipeline_id : string;
  schedule_cron : option string;
  schedule_interval : option nat }.

Record Store := mkStore {
  st_stacks : list string;
  st_pipelines : list Pipeline;
  st_builds : list PipelineBuild;
  st_runs : list PipelineRun;
  st_schedules : list Schedule }.

Definition empty_store (stacks : list string) : Store := mkStore stacks [] [] [] [].

(** The error taxonomy of spec section 7.  [NotFound] and
    [AmbiguousReference] are raised as Python [KeyError]s. *)
Inductive ZenError :=
| NotFound (query : string)
| AmbiguousReference (query : string) (candidates : list string)
| InvalidArgument (msg : string)
| InvalidReference (msg : string)
| StorageError (msg : string)
| CascadeFailed (cause : string).

Definition is_key_error (e : ZenError) : bool :=
  match e with NotFound _ | AmbiguousReference _ _ => true | _ => false end.

Definition zen_error_str (e : ZenError) : string :=
  match e with
  | NotFound q => "No entity found for `" ++ q ++ "`."
  | AmbiguousReference q _ => "Multiple entities match `" ++ q ++ "`."
  | InvalidArgument m | InvalidReference m | StorageError m => m
  | CascadeFailed m => "Cascade failed: " ++ m
  end.

(** ** Parsing identifiers and versions *)

Definition ascii_between (lo hi : nat) (c : ascii) : bool :=
  Nat.leb lo (nat_of_ascii c) && Nat.leb (nat_of_ascii c) hi.

Definition is_digit : ascii -> bool := ascii_between 48 57.

Definition is_hex_digit (c : ascii) : bool :=
  is_digit c || ascii_between 97 102 c || ascii_between 65 70 c.

(** [uuid_utils.is_valid_uuid]: the hyphens dropped, 32 hex digits. *)
Definition is_valid_uuid (s : string) : bool :=
  let h := List.filter (fun c => negb (Ascii.eqb c "-")) (list_ascii_of_string s) in
  Nat.eqb (List.length h) 32 && forallb is_hex_digit h.

Fixpoint parse_digits (acc : nat) (s : string) : option nat :=
  match s with
  | EmptyString => Some acc
  | String c s' =>
      if is_digit c then parse_digits (10 * acc + (nat_of_ascii c - 48)) s'
      else None
  end.

(** A version string: a non-empty run of decimal digits. *)
Definition parse_version (s : string) : option nat :=
  if String.eqb s "" then None else parse_digits 0 s.

(** ** The identifier resolver (spec 4.1) *)

(** What the resolver needs of an entity kind. *)
Class Entity (E : Type) := {
  ent_id : E -> string;
  ent_name : E -> option string;
  ent_version : E -> option nat }.

#[export] Instance Pipeline_Entity : Entity Pipeline :=
  {| ent_id := pipeline_id; ent_name p := Some (pipeline_name p);
     ent_version p := Some (pipeline_version p) |}.
#[export] Instance PipelineBuild_Entity : Entity PipelineBuild :=
  {| ent_id := build_id; ent_name _ := None; ent_version _ := None |}.
#[export] Instance Run_Entity : Entity PipelineRun :=
  {| ent_id := run_id; ent_name r := Some (run_name r); ent_version _ := None |}.
#[export] Instance Schedule_Entity : Entity Schedule :=
  {| ent_id := schedule_id; ent_name s := Some (schedule_name s);
     ent_version _ := None |}.

Section Resolver.
Context {E : Type} `{Entity E}.

Definition id_is (s : string) (e : E) : bool := String.eqb (ent_id e) s.

Definition name_is (s : string) (e : E) : bool :=
  match ent_name e with Some n => String.eqb n s | None => false end.

Definition version_of (e : E) : nat := default 0 (ent_version e).

Definition version_is (n : nat) (e : E) : bool := Nat.eqb (version_of e) n.

Definition prefix_of (s : string) (e : E) : bool := String.prefix s (ent_id e).

(** Exactly one candidate, or a typed failure. *)
Definition select_unique (q : string) (cands : list E) : result E ZenError :=
  match cands with
  | [] => Err (NotFound q)
  | [e] => Ok e
  | _ => Err (AmbiguousReference q (map ent_id cands))
  end.

(** The records of the highest version among [cands]. *)
Definition latest (cands : list E) : list E :=
  List.filter (version_is (max_list (map version_of cands))) cands.

Definition resolve (xs : list E) (s : string) (version : option string)
    : result E ZenError :=
  if String.eqb s "" then Err (InvalidArgument "Empty name, ID or prefix.")
  else if is_valid_uuid s then select_unique s (List.filter (id_is s) xs)
  else match version with
  | Some v =>
      match parse_version v with
      | None => Err (InvalidArgument ("Invalid version `" ++ v ++ "`."))
      | Some n => select_unique s (List.filter (fun e => name_is s e && version_is n e) xs)
      end
  | None =>
      match List.filter (name_is s) xs with
      | [] => select_unique s (List.filter (prefix_of s) xs)
      | named => select_unique s (latest named)
      end
  end.

(** *** Resolver lemmas *)

Lemma select_unique_Ok q cands e : select_unique q cands = Ok e -> cands = [e].
Proof. destruct cands as [|x [|y l]]; simpl; congruence. Qed.

Lemma select_unique_single q e : select_unique q [e] = Ok e.
Proof. reflexivity. Qed.

Lemma select_unique_Ambiguous q cands q' ids :
  select_unique q cands = Err (AmbiguousReference q' ids) ->
  ids = map ent_id cands /\ 2 <= List.length cands.
Proof. destruct cands as [|x [|y l]]; simpl; intros; simplify_eq; split; auto; lia. Qed.

(** A list whose elements agree on a key that the list does not repeat
    has at most one element. *)
Lemma NoDup_same_key {K} (f : E -> K) (l : list E) :
  List.NoDup (map f l) -> (forall x y, In x l -> In y l -> f x = f y) ->
  l = [] \/ exists x, l = [x].
Proof.
  destruct l as [|x [|y l]]; [auto | eauto |].
  intros Hnd Hsame. exfalso. simpl in Hnd.
  apply NoDup_cons_iff in Hnd as [Hnin _]. apply Hnin.
  left. apply Hsame; simpl; auto.
Qed.

Lemma NoDup_map_filter {K} (f : E -> K) (P : E -> bool) (l : list E) :
  List.NoDup (map f l) -> List.NoDup (map f (List.filter P l)).
Proof.
  induction l as [|x l IH]; simpl; [auto |].
  intros Hnd. apply NoDup_cons_iff in Hnd as [Hnin Hnd].
  destruct (P x); simpl; [| auto].
  constructor; [| auto].
  intros Hin. apply Hnin. apply in_map_iff in Hin as (y & <- & Hy).
  apply filter_In in Hy as [Hy _]. now apply in_map.
Qed.

Lemma select_unique_filter_In q (P : E -> bool) xs e :
  select_unique q (List.filter P xs) = Ok e -> In e xs /\ P e = true.
Proof.
  intros Hsel. apply select_unique_Ok in Hsel.
  apply filter_In. rewrite Hsel. now left.
Qed.

Lemma find_filter_hd (P : E -> bool) xs : List.find P xs = hd_error (List.filter P xs).
Proof. induction xs as [|x xs IH]; simpl; [done |]. destruct (P x); auto. Qed.

(** When every record passing [P] has the same key and keys are not
    repeated, [select_unique] over [P] is a plain [find]. *)
Lemma select_unique_find {K} (f : E -> K) (k : K) q (P : E -> bool) xs :
  List.NoDup (map f xs) -> (forall x, P x = true -> f x = k) ->
  select_unique q (List.filter P xs) =
    match List.find P xs with Some e => Ok e | None => Err (NotFound q) end.
Proof.
  intros Hnd Hk. rewrite find_filter_hd.
  destruct (NoDup_same_key f (List.filter P xs)) as [-> | [e ->]]; [| | done | done].
  - by apply NoDup_map_filter.
  - intros x y Hx Hy. apply filter_In in Hx as [_ Hx], Hy as [_ Hy].
    rewrite (Hk x Hx), (Hk y Hy). done.
Qed.

Lemma valid_uuid_nonempty s : is_valid_uuid s = true -> s <> "".
Proof. intros Hv ->. discriminate Hv. Qed.

Definition name_version (e : E) : option string * nat := (ent_name e, version_of e).

Lemma name_is_key s e : name_is s e = true -> ent_name e = Some s.
Proof.
  unfold name_is. destruct (ent_name e); [| discriminate].
  by intros ->%String.eqb_eq.
Qed.

(** Among the records named [s], the highest version is held by exactly
    one record when (name, version) pairs are unique. *)
Lemma latest_single xs s e0 :
  List.NoDup (map name_version xs) -> In e0 xs -> name_is s e0 = true ->
  exists e, latest (List.filter (name_is s) xs) = [e] /\ In e xs /\
    name_is s e = true /\
    forall e', In e' xs -> name_is s e' = true -> version_of e' <= version_of e.
Proof.
  intros Hnd Hin Hname. set (named := List.filter (name_is s) xs).
  assert (Hin0 : In e0 named) by (apply filter_In; auto).
  assert (Hne : map version_of named <> []).
  { intros Hnil%map_eq_nil. by rewrite Hnil in Hin0. }
  apply max_list_In, in_map_iff in Hne as (e & Hve & Hine).
  assert (Hlat : In e (latest named)).
  { apply filter_In. split; [done |]. by apply Nat.eqb_eq. }
  destruct (NoDup_same_key name_version (latest named)) as [Hnil | [e' Heq]].
  - by do 2 apply NoDup_map_filter.
  - intros x y Hx Hy. apply filter_In in Hx as [Hx Hvx], Hy as [Hy Hvy].
    apply filter_In in Hx as [_ Hnx], Hy as [_ Hny].
    apply Nat.eqb_eq in Hvx, Hvy. unfold name_version.
    by rewrite (name_is_key _ _ Hnx), (name_is_key _ _ Hny), Hvx, Hvy.
  - by rewrite Hnil in Hlat.
  - exists e'. rewrite Heq in Hlat. destruct Hlat as [<- | []].
    apply filter_In in Hine as [Hinx Hnx].
    split_and!; auto. intros e'' Hin'' Hn''.
    rewrite Hve. apply max_list_ge, in_map, filter_In. auto.
Qed.

Lemma select_unique_incl q cands xs :
  incl cands xs ->
  (forall e, select_unique q cands = Ok e -> In e xs) /\
  (forall q' ids, select_unique q cands = Err (AmbiguousReference q' ids) ->
     2 <= List.length ids /\ forall i, In i ids -> exists e, In e xs /\ ent_id e = i).
Proof.
  intros Hincl. split.
  - intros e ->%select_unique_Ok. apply Hincl. by left.
  - intros q' ids (-> & Hlen)%select_unique_Ambiguous. rewrite length_map.
    split; [done |]. intros i (e & <- & He)%in_map_iff. eauto.
Qed.

(** *** Resolver theorems *)

(** A valid UUID is looked up by exact ID: the resolver returns the
    record with that ID, or [NotFound]; never an ambiguity. *)
Theorem resolve_by_uuid xs s v :
  List.NoDup (map ent_id xs) -> is_valid_uuid s = true ->
  resolve xs s v =
    match List.find (id_is s) xs with Some e => Ok e | None => Err (NotFound s) end.
Proof.
  intros Hnd Hv. unfold resolve.
  destruct (String.eqb_spec s "") as [Hs | _]; [by apply valid_uuid_nonempty in Hv |].
  rewrite Hv. apply (select_unique_find ent_id s); [done |].
  intros x Hx. by apply String.eqb_eq in Hx.
Qed.

(** A name with no version resolves to the record of that name with
    the highest version. *)
Theorem resolve_latest xs s e0 :
  List.NoDup (map name_version xs) -> s <> "" -> is_valid_uuid s = false ->
  In e0 xs -> name_is s e0 = true ->
  exists e, resolve xs s None = Ok e /\ In e xs /\ name_is s e = true /\
    forall e', In e' xs -> name_is s e' = true -> version_of e' <= version_of e.
Proof.
  intros Hnd Hs Hv Hin Hname. unfold resolve.
  destruct (String.eqb_spec s "") as [? | _]; [done |]. rewrite Hv.
  destruct (latest_single xs s e0) as (e & Hl & He); [done .. |].
  exists e. split; [| done].
  destruct (List.filter (name_is s) xs) eqn:Hn; [| by rewrite Hl].
  assert (Hin' : In e0 (List.filter (name_is s) xs)) by (apply filter_In; auto).
  by rewrite Hn in Hin'.
Qed.

(** A name with an explicit version resolves to the record with that
    exact (name, version), or [NotFound]. *)
Theorem resolve_by_version xs s v n :
  List.NoDup (map name_version xs) -> s <> "" -> is_valid_uuid s = false ->
  parse_version v = Some n ->
  resolve xs s (Some v) =
    match List.find (fun e => name_is s e && version_is n e) xs with
    | Some e => Ok e | None => Err (NotFound s) end.
Proof.
  intros Hnd Hs Hv Hp. unfold resolve.
  destruct (String.eqb_spec s "") as [? | _]; [done |]. rewrite Hv, Hp.
  apply (select_unique_find name_version (Some s, n)); [done |].
  intros x [Hn Hver]%andb_true_iff. apply Nat.eqb_eq in Hver.
  unfold name_version. by rewrite (name_is_key _ _ Hn), Hver.
Qed.

(** Whatever the input, a record the resolver returns is in the
    store, and an ambiguity lists at least two stored IDs. *)
Theorem resolve_sound xs s v :
  (forall e, resolve xs s v = Ok e -> In e xs) /\
  (forall q ids, resolve xs s v = Err (AmbiguousReference q ids) ->
     2 <= List.length ids /\ forall i, In i ids -> exists e, In e xs /\ ent_id e = i).
Proof.
  assert (Hf : forall (P : E -> bool) l, incl l (List.filter P xs) -> incl l xs).
  { intros P l Hl x Hx. by apply Hl, filter_In in Hx as [? _]. }
  unfold resolve. repeat case_match; try (split; intros; discriminate).
  all: apply select_unique_incl; eapply Hf; try apply incl_refl.
  match goal with H : List.filter ?P xs = _ :: _ |- _ => rewrite <- H; instantiate (1 := P) end.
  intros x Hx. by apply filter_In in Hx as [? _].
Qed.
End Resolver.

(** ** Registry operations (spec 4.2) *)

Definition with_pipelines (st : Store) ps := mkStore (st_stacks st) ps (st_builds st) (st_runs st) (st_schedules st).
Definition with_builds (st : Store) bs := mkStore (st_stacks st) (st_pipelines st) bs (st_runs st) (st_schedules st).
Definition with_runs (st : Store) rs := mkStore (st_stacks st) (st_pipelines st) (st_builds st) rs (st_schedules st).
Definition with_schedules (st : Store) ss := mkStore (st_stacks st) (st_pipelines st) (st_builds st) (st_runs st) ss.

Definition id_taken `{Entity E} (xs : list E) (id : string) : bool := existsb (id_is id) xs.

Definition pipeline_exists (st : Store) (pid : string) : bool := id_taken (st_pipelines st) pid.

Definition stack_exists (st : Store) (sid : string) : bool := existsb (String.eqb sid) (st_stacks st).

(** Guard shared by every create: a well-formed, unused ID. *)
Definition check_new_id `{Entity E} (xs : list E) (id : string) : result unit ZenError :=
  if negb (is_valid_uuid id) then Err (InvalidArgument ("Invalid ID `" ++ id ++ "`."))
  else if id_taken xs id then Err (InvalidArgument ("ID `" ++ id ++ "` already exists."))
  else Ok tt.

(** The version a new registration of [name] receives. *)
Definition next_version (ps : list Pipeline) (name : string) : nat :=
  S (max_list (map pipeline_version (List.filter (name_is name) ps))).

Definition create_pipeline (st : Store) (id name spec : string)
    : result (Pipeline * Store) ZenError :=
  let? _ := check_new_id (st_pipelines st) id in
  let p := mkPipeline id name (next_version (st_pipelines st) name) spec in
  Ok (p, with_pipelines st (st_pipelines st ++ [p])).

Definition create_build (st : Store) (id pid stack : string)
    (images : list (string * string)) (is_local : bool)
    : result (PipelineBuild * Store) ZenError :=
  let? _ := check_new_id (st_builds st) id in
  if negb (pipeline_exists st pid) then Err (InvalidReference ("No pipeline `" ++ pid ++ "`."))
  else if negb (stack_exists st stack) then Err (InvalidReference ("No stack `" ++ stack ++ "`."))
  else let b := mkBuild id pid stack images is_local in
       Ok (b, with_builds st (st_builds st ++ [b])).

Definition create_run (st : Store) (id name pid : string) (build : option string)
    (stack : string) : result (PipelineRun * Store) ZenError :=
  let? _ := check_new_id (st_runs st) id in
  if negb (pipeline_exists st pid) then Err (InvalidReference ("No pipeline `" ++ pid ++ "`."))
  else if negb (match build with Some b => id_taken (st_builds st) b | None => true end)
  then Err (InvalidReference "No such build.")
  else if negb (stack_exists st stack) then Err (InvalidReference ("No stack `" ++ stack ++ "`."))
  else let r := mkRun id name pid build stack Running in
       Ok (r, with_runs st (st_runs st ++ [r])).

Definition create_schedule (st : Store) (id name pid : string)
    (cron : option string) (interval : option nat) : result (Schedule * Store) ZenError :=
  let? _ := check_new_id (st_schedules st) id in
  if negb (pipeline_exists st pid) then Err (InvalidReference ("No pipeline `" ++ pid ++ "`."))
  else if existsb (name_is name) (st_schedules st)
  then Err (InvalidArgument ("Schedule `" ++ name ++ "` already exists."))
  else if negb (bool_decide (is_Some cron) || bool_decide (is_Some interval))
  then Err (InvalidArgument "A schedule needs a cron expression or an interval.")
  else let sc := mkSchedule id name pid cron interval in
       Ok (sc, with_schedules st (st_schedules st ++ [sc])).

(** Status transitions a running run may take (spec 3: monotonic). *)
Definition status_transition_ok (old new : ExecutionStatus) : bool :=
  match old, new with
  | Running, (Completed | Failed) => true
  | _, _ => false
  end.

Definition set_status (s : ExecutionStatus) (r : PipelineRun) : PipelineRun :=
  mkRun (run_id r) (run_name r) (run_pipeline_id r) (run_build_id r) (run_stack_id r) s.

Definition update_run_status (st : Store) (id : string) (new : ExecutionStatus)
    : result Store ZenError :=
  match List.find (id_is id) (st_runs st) with
  | None => Err (NotFound id)
  | Some r =>
      if status_transition_ok (run_status r) new
      then Ok (with_runs st (map (fun r' => if id_is id r' then set_status new r' else r') (st_runs st)))
      else Err (InvalidArgument "Illegal run status transition.")
  end.

(** Hard deletes of a single record, after resolution. *)
Definition remove_id `{Entity E} (id : string) (xs : list E) : list E :=
  List.filter (fun e => negb (id_is id e)) xs.

Definition delete_pipeline_run (st : Store) (x : string) : result Store ZenError :=
  let? r := resolve (st_runs st) x None in
  Ok (with_runs st (remove_id (run_id r) (st_runs st))).

Definition delete_schedule (st : Store) (x : string) : result Store ZenError :=
  let? sc := resolve (st_schedules st) x None in
  Ok (with_schedules st (remove_id (schedule_id sc) (st_schedules st))).

Definition delete_build (st : Store) (x : string) : result Store ZenError :=
  let? b := resolve (st_builds st) x None in
  Ok (with_builds st (remove_id (build_id b) (st_builds st))).

(** ** The cascade engine (spec 4.3) *)

(** The primitive store operations a cascade is made of. *)
Inductive StoreOp :=
| UnlistRun (rid : string)
| DeleteScheduleRow (sid : string)
| DeleteBuildRow (bid : string)
| DeletePipelineRow (pid : string).

Definition apply_op (st : Store) (op : StoreOp) : Store :=
  match op with
  | UnlistRun rid =>
      with_runs st (map (fun r => if id_is rid r then set_status Unlisted r else r) (st_runs st))
  | DeleteScheduleRow sid => with_schedules st (remove_id sid (st_schedules st))
  | DeleteBuildRow bid => with_builds st (remove_id bid (st_builds st))
  | DeletePipelineRow pid => with_pipelines st (remove_id pid (st_pipelines st))
  end.

(** Delete(Pipeline): unlist its runs, delete its schedules and builds,
    then the pipeline row. *)
Definition cascade_plan (st : Store) (pid : string) : list StoreOp :=
  map (fun r => UnlistRun (run_id r))
      (List.filter (fun r => String.eqb (run_pipeline_id r) pid) (st_runs st)) ++
  map (fun sc => DeleteScheduleRow (schedule_id sc))
      (List.filter (fun sc => String.eqb (schedule_pipeline_id sc) pid) (st_schedules st)) ++
  map (fun b => DeleteBuildRow (build_id b))
      (List.filter (fun b => String.eqb (build_pipeline_id b) pid) (st_builds st)) ++
  [DeletePipelineRow pid].

(** The storage backend runs the operations one at a time; [fail_at]
    injects a storage failure before operation number [k].  The store
    reached so far is returned with the failure. *)
Fixpoint exec_ops (fail_at : option nat) (k : nat) (st : Store) (ops : list StoreOp)
    : Store * option ZenError :=
  match ops with
  | [] => (st, None)
  | op :: ops' =>
      if bool_decide (fail_at = Some k)
      then (st, Some (StorageError "storage failure"))
      else exec_ops fail_at (S k) (apply_op st op) ops'
  end.

(** All-or-nothing: a failed run discards the partial store. *)
Definition transaction (fail_at : option nat) (st : Store) (ops : list StoreOp)
    : result Store ZenError :=
  match exec_ops fail_at 0 st ops with
  | (st', None) => Ok st'
  | (_, Some e) => Err (CascadeFailed (zen_error_str e))
  end.

(** [Client.delete_pipeline(name_id_or_prefix, version)]. *)
Definition delete_pipeline (fail_at : option nat) (st : Store) (x : string)
    (version : option string) : result (Pipeline * Store) ZenError :=
  let? p := resolve (st_pipelines st) x version in
  let? st' := transaction fail_at st (cascade_plan st (pipeline_id p)) in
  Ok (p, st').

(** The declarative effect of deleting pipeline [pid]. *)
Definition cascade_spec (st : Store) (pid : string) : Store :=
  mkStore (st_stacks st)
    (List.filter (fun p => negb (String.eqb (pipeline_id p) pid)) (st_pipelines st))
    (List.filter (fun b => negb (String.eqb (build_pipeline_id b) pid)) (st_builds st))
    (map (fun r => if String.eqb (run_pipeline_id r) pid then set_status Unlisted r else r)
         (st_runs st))
    (List.filter (fun sc => negb (String.eqb (schedule_pipeline_id sc) pid)) (st_schedules st)).

(** ** Invariant of the store *)

Record wf (st : Store) : Prop := {
  wf_pipeline_ids : List.NoDup (map pipeline_id (st_pipelines st));
  wf_build_ids : List.NoDup (map build_id (st_builds st));
  wf_run_ids : List.NoDup (map run_id (st_runs st));
  wf_schedule_ids : List.NoDup (map schedule_id (st_schedules st));
  wf_name_version : List.NoDup (map name_version (st_pipelines st));
  wf_version_pos : Forall (fun p => 1 <= pipeline_version p) (st_pipelines st);
  wf_build_fk : Forall (fun b => pipeline_exists st (build_pipeline_id b) = true) (st_builds st);
  wf_schedule_fk :
    Forall (fun sc => pipeline_exists st (schedule_pipeline_id sc) = true) (st_schedules st);
  wf_run_fk : Forall (fun r => pipeline_exists st (run_pipeline_id r) = true \/
                               run_status r = Unlisted) (st_runs st);
  wf_schedule_names : List.NoDup (map schedule_name (st_schedules st));
  wf_pipeline_uuids : Forall (fun p => is_valid_uuid (pipeline_id p) = true) (st_pipelines st) }.

(** ** Cascade lemmas *)

Lemma set_status_id s r : run_id (set_status s r) = run_id r.
Proof. done. Qed.

Lemma set_status_idem s s' r : set_status s (set_status s' r) = set_status s r.
Proof. done. Qed.

(** Filtering by a predicate, then reading off the IDs, decides the
    predicate on a member when IDs are unique. *)
Lemma existsb_ids_filter `{Entity E} (P : E -> bool) xs e :
  List.NoDup (map ent_id xs) -> In e xs ->
  existsb (fun i => id_is i e) (map ent_id (List.filter P xs)) = P e.
Proof.
  induction xs as [|x xs IH]; [done |]. simpl.
  intros [Hnin Hnd]%NoDup_cons_iff Hin.
  assert (Hfresh : forall i, In i (map ent_id (List.filter P xs)) -> ent_id x <> i).
  { intros i Hi Heq. subst i. apply Hnin. apply in_map_iff in Hi as (y & Hy & Hiny).
    apply filter_In in Hiny as [Hiny _]. rewrite <- Hy. by apply in_map. }
  assert (Hnone : existsb (fun i => id_is i x) (map ent_id (List.filter P xs)) = false).
  { apply not_true_iff_false. intros (i & Hi & Heq)%existsb_exists.
    apply String.eqb_eq in Heq. by apply (Hfresh i). }
  destruct Hin as [-> | Hin].
  - destruct (P e) eqn:He; simpl; [unfold id_is; by rewrite String.eqb_refl | done].
  - destruct (P x); simpl; [| by apply IH].
    rewrite IH by done. unfold id_is.
    destruct (String.eqb_spec (ent_id e) (ent_id x)) as [Heq | _]; [| done].
    exfalso. apply Hnin. rewrite <- Heq. by apply in_map.
Qed.

Lemma fold_unlist st (ids : list string) :
  fold_left apply_op (map UnlistRun ids) st =
  with_runs st (map (fun r => if existsb (fun i => id_is i r) ids then set_status Unlisted r else r)
                    (st_runs st)).
Proof.
  revert st. induction ids as [|i ids IH]; intros st; simpl.
  - destruct st as [? ? ? rs ?]; unfold with_runs; simpl. f_equal.
    rewrite <- (map_id rs) at 1. by apply map_ext.
  - rewrite IH. unfold with_runs; simpl. f_equal. rewrite map_map. apply map_ext. intros r.
    destruct (id_is i r) eqn:Hi; simpl; [| done].
    unfold id_is in *; simpl. by destruct existsb.
Qed.

Lemma fold_remove `{Entity E} (ids : list string) (xs : list E) :
  fold_left (fun l i => remove_id i l) ids xs =
  List.filter (fun e => negb (existsb (fun i => id_is i e) ids)) xs.
Proof.
  revert xs. induction ids as [|i ids IH]; intros xs; simpl.
  - rewrite <- (filter_true xs) at 1. by apply filter_ext.
  - rewrite IH. unfold remove_id. rewrite filter_filter_andb.
    apply filter_ext. intros e. by destruct (id_is i e).
Qed.

Lemma fold_delete_schedules st ids :
  fold_left apply_op (map DeleteScheduleRow ids) st =
  with_schedules st (fold_left (fun l i => remove_id i l) ids (st_schedules st)).
Proof. revert st. induction ids as [|i ids IH]; intros st; simpl; [by destruct st | by rewrite IH]. Qed.

Lemma fold_delete_builds st ids :
  fold_left apply_op (map DeleteBuildRow ids) st =
  with_builds st (fold_left (fun l i => remove_id i l) ids (st_builds st)).
Proof. revert st. induction ids as [|i ids IH]; intros st; simpl; [by destruct st | by rewrite IH]. Qed.

(** Reading a filtered table through the IDs it selected. *)
Ltac ids_filter_ext :=
  match goal with
  | |- context [existsb (fun i => id_is i ?e) (map ?f (List.filter ?P ?xs))] =>
      let X := fresh in
      pose proof (existsb_ids_filter P xs e) as X; simpl in X; rewrite X; [done | | done]
  end.

(** The plan, run to completion, has exactly the declarative effect. *)
Lemma cascade_refines st pid :
  wf st -> fold_left apply_op (cascade_plan st pid) st = cascade_spec st pid.
Proof.
  intros Hwf. unfold cascade_plan. rewrite !fold_left_app.
  rewrite <- (map_map run_id UnlistRun), <- (map_map schedule_id DeleteScheduleRow),
    <- (map_map build_id DeleteBuildRow).
  rewrite fold_unlist, fold_delete_schedules, fold_delete_builds, !fold_remove.
  simpl. unfold cascade_spec, with_pipelines, with_runs, with_schedules, with_builds; simpl. f_equal.
  - apply filter_ext_in. intros b Hb. ids_filter_ext. apply Hwf.
  - apply map_ext_in. intros r Hr. ids_filter_ext. apply Hwf.
  - apply filter_ext_in. intros sc Hsc. ids_filter_ext. apply Hwf.
Qed.

(** Whether an injected failure falls inside a run of [n] operations
    started at index [k]. *)
Definition fails (fail_at : option nat) (k n : nat) : bool :=
  match fail_at with Some j => Nat.leb k j && Nat.ltb j (k + n) | None => false end.

Lemma fails_Some j k n : fails (Some j) k n = true <-> k <= j < k + n.
Proof. unfold fails. rewrite andb_true_iff, Nat.leb_le, Nat.ltb_lt. done. Qed.

Lemma exec_ops_ok fail k st ops :
  fails fail k (List.length ops) = false -> exec_ops fail k st ops = (fold_left apply_op ops st, None).
Proof.
  revert k st. induction ops as [|op ops IH]; intros k st Hf; simpl; [done |].
  case_bool_decide as Hk.
  - subst. exfalso. apply not_true_iff_false in Hf. apply Hf, fails_Some. simpl. lia.
  - apply IH. destruct fail as [j|]; [| done].
    apply not_true_iff_false. intros Hj%fails_Some. apply not_true_iff_false in Hf.
    apply Hf, fails_Some. simpl in *. assert (j <> k) by congruence. lia.
Qed.

Lemma exec_ops_fail j k st ops :
  fails (Some j) k (List.length ops) = true ->
  snd (exec_ops (Some j) k st ops) = Some (StorageError "storage failure").
Proof.
  revert k st. induction ops as [|op ops IH]; intros k st Hf%fails_Some; simpl in *; [lia |].
  case_bool_decide as Hk; [done |]. apply IH, fails_Some. assert (j <> k) by congruence. lia.
Qed.

(** Deleting a pipeline is all-or-nothing.  After the resolver has
    picked pipeline [p], [delete_pipeline] either returns exactly the
    declarative cascade of [p] (runs unlisted, schedules, builds and the
    pipeline deleted), or, when the injected storage failure falls inside
    the plan, a single [CascadeFailed] error and no new store, so the
    caller keeps the pre-cascade store. *)
Theorem delete_pipeline_spec fail st x v p :
  wf st -> resolve (st_pipelines st) x v = Ok p ->
  delete_pipeline fail st x v =
    if fails fail 0 (List.length (cascade_plan st (pipeline_id p)))
    then Err (CascadeFailed "storage failure")
    else Ok (p, cascade_spec st (pipeline_id p)).
Proof.
  intros Hwf Hres. unfold delete_pipeline. rewrite Hres. simpl. unfold transaction.
  destruct (fails fail 0 _) eqn:Hf.
  - destruct fail as [j|]; [| discriminate].
    pose proof (exec_ops_fail j 0 st _ Hf) as He.
    destruct (exec_ops _ _ _ _) as [st' [e|]]; simpl in He; simplify_eq. done.
  - rewrite exec_ops_ok by done. simpl. by rewrite cascade_refines.
Qed.

(** The spec's cascade contract.  After a successful delete of
    pipeline [p]: no run is hard-deleted (the run IDs are those before,
    in order), every run of [p] is unlisted and every other run is
    untouched; no build or schedule of [p] remains while those of other
    pipelines all remain; the pipeline itself is gone. *)
Theorem delete_pipeline_cascade fail st x v p st' :
  wf st -> delete_pipeline fail st x v = Ok (p, st') ->
  map run_id (st_runs st') = map run_id (st_runs st) /\
  (forall r, In r (st_runs st) ->
     In (if String.eqb (run_pipeline_id r) (pipeline_id p)
         then set_status Unlisted r else r) (st_runs st')) /\
  (forall b, In b (st_builds st') <-> In b (st_builds st) /\ build_pipeline_id b <> pipeline_id p) /\
  (forall sc, In sc (st_schedules st') <->
     In sc (st_schedules st) /\ schedule_pipeline_id sc <> pipeline_id p) /\
  (forall q, In q (st_pipelines st') <-> In q (st_pipelines st) /\ pipeline_id q <> pipeline_id p).
Proof.
  intros Hwf Hdel. pose proof Hdel as Hd. unfold delete_pipeline in Hd. res_simpl.
  rewrite (delete_pipeline_spec fail st x v a) in Hdel by done.
  destruct fails; simplify_eq. unfold cascade_spec; simpl.
  split_and!.
  - rewrite map_map. apply map_ext. intros r. by destruct String.eqb.
  - intros r Hr. apply in_map_iff. eauto.
  - intros b. rewrite filter_In, negb_true_iff, String.eqb_neq. done.
  - intros sc. rewrite filter_In, negb_true_iff, String.eqb_neq. done.
  - intros q. rewrite filter_In, negb_true_iff, String.eqb_neq. done.
Qed.

(** ** Preservation of the invariant *)

Section IdLemmas.
Context {E : Type} `{Entity E}.

Lemma id_taken_false (xs : list E) id : id_taken xs id = false -> ~ In id (map ent_id xs).
Proof.
  intros Hf (e & <- & He)%in_map_iff. apply not_true_iff_false in Hf. apply Hf.
  apply existsb_exists. exists e. split; [done |]. apply String.eqb_refl.
Qed.

Lemma id_taken_In (xs : list E) id : id_taken xs id = true <-> exists e, In e xs /\ ent_id e = id.
Proof.
  unfold id_taken. rewrite existsb_exists. unfold id_is.
  setoid_rewrite String.eqb_eq. done.
Qed.

Lemma check_new_id_Ok (xs : list E) id u :
  check_new_id xs id = Ok u -> is_valid_uuid id = true /\ ~ In id (map ent_id xs).
Proof.
  unfold check_new_id. destruct (is_valid_uuid id), (id_taken xs id) eqn:Ht;
    simpl; intros; simplify_eq. split; [done |]. by apply id_taken_false.
Qed.

Lemma id_taken_app (xs ys : list E) id : id_taken xs id = true -> id_taken (xs ++ ys) id = true.
Proof. rewrite !id_taken_In. intros (e & ? & ?). exists e. rewrite in_app_iff. auto. Qed.

Lemma id_taken_remove (xs : list E) pid id :
  id <> pid -> id_taken (remove_id pid xs) id = id_taken xs id.
Proof.
  intros Hne. apply eq_bool_prop_intro. rewrite !Is_true_true, !id_taken_In.
  split; intros (e & He & <-); exists e; split; auto.
  - by apply filter_In in He as [? _].
  - apply filter_In. split; [done |]. unfold id_is.
    apply negb_true_iff, String.eqb_neq. done.
Qed.

Lemma NoDup_ids_eq (xs : list E) x y :
  List.NoDup (map ent_id xs) -> In x xs -> In y xs -> ent_id x = ent_id y -> x = y.
Proof.
  induction xs as [|z xs IH]; [done |]. simpl.
  intros [Hnin Hnd]%NoDup_cons_iff [<- | Hx] [<- | Hy] Heq; auto.
  - exfalso. apply Hnin. rewrite Heq. by apply in_map.
  - exfalso. apply Hnin. rewrite <- Heq. by apply in_map.
Qed.

Lemma NoDup_remove {K} (f : E -> K) (xs : list E) id :
  List.NoDup (map f xs) -> List.NoDup (map f (remove_id id xs)).
Proof. apply NoDup_map_filter. Qed.

Lemma Forall_remove (P : E -> Prop) (xs : list E) id : Forall P xs -> Forall P (remove_id id xs).
Proof.
  rewrite !List.Forall_forall. intros HP x Hx. apply HP. by apply filter_In in Hx as [? _].
Qed.
End IdLemmas.

Lemma fk_mono {A} (st st' : Store) (f : A -> string) (l : list A) :
  (forall x, pipeline_exists st x = true -> pipeline_exists st' x = true) ->
  Forall (fun a => pipeline_exists st (f a) = true) l ->
  Forall (fun a => pipeline_exists st' (f a) = true) l.
Proof. intros Hm HF. eapply Forall_impl; [exact HF | auto]. Qed.

Lemma fk_run_mono (st st' : Store) (l : list PipelineRun) :
  (forall x, pipeline_exists st x = true -> pipeline_exists st' x = true) ->
  Forall (fun r => pipeline_exists st (run_pipeline_id r) = true \/ run_status r = Unlisted) l ->
  Forall (fun r => pipeline_exists st' (run_pipeline_id r) = true \/ run_status r = Unlisted) l.
Proof. intros Hm HF. eapply Forall_impl; [exact HF |]. intros r [?|?]; auto. Qed.

Lemma next_version_fresh ps name :
  ~ In (Some name, next_version ps name) (map name_version ps).
Proof.
  intros (q & Hq & Hin)%in_map_iff. unfold name_version in Hq. simplify_eq.
  assert (Hle : pipeline_version q <= max_list (map pipeline_version (List.filter (name_is name) ps))).
  { apply max_list_ge, in_map, filter_In. split; [done |].
    unfold name_is. rewrite H. apply String.eqb_refl. }
  unfold version_of in H0. simpl in H0. unfold next_version in H0. lia.
Qed.

Lemma create_pipeline_wf st id name spec p st' :
  wf st -> create_pipeline st id name spec = Ok (p, st') -> wf st'.
Proof.
  intros Hwf Hc. unfold create_pipeline in Hc. res_simpl. simplify_eq.
  apply check_new_id_Ok in Ha as [Hvalid Hfresh].
  assert (Hm : forall x, pipeline_exists st x = true ->
     pipeline_exists (with_pipelines st (st_pipelines st ++ [mkPipeline id name (next_version (st_pipelines st) name) spec])) x = true).
  { intros x. apply id_taken_app. }
  destruct Hwf; constructor; simpl; rewrite ?map_app; cbn [map];
    eauto using NoDup_snoc, Forall_snoc, fk_mono, fk_run_mono.
  - apply NoDup_snoc; [done | apply next_version_fresh].
  - apply Forall_snoc; [done | unfold next_version; simpl; lia].
Qed.

Lemma create_build_wf st id pid stack images is_local b st' :
  wf st -> create_build st id pid stack images is_local = Ok (b, st') -> wf st'.
Proof.
  intros Hwf Hc. unfold create_build in Hc. res_simpl. split_guards. simplify_eq.
  apply check_new_id_Ok in Ha as [_ Hfresh].
  destruct Hwf; constructor; simpl; rewrite ?map_app; cbn [map]; eauto using NoDup_snoc, Forall_snoc.
Qed.

Lemma create_run_wf st id name pid build stack r st' :
  wf st -> create_run st id name pid build stack = Ok (r, st') -> wf st'.
Proof.
  intros Hwf Hc. unfold create_run in Hc. res_simpl. split_guards. simplify_eq.
  apply check_new_id_Ok in Ha as [_ Hfresh].
  destruct Hwf; constructor; simpl; rewrite ?map_app; cbn [map]; eauto using NoDup_snoc, Forall_snoc.
Qed.

Lemma create_schedule_wf st id name pid cron interval sc st' :
  wf st -> create_schedule st id name pid cron interval = Ok (sc, st') -> wf st'.
Proof.
  intros Hwf Hc. unfold create_schedule in Hc. res_simpl. split_guards. simplify_eq.
  apply check_new_id_Ok in Ha as [_ Hfresh].
  assert (Hname : ~ In name (map schedule_name (st_schedules st))).
  { intros (x & Hx & Hin)%in_map_iff.
    match goal with G : existsb _ _ = false |- _ => apply not_true_iff_false in G; apply G end.
    apply existsb_exists. exists x. unfold name_is; simpl. rewrite Hx, String.eqb_refl. done. }
  destruct Hwf; constructor; simpl; rewrite ?map_app; cbn [map]; eauto using NoDup_snoc, Forall_snoc.
Qed.

Lemma find_id_is `{Entity E} (xs : list E) id e :
  List.find (id_is id) xs = Some e -> In e xs /\ ent_id e = id.
Proof.
  intros Hf. apply find_some in Hf as [Hin Hid]. split; [done |]. by apply String.eqb_eq.
Qed.

Lemma update_run_status_wf st id new st' :
  wf st -> update_run_status st id new = Ok st' -> wf st'.
Proof.
  intros Hwf Hu. unfold update_run_status in Hu.
  destruct (List.find _ _) as [r|] eqn:Hf; [| discriminate].
  split_guards. simplify_eq. apply find_id_is in Hf as [Hr Hid].
  assert (Hrun : run_status r = Running) by (destruct (run_status r), new; done).
  destruct Hwf; constructor; simpl; auto.
  - rewrite map_map. erewrite map_ext; [done |]. intros x. by destruct id_is.
  - rewrite List.Forall_forall in wf_run_fk0 |- *.
    intros x (y & <- & Hy)%in_map_iff.
    destruct (id_is id y) eqn:Hyid; [| by apply wf_run_fk0].
    apply String.eqb_eq in Hyid.
    assert (y = r) as -> by (apply (NoDup_ids_eq (st_runs st)); auto; congruence).
    destruct (wf_run_fk0 r Hr) as [? | Hu]; [by left | congruence].
Qed.

Lemma delete_pipeline_run_wf st x st' : wf st -> delete_pipeline_run st x = Ok st' -> wf st'.
Proof.
  intros Hwf Hd. unfold delete_pipeline_run in Hd. res_simpl. simplify_eq.
  destruct Hwf; constructor; simpl; auto using NoDup_remove, Forall_remove.
Qed.

Lemma delete_schedule_wf st x st' : wf st -> delete_schedule st x = Ok st' -> wf st'.
Proof.
  intros Hwf Hd. unfold delete_schedule in Hd. res_simpl. simplify_eq.
  destruct Hwf; constructor; simpl; auto using NoDup_remove, Forall_remove.
Qed.

Lemma delete_build_wf st x st' : wf st -> delete_build st x = Ok st' -> wf st'.
Proof.
  intros Hwf Hd. unfold delete_build in Hd. res_simpl. simplify_eq.
  destruct Hwf; constructor; simpl; auto using NoDup_remove, Forall_remove.
Qed.

Lemma cascade_spec_exists st pid x :
  x <> pid -> pipeline_exists (cascade_spec st pid) x = pipeline_exists st x.
Proof. intros Hne. exact (id_taken_remove (st_pipelines st) pid x Hne). Qed.

(** Keep the members of a filtered table whose pipeline is not [pid]. *)
Lemma Forall_fk_filter {A} st pid (f : A -> string) (l : list A) :
  Forall (fun a => pipeline_exists st (f a) = true) l ->
  Forall (fun a => pipeline_exists (cascade_spec st pid) (f a) = true)
    (List.filter (fun a => negb (String.eqb (f a) pid)) l).
Proof.
  rewrite !List.Forall_forall. intros Hfk a (Ha & Hne)%filter_In.
  apply negb_true_iff, String.eqb_neq in Hne. rewrite cascade_spec_exists; auto.
Qed.

Lemma cascade_spec_wf st pid : wf st -> wf (cascade_spec st pid).
Proof.
  intros []. constructor; simpl; try apply NoDup_map_filter; try apply Forall_fk_filter;
    auto using Forall_filter_keep.
  - rewrite map_map. erewrite map_ext; [done |]. intros r. by destruct String.eqb.
  - rewrite List.Forall_forall in wf_run_fk0 |- *. intros r' (r & <- & Hr)%in_map_iff. cbv beta.
    destruct (String.eqb_spec (run_pipeline_id r) pid) as [_ | Hne]; [by right |].
    rewrite cascade_spec_exists; auto.
Qed.

Lemma delete_pipeline_wf fail st x v p st' :
  wf st -> delete_pipeline fail st x v = Ok (p, st') -> wf st'.
Proof.
  intros Hwf Hd. pose proof Hd as Hd'. unfold delete_pipeline in Hd'. res_simpl.
  rewrite (delete_pipeline_spec fail st x v a) in Hd by done.
  destruct fails; simplify_eq. by apply cascade_spec_wf.
Qed.

(** ** The registry as a state machine *)

(** One successful client operation. *)
Inductive step : Store -> Store -> Prop :=
| step_create_pipeline st id name spec p st' :
    create_pipeline st id name spec = Ok (p, st') -> step st st'
| step_create_build st id pid stack images is_local b st' :
    create_build st id pid stack images is_local = Ok (b, st') -> step st st'
| step_create_run st id name pid build stack r st' :
    create_run st id name pid build stack = Ok (r, st') -> step st st'
| step_create_schedule st id name pid cron interval sc st' :
    create_schedule st id name pid cron interval = Ok (sc, st') -> step st st'
| step_update_run st id new st' :
    update_run_status st id new = Ok st' -> step st st'
| step_delete_pipeline fail st x v p st' :
    delete_pipeline fail st x v = Ok (p, st') -> step st st'
| step_delete_run st x st' : delete_pipeline_run st x = Ok st' -> step st st'
| step_delete_schedule st x st' : delete_schedule st x = Ok st' -> step st st'
| step_delete_build st x st' : delete_build st x = Ok st' -> step st st'.

Definition reachable (stacks : list string) (st : Store) : Prop :=
  rtc step (empty_store stacks) st.

Lemma empty_store_wf stacks : wf (empty_store stacks).
Proof. constructor; simpl; constructor. Qed.

Lemma step_wf st st' : wf st -> step st st' -> wf st'.
Proof.
  intros Hwf Hs. destruct Hs;
    eauto using create_pipeline_wf, create_build_wf, create_run_wf, create_schedule_wf,
      update_run_status_wf, delete_pipeline_wf, delete_pipeline_run_wf,
      delete_schedule_wf, delete_build_wf.
Qed.

Lemma steps_wf st st' : wf st -> rtc step st st' -> wf st'.
Proof. intros Hwf Hr. induction Hr; eauto using step_wf. Qed.

Lemma exec_ops_stacks fail k st ops : st_stacks (fst (exec_ops fail k st ops)) = st_stacks st.
Proof.
  revert k st; induction ops as [|op ops IH]; intros k st; simpl; [done |].
  case_bool_decide; [done |]. rewrite IH. by destruct op.
Qed.

(** No client operation adds or removes a stack. *)
Lemma step_stacks st st' : step st st' -> st_stacks st' = st_stacks st.
Proof.
  intros Hs. destruct Hs as [st id name spec p st' Hc | st id pid stack images is_local b st' Hc
    | st id name pid build stack r st' Hc | st id name pid cron interval sc st' Hc
    | st id new st' Hc | fail st x v p st' Hc | st x st' Hc | st x st' Hc | st x st' Hc].
  - unfold create_pipeline in Hc. res_simpl. by simplify_eq.
  - unfold create_build in Hc. res_simpl. split_guards. by simplify_eq.
  - unfold create_run in Hc. res_simpl. split_guards. by simplify_eq.
  - unfold create_schedule in Hc. res_simpl. split_guards. by simplify_eq.
  - unfold update_run_status in Hc. destruct (List.find _ _); [| done]. split_guards. by simplify_eq.
  - unfold delete_pipeline, transaction in Hc. res_simpl.
    pose proof (exec_ops_stacks fail 0 st (cascade_plan st (pipeline_id a))) as He.
    destruct (exec_ops _ _ _ _) as [st1 [e|]]; simpl in *; simplify_eq. done.
  - unfold delete_pipeline_run in Hc. res_simpl. by simplify_eq.
  - unfold delete_schedule in Hc. res_simpl. by simplify_eq.
  - unfold delete_build in Hc. res_simpl. by simplify_eq.
Qed.

Lemma steps_stacks st st' : rtc step st st' -> st_stacks st' = st_stacks st.
Proof. induction 1 as [| x y z Hxy _ IH]; [done |]. rewrite IH. by apply step_stacks. Qed.

(** Every store reachable from an empty one by client operations is
    well formed: IDs unique in each table, (name, version) unique among
    pipelines, versions positive, builds and schedules point at existing
    pipelines, every run points at an existing pipeline or is unlisted,
    and schedule names are unique. *)
Theorem reachable_wf stacks st : reachable stacks st -> wf st.
Proof.
  intros Hr. apply (steps_wf (empty_store stacks)); [apply empty_store_wf | done].
Qed.

(** ** Run status is monotonic *)

Definition status_rank (s : ExecutionStatus) : nat :=
  match s with Running => 0 | Completed | Failed => 1 | Unlisted => 2 end.

Definition status_le (a b : ExecutionStatus) : Prop := a = b \/ status_rank a < status_rank b.

Lemma status_le_refl a : status_le a a.
Proof. by left. Qed.

Lemma status_le_unlisted a : status_le a Unlisted.
Proof. destruct a; [right | right | right | left]; simpl; auto. Qed.

(** Each run after a step comes from a run with the same ID and a lower or
    equal status, or carries an ID the store did not hold. *)
Lemma step_runs st st' r' :
  wf st -> step st st' -> In r' (st_runs st') ->
  (exists r, In r (st_runs st) /\ run_id r = run_id r' /\ status_le (run_status r) (run_status r')) \/
  ~ In (run_id r') (map run_id (st_runs st)).
Proof.
  intros Hwf Hs Hin. assert (Hsame : In r' (st_runs st) -> exists r, In r (st_runs st) /\
    run_id r = run_id r' /\ status_le (run_status r) (run_status r')).
  { intros. exists r'. auto using status_le_refl. }
  destruct Hs as [st id name spec p st' Hc | st id pid stack images is_local b st' Hc
    | st id name pid build stack r st' Hc | st id name pid cron interval sc st' Hc
    | st id new st' Hc | fail st x v p st' Hc | st x st' Hc | st x st' Hc | st x st' Hc].
  - unfold create_pipeline in Hc. res_simpl. simplify_eq. auto.
  - unfold create_build in Hc. res_simpl. split_guards. simplify_eq. auto.
  - unfold create_run in Hc. res_simpl. split_guards. simplify_eq. simpl in Hin.
    apply in_app_iff in Hin as [Hin | [<- | []]]; [auto |].
    right. by apply check_new_id_Ok in Ha as [_ ?].
  - unfold create_schedule in Hc. res_simpl. split_guards. simplify_eq. auto.
  - unfold update_run_status in Hc. destruct (List.find _ _) as [r|] eqn:Hf; [| done].
    split_guards. simplify_eq. simpl in Hin. apply in_map_iff in Hin as (y & <- & Hy).
    left. exists y. split_and!; [done | by destruct id_is |].
    destruct (id_is id y) eqn:Hyid; [| apply status_le_refl].
    apply find_id_is in Hf as [Hr Hid]. apply String.eqb_eq in Hyid.
    assert (y = r) as -> by (apply (NoDup_ids_eq (st_runs st)); [apply Hwf | done | done | congruence]).
    right. destruct (run_status r), new; simpl in *; done || lia.
  - pose proof Hc as Hd. unfold delete_pipeline in Hd. res_simpl.
    rewrite (delete_pipeline_spec fail st x v a) in Hc by done.
    destruct fails; simplify_eq. simpl in Hin. apply in_map_iff in Hin as (y & <- & Hy).
    left. exists y. split_and!; [done | by destruct String.eqb |].
    destruct String.eqb; [apply status_le_unlisted | apply status_le_refl].
  - unfold delete_pipeline_run in Hc. res_simpl. simplify_eq.
    apply filter_In in Hin as [? _]. auto.
  - unfold delete_schedule in Hc. res_simpl. simplify_eq. auto.
  - unfold delete_build in Hc. res_simpl. simplify_eq. auto.
Qed.

(** No step moves a run's status backwards: a run that exists before
    and after a client operation (same ID) keeps its status or moves up
    the order Running < Completed, Failed < Unlisted. *)
Theorem step_status_monotone st st' r r' :
  wf st -> step st st' -> In r (st_runs st) -> In r' (st_runs st') ->
  run_id r = run_id r' -> status_le (run_status r) (run_status r').
Proof.
  intros Hwf Hs Hr Hr' Hid.
  destruct (step_runs st st' r' Hwf Hs Hr') as [(r0 & Hr0 & Hid0 & Hle) | Hnew].
  - assert (r0 = r) as <- by (apply (NoDup_ids_eq (st_runs st)); [apply Hwf | done | done | simpl; congruence]).
    done.
  - exfalso. apply Hnew. rewrite <- Hid. by apply in_map.
Qed.

(** ** Version assignment *)

(** Registering a pipeline appends one record whose version is one
    more than every version already registered under its name, and 1 when
    the name is new. *)
Theorem create_pipeline_version st id name spec p st' :
  create_pipeline st id name spec = Ok (p, st') ->
  pipeline_name p = name /\ pipeline_id p = id /\ st_pipelines st' = (st_pipelines st ++ [p])%list /\
  (forall q, In q (st_pipelines st) -> pipeline_name q = name ->
     pipeline_version q < pipeline_version p) /\
  ((forall q, In q (st_pipelines st) -> pipeline_name q <> name) -> pipeline_version p = 1).
Proof.
  intros Hc. unfold create_pipeline in Hc. res_simpl. simplify_eq. simpl.
  split_and!; [done .. | |].
  - intros q Hq <-. unfold next_version. apply Nat.lt_succ_r, max_list_ge, in_map, filter_In.
    unfold name_is; simpl. by rewrite String.eqb_refl.
  - intros Hnone. unfold next_version.
    replace (List.filter (name_is name) (st_pipelines st)) with (@nil Pipeline); [done |].
    rewrite <- (filter_false (st_pipelines st)). apply filter_ext_in.
    intros q Hq. unfold name_is; simpl. symmetry. apply String.eqb_neq. auto.
Qed.

(** ** Paginated listing (spec 4.2) *)

(** [zenml.models.page_model.Page]. *)
Record Page (A : Type) := mkPage {
  page_index : nat;
  page_max_size : nat;
  page_total_pages : nat;
  page_total : nat;
  page_items : list A }.
Arguments mkPage {A}.
Arguments page_index {A}. Arguments page_max_size {A}.
Arguments page_total_pages {A}. Arguments page_total {A}. Arguments page_items {A}.

(** Page [index] (from 1) of at most [size] records passing [P], in
    insertion order. *)
Definition list_page {A} (P : A -> bool) (xs : list A) (index size : nat)
    : result (Page A) ZenError :=
  if Nat.eqb index 0 || Nat.eqb size 0
  then Err (InvalidArgument "Page index and size must be positive.")
  else let m := List.filter P xs in
       Ok (mkPage index size (ceil_div (List.length m) size) (List.length m)
                  (firstn size (skipn ((index - 1) * size) m))).

(** [PAGE_INDEX_DEFAULT], [PAGE_SIZE_DEFAULT] and [PAGE_SIZE_MAXIMUM] of
    [zenml.constants]. *)
Definition PAGE_INDEX_DEFAULT : Z := 1.
Definition PAGE_SIZE_DEFAULT : Z := 20.
Definition PAGE_SIZE_MAXIMUM : Z := 10000.

(** The [page] and [size] fields of a filter model ([BaseFilterModel]):
    a value given as a string is read by [int()], a missing one is the
    default, and validation asks [page >= 1] and [1 <= size <=
    PAGE_SIZE_MAXIMUM].  [None] when pydantic raises [ValidationError]. *)
Definition filter_int (v : option string) (dflt : Z) : option Z :=
  match v with None => Some dflt | Some s => py_int s end.

Definition page_and_size (page size : option string) : option (nat * nat) :=
  match filter_int page PAGE_INDEX_DEFAULT, filter_int size PAGE_SIZE_DEFAULT with
  | Some i, Some k =>
      if (1 <=? i)%Z && (1 <=? k)%Z && (k <=? PAGE_SIZE_MAXIMUM)%Z
      then Some (Z.to_nat i, Z.to_nat k) else None
  | _, _ => None
  end.

Definition filter_validation_error : string := "1 validation error for the filter model (page, size)".

(** [Client.list_*(page=..., size=..., ...)]: the filter model is built
    and validated, then the page is fetched. *)
Definition filter_page {A} (P : A -> bool) (xs : list A) (page size : option string)
    : result (Page A) ZenError :=
  match page_and_size page size with
  | Some (i, k) => list_page P xs i k
  | None => Err (InvalidArgument filter_validation_error)
  end.

Lemma pages_concat {A} (l : list A) k n :
  List.concat (map (fun i => firstn k (skipn (i * k) l)) (seq 0 n)) = firstn (n * k) l.
Proof.
  induction n as [|n IH]; [done |].
  rewrite seq_S, map_app, concat_app, IH, Nat.mul_succ_l, firstn_add.
  cbn [map List.concat]. by rewrite app_nil_r.
Qed.

(** Listing page by page is complete and in order: the pages
    1 .. total_pages, concatenated, are exactly the matching records in
    insertion order, and no page holds more than [size] records. *)
Theorem list_pages_complete {A} (P : A -> bool) (xs : list A) size :
  0 < size ->
  let n := ceil_div (List.length (List.filter P xs)) size in
  List.concat (map (fun i => match list_page P xs i size with
                        | Ok pg => page_items pg | Err _ => [] end) (seq 1 n))
    = List.filter P xs /\
  forall i pg, list_page P xs i size = Ok pg ->
    List.length (page_items pg) <= size /\ page_total_pages pg = n.
Proof.
  intros Hk n. split.
  - rewrite <- (firstn_all2 (n := n * size) (List.filter P xs)) by (apply ceil_div_mul_ge; lia).
    rewrite <- pages_concat, <- seq_shift, map_map. f_equal. apply map_ext. intros i.
    unfold list_page. destruct (Nat.eqb_spec size 0); [lia |]. simpl.
    by rewrite Nat.sub_0_r.
  - intros i pg. unfold list_page. destruct (_ || _); [discriminate |].
    intros [= <-]. simpl. split; [rewrite length_firstn; lia | done].
Qed.

(** The canonical spellings of a page and a size in range are read back. *)
Lemma page_and_size_show i k :
  0 < i -> 0 < k -> (Z.of_nat k <= PAGE_SIZE_MAXIMUM)%Z ->
  page_and_size (Some (show_int (Z.of_nat i))) (Some (show_int (Z.of_nat k))) = Some (i, k).
Proof.
  intros Hi Hk Hmax. unfold page_and_size, filter_int. rewrite !py_int_show.
  replace ((1 <=? Z.of_nat i)%Z && (1 <=? Z.of_nat k)%Z && (Z.of_nat k <=? PAGE_SIZE_MAXIMUM)%Z)
    with true by (symmetry; rewrite !andb_true_iff, !Z.leb_le; lia).
  by rewrite !Nat2Z.id.
Qed.

(** ** A decision procedure for the invariant *)

Definition nodupb {K} `{EqDecision K} (l : list K) : bool := bool_decide (NoDup l).

Lemma nodupb_NoDup {K} `{EqDecision K} (l : list K) : nodupb l = true -> List.NoDup l.
Proof. unfold nodupb. rewrite bool_decide_eq_true. apply NoDup_ListNoDup. Qed.

Definition wfb (st : Store) : bool :=
  nodupb (map pipeline_id (st_pipelines st)) && nodupb (map build_id (st_builds st)) &&
  nodupb (map run_id (st_runs st)) && nodupb (map schedule_id (st_schedules st)) &&
  nodupb (map name_version (st_pipelines st)) &&
  forallb (fun p => Nat.leb 1 (pipeline_version p)) (st_pipelines st) &&
  forallb (fun b => pipeline_exists st (build_pipeline_id b)) (st_builds st) &&
  forallb (fun sc => pipeline_exists st (schedule_pipeline_id sc)) (st_schedules st) &&
  forallb (fun r => pipeline_exists st (run_pipeline_id r) ||
                    bool_decide (run_status r = Unlisted)) (st_runs st) &&
  nodupb (map schedule_name (st_schedules st)) &&
  forallb (fun p => is_valid_uuid (pipeline_id p)) (st_pipelines st).

Lemma wfb_wf st : wfb st = true -> wf st.
Proof.
  unfold wfb. rewrite !andb_true_iff. intros ((((((((((H1 & H2) & H3) & H4) & H5) & H6) & H7) & H8) & H9) & H10) & H11).
  apply forallb_Forall in H6, H7, H8, H9, H11.
  constructor; try (eapply nodupb_NoDup; eassumption); try assumption.
  - eapply Forall_impl; [exact H6 |]. intros p. rewrite Nat.leb_le. done.
  - eapply Forall_impl; [exact H9 |].
    intros r [? | ?%bool_decide_eq_true]%orb_true_iff; auto.
Qed.

(** ** The spec's worked example (section 8) *)

Definition uuid1 := "00000000-0000-0000-0000-000000000001".
Definition uuid2 := "00000000-0000-0000-0000-000000000002".
Definition uuid3 := "00000000-0000-0000-0000-000000000003".
Definition uuid4 := "00000000-0000-0000-0000-000000000004".

Definition ok_store {A} (r : result (A * Store) ZenError) (dflt : Store) : Store :=
  match r with Ok (_, st) => st | Err _ => dflt end.

(** "digits" registered twice, one run and one build of version 1. *)
Definition demo_s0 : Store := empty_store ["default"].
Definition demo_s1 : Store := ok_store (create_pipeline demo_s0 uuid1 "digits" "dag-v1") demo_s0.
Definition demo_s2 : Store := ok_store (create_pipeline demo_s1 uuid2 "digits" "dag-v2") demo_s1.
Definition demo_s3 : Store :=
  ok_store (create_run demo_s2 uuid3 "digits-run-1" uuid1 None "default") demo_s2.
Definition demo_store : Store :=
  ok_store (create_build demo_s3 uuid4 uuid1 "default" [("trainer", "img:1")] false) demo_s3.

Definition digits_v1 : Pipeline := mkPipeline uuid1 "digits" 1 "dag-v1".
Definition digits_v2 : Pipeline := mkPipeline uuid2 "digits" 2 "dag-v2".

Lemma step_of_create_pipeline st id name spec :
  is_ok (create_pipeline st id name spec) = true ->
  step st (ok_store (create_pipeline st id name spec) st).
Proof. destruct (create_pipeline _ _ _ _) as [[p st']|] eqn:E; [| done]. intros _. econstructor. exact E. Qed.

Lemma step_of_create_run st id name pid build stack :
  is_ok (create_run st id name pid build stack) = true ->
  step st (ok_store (create_run st id name pid build stack) st).
Proof. destruct (create_run _ _ _ _ _ _) as [[r st']|] eqn:E; [| done]. intros _. eapply step_create_run. exact E. Qed.

Lemma step_of_create_build st id pid stack images is_local :
  is_ok (create_build st id pid stack images is_local) = true ->
  step st (ok_store (create_build st id pid stack images is_local) st).
Proof. destruct (create_build _ _ _ _ _ _) as [[b st']|] eqn:E; [| done]. intros _. eapply step_create_build. exact E. Qed.

Lemma demo_reachable : reachable ["default"] demo_store.
Proof.
  unfold reachable, demo_store.
  eapply rtc_r; [| apply step_of_create_build; vm_compute; reflexivity]. unfold demo_s3.
  eapply rtc_r; [| apply step_of_create_run; vm_compute; reflexivity]. unfold demo_s2.
  eapply rtc_r; [| apply step_of_create_pipeline; vm_compute; reflexivity]. unfold demo_s1.
  eapply rtc_r; [apply rtc_refl | apply step_of_create_pipeline; vm_compute; reflexivity].
Qed.

Example demo_store_wf : wfb demo_store = true.
Proof. vm_compute. reflexivity. Qed.

End Registry.
