(* ===== verification/Cli.v ===== *)
(** * The [zenml pipeline] command handlers ([src/src/zenml/cli/pipeline.py])

    Each click command is a [Cli] computation over a [World]: the
    server-side records (behind the [Client] interface), whether a ZenML
    repository root exists, the active stack, the local files, the
    console output, the user's answers to confirmation prompts and the
    IDs the server will hand out.  A command either returns ([Ok tt],
    exit code 0) or stops with a [CliExit]: a bare [return] (exit 0), a
    [cli_utils.error] (a [click.ClickException], exit 1), a click usage
    error (exit 2), or an exception escaping the handler (exit 1).

    The helpers of [zenml.cli.utils] and the pipeline-side calls
    ([BasePipeline.from_model], [build], [run], [register]) are not under
    src/; they are modelled from the spec and marked so in the manifest.
    Docker builds and orchestration are the external [Backend]. *)

From stdpp Require Import pretty.
From S2P Require Import Prelude Registry.
Import Registry.

Module Cli.

(** ** Console output *)

Inductive Message :=
| MActiveConfig (stack : string)           (** [cli_utils.print_active_config] *)
| MDeclare (text : string)                 (** [cli_utils.declare] *)
| MWarning (text : string)                 (** [cli_utils.warning] *)
| MError (text : string)                   (** the message of [cli_utils.error] *)
| MPrompt (text : string)                  (** [cli_utils.confirmation] *)
| MTable (columns : list string) (rows : list (list string))
| MRunsTable (runs : list PipelineRun)     (** [print_pipeline_runs_table] *)
| MPageInfo (index total_pages total : nat).

(** How a command stops before its end. *)
Inductive CliExit :=
| Return                                   (** a bare [return] *)
| ClickError (msg : string)                (** [cli_utils.error] *)
| UsageError (msg : string)                (** click rejected an argument *)
| Uncaught (e : ZenError).                 (** an exception escaping the handler *)

Definition exit_code (r : result unit CliExit) : nat :=
  match r with
  | Ok _ | Err Return => 0
  | Err (ClickError _) | Err (Uncaught _) => 1
  | Err (UsageError _) => 2
  end.

(** ** Local files: configuration files and exported build documents *)

#[local] Set Warnings "-register-all".
Inductive YamlValue :=
| YStr (s : string)
| YBool (b : bool)
| YMap (kvs : list (string * YamlValue)).

Inductive FileContent :=
| FText (s : string)
| FYaml (doc : YamlValue).

(** ** The interfaces the handlers call *)

(** What the handlers need of [zenml.client.Client]; [Registry] gives
    the instance.  [S] is the server-side state. *)
Class Client (S : Type) := {
  client_stacks : S -> list string;
  client_get_pipeline : S -> string -> option string -> result Pipeline ZenError;
  client_register_pipeline : S -> string -> string -> string -> result (Pipeline * S) ZenError;
  client_create_build : S -> string -> string -> string -> list (string * string) -> bool ->
                        result (PipelineBuild * S) ZenError;
  client_get_build : S -> string -> result PipelineBuild ZenError;
  client_create_run : S -> string -> string -> string -> option string -> string ->
                      result (PipelineRun * S) ZenError;
  client_update_run : S -> string -> ExecutionStatus -> result S ZenError;
  client_delete_pipeline : S -> string -> option string -> result S ZenError;
  client_delete_schedule : S -> string -> result S ZenError;
  client_delete_pipeline_run : S -> string -> result S ZenError;
  client_delete_build : S -> string -> result S ZenError;
  client_list_pipelines : S -> (Pipeline -> bool) -> option string -> option string ->
                          result (Page Pipeline) ZenError;
  client_list_schedules : S -> (Schedule -> bool) -> option string -> option string ->
                          result (Page Schedule) ZenError;
  client_list_runs : S -> (PipelineRun -> bool) -> option string -> option string ->
                     result (Page PipelineRun) ZenError;
  client_list_builds : S -> (PipelineBuild -> bool) -> option string -> option string ->
                       result (Page PipelineBuild) ZenError }.

(** What [source_utils.load_source_path] finds at a dotted path. *)
Inductive SourceResult :=
| SrcPipeline (name spec : string)         (** a [BasePipeline] instance *)
| SrcOther                                 (** some other Python object *)
| SrcModuleNotFound (module : string)      (** [ModuleNotFoundError] *)
| SrcAttributeError (msg : string).        (** [AttributeError] *)

(** The collaborators outside this layer: the source loader, the Docker
    image builder and the orchestrator. *)
Class Backend := {
  load_source_path : string -> SourceResult;
  source_root : string;
  (** the images a pipeline needs on a stack, with [is_local]; [None]
      when no Docker build is required *)
  required_build : Pipeline -> string -> option string -> option (list (string * string) * bool);
  (** the status the orchestrator reports at the end of a run *)
  orchestrate : Pipeline -> string -> option string -> ExecutionStatus }.

(** ** Table rows of [print_pydantic_models] *)

Class Tabular (E : Type) := tab_row : E -> list (string * string).

#[export] Instance Pipeline_Tabular : Tabular Pipeline := fun p =>
  [("id", pipeline_id p); ("name", pipeline_name p);
   ("version", pretty (pipeline_version p)); ("spec", pipeline_spec p)].

#[export] Instance Schedule_Tabular : Tabular Schedule := fun sc =>
  [("id", schedule_id sc); ("name", schedule_name sc); ("pipeline_id", schedule_pipeline_id sc);
   ("cron_expression", default "" (schedule_cron sc));
   ("interval_second", default "" (option_map pretty (schedule_interval sc)))].

#[export] Instance Build_Tabular : Tabular PipelineBuild := fun b =>
  [("id", build_id b); ("pipeline", build_pipeline_id b); ("stack", build_stack_id b);
   ("images", String.concat ", " (map (fun kv => fst kv ++ ": " ++ snd kv) (build_images b)));
   ("is_local", if build_is_local b then "True" else "False")].

(** The list filters of [list_options]: a name and the page wanted, as
    the strings of the command line ([click.option(type=str)]); [None]
    leaves the filter model's default. *)
Record ListArgs := mkListArgs { la_name : option string; la_page : option string; la_size : option string }.

Definition name_filter {E} `{Entity E} (o : option string) (e : E) : bool :=
  match o with Some n => name_is n e | None => true end.

(** ** The commands of the [zenml pipeline] click group *)

Inductive Command :=
| CmdRegister (source : string)
| CmdBuild (x : string) (version config stack output : option string)
| CmdRun (x : string) (version config stack build : option string)
| CmdList (args : ListArgs)
| CmdDelete (x : string) (version : option string) (yes : bool)
| CmdScheduleList (args : ListArgs)
| CmdScheduleDelete (x : string) (yes : bool)
| CmdRunsList (args : ListArgs)
| CmdRunsDelete (x : string) (yes : bool)
| CmdBuildsList (args : ListArgs)
| CmdBuildsDelete (x : string) (yes : bool).

Section Handlers.
Context {S : Type} `{Client S} `{Backend}.

Record World := mkWorld {
  w_server : S;
  w_root : bool;
  w_active_stack : string;
  w_files : list (string * FileContent);
  w_out : list Message;
  w_answers : list bool;
  w_ids : list string }.

(** ** The command monad: state passing with an early exit *)

Definition Cli (A : Type) : Type := World -> World * result A CliExit.

Definition cli_ret {A} (a : A) : Cli A := fun w => (w, Ok a).

Definition cli_bind {A B} (c : Cli A) (f : A -> Cli B) : Cli B :=
  fun w => match c w with
           | (w', Ok a) => f a w'
           | (w', Err e) => (w', Err e)
           end.

Definition cli_stop {A} (e : CliExit) : Cli A := fun w => (w, Err e).

Definition with_out (w : World) (m : Message) : World :=
  mkWorld (w_server w) (w_root w) (w_active_stack w) (w_files w) (w_out w ++ [m])
          (w_answers w) (w_ids w).

Definition with_server (w : World) (s : S) : World :=
  mkWorld s (w_root w) (w_active_stack w) (w_files w) (w_out w) (w_answers w) (w_ids w).

Definition with_stack (w : World) (st : string) : World :=
  mkWorld (w_server w) (w_root w) st (w_files w) (w_out w) (w_answers w) (w_ids w).

Definition emit (m : Message) : Cli unit := fun w => (with_out w m, Ok tt).

(** A client call: its errors escape unless the handler catches them. *)
Definition lift {A} (r : result A ZenError) : Cli A :=
  fun w => match r with Ok a => (w, Ok a) | Err e => (w, Err (Uncaught e)) end.

Definition get_world : Cli World := fun w => (w, Ok w).

Definition set_server (s : S) : Cli unit := fun w => (with_server w s, Ok tt).

(** The next ID the server assigns to a new record. *)
Definition fresh_id : Cli string :=
  fun w => match w_ids w with
           | i :: rest => (mkWorld (w_server w) (w_root w) (w_active_stack w) (w_files w)
                                   (w_out w) (w_answers w) rest, Ok i)
           | [] => (w, Err (Uncaught (StorageError "no ID available")))
           end.

Notation "'let!' x := c 'in' k" := (cli_bind c (fun x => k))
  (at level 10, x name, c at level 100, k at level 200).
Notation "c ;; k" := (cli_bind c (fun _ => k)) (at level 100, right associativity).

(** ** [zenml.cli.utils] *)

Definition print_active_config : Cli unit :=
  fun w => (with_out w (MActiveConfig (w_active_stack w)), Ok tt).

Definition declare (text : string) : Cli unit := emit (MDeclare text).

Definition warning (text : string) : Cli unit := emit (MWarning text).

(** [cli_utils.error] raises [click.ClickException]. *)
Definition cli_error {A} (text : string) : Cli A := emit (MError text) ;; cli_stop (ClickError text).

(** [click.confirm]: the next answer of the user; no answer is [False]. *)
Definition confirmation (text : string) : Cli bool :=
  fun w => let w' := with_out w (MPrompt text) in
           match w_answers w' with
           | a :: rest => (mkWorld (w_server w') (w_root w') (w_active_stack w') (w_files w')
                                   (w_out w') rest (w_ids w'), Ok a)
           | [] => (w', Ok false)
           end.

Definition lookup_file (w : World) (path : string) : option FileContent :=
  option_map snd (List.find (fun kv => String.eqb (fst kv) path) (w_files w)).

Definition write_file (path : string) (c : FileContent) : Cli unit :=
  fun w => (mkWorld (w_server w) (w_root w) (w_active_stack w)
                    ((path, c) :: List.filter (fun kv => negb (String.eqb (fst kv) path)) (w_files w))
                    (w_out w) (w_answers w) (w_ids w), Ok tt).

(** [click.Path(exists=True)] on an optional argument. *)
Definition check_path_exists (o : option string) : Cli unit :=
  fun w => match o with
           | Some p => if lookup_file w p is Some _ then (w, Ok tt)
                       else (w, Err (UsageError ("Path '" ++ p ++ "' does not exist.")))
           | None => (w, Ok tt)
           end.

(** [Client().activate_stack(name_or_id)]. *)
Definition activate_stack (name : string) : Cli unit :=
  fun w => if existsb (String.eqb name) (client_stacks (w_server w))
           then (with_stack w name, Ok tt)
           else (w, Err (Uncaught (NotFound name))).

(** [cli_utils.temporary_active_stack]: when a stack is given, activate
    it for the body and re-activate the previous one in a [finally];
    without one, the body runs on the active stack as it is. *)
Definition temporary_active_stack {A} (stack : option string) (body : Cli A) : Cli A :=
  match stack with
  | Some s =>
      if py_truthy s then
        fun w =>
          let old := w_active_stack w in
          match activate_stack s w with
          | (w1, Err e) => (w1, Err e)
          | (w1, Ok _) =>
              match body w1 with
              | (w2, r) =>
                  match activate_stack old w2 with
                  | (w3, Ok _) => (w3, r)
                  | (w3, Err e) => (w3, Err e)
                  end
              end
          end
      else body
  | None => body
  end.

Definition warn_no_root (command what : string) : Cli unit :=
  let! w := get_world in
  if w_root w then cli_ret tt
  else warning ("You're running the `zenml pipeline " ++ command ++ "` command without a " ++
    "ZenML repository. Your current working directory will be used " ++
    "as the source root relative to which " ++ what ++ " To silence this warning, run " ++
    "`zenml init` at your source code root.").

(** ** Pipeline-side calls ([BasePipeline.register], [build], [run]) *)

Definition client_call {A} (f : S -> result (A * S) ZenError) : Cli A :=
  let! w := get_world in
  let! r := lift (f (w_server w)) in
  set_server (snd r) ;; cli_ret (fst r).

(** A client call that only returns the server's new state. *)
Definition client_update (f : S -> result S ZenError) : Cli unit :=
  let! w := get_world in
  let! s' := lift (f (w_server w)) in set_server s'.

Definition pipeline_register (name spec : string) : Cli Pipeline :=
  let! id := fresh_id in
  client_call (fun s => client_register_pipeline s id name spec).

(** [pipeline_instance.build(config_path)]: [None] when no Docker build
    is required on the active stack. *)
Definition pipeline_build (p : Pipeline) (config : option string) : Cli (option PipelineBuild) :=
  let! w := get_world in
  match required_build p (w_active_stack w) config with
  | None => cli_ret None
  | Some (images, is_local) =>
      let! id := fresh_id in
      let! b := client_call (fun s => client_create_build s id (pipeline_id p)
                                        (w_active_stack w) images is_local) in
      cli_ret (Some b)
  end.

(** ** Build documents *)

(** [build.yaml(include=...)]: the build's fields in declaration order,
    those named in [include] kept. *)
Definition build_yaml (b : PipelineBuild) (include : list string) : YamlValue :=
  YMap (List.filter (fun kv => existsb (String.eqb (fst kv)) include)
    [("id", YStr (build_id b)); ("pipeline", YStr (build_pipeline_id b));
     ("stack", YStr (build_stack_id b));
     ("images", YMap (map (fun kv => (fst kv, YStr (snd kv))) (build_images b)));
     ("is_local", YBool (build_is_local b))]).

(** [PipelineBuildBaseModel]: what a build document carries. *)
Record BuildDoc := mkBuildDoc { doc_images : list (string * string); doc_is_local : bool }.

Definition yaml_get (k : string) (kvs : list (string * YamlValue)) : option YamlValue :=
  option_map snd (List.find (fun kv => String.eqb (fst kv) k) kvs).

Fixpoint yaml_str_map (kvs : list (string * YamlValue)) : option (list (string * string)) :=
  match kvs with
  | [] => Some []
  | (k, YStr v) :: rest => option_map (fun r => (k, v) :: r) (yaml_str_map rest)
  | _ :: _ => None
  end.

(** [PipelineBuildBaseModel.from_yaml]: validation failures raise. *)
Definition build_from_yaml (c : FileContent) : result BuildDoc ZenError :=
  match c with
  | FYaml (YMap kvs) =>
      match yaml_get "images" kvs, yaml_get "is_local" kvs with
      | Some (YMap ims), Some (YBool l) =>
          match yaml_str_map ims with
          | Some images => Ok (mkBuildDoc images l)
          | None => Err (InvalidArgument "Invalid build images.")
          end
      | _, _ => Err (InvalidArgument "Invalid build document.")
      end
  | _ => Err (InvalidArgument "Not a YAML mapping.")
  end.

(** The [build] argument of [pipeline_instance.run]. *)
Inductive BuildArg := BuildById (id : string) | BuildFromDoc (d : BuildDoc).

(** [pipeline_instance.run(config_path=..., build=...)]: resolve or
    create the build, register the run on the active stack, and record
    the status the orchestrator reports. *)
Definition pipeline_run (p : Pipeline) (config : option string) (build : option BuildArg)
    : Cli unit :=
  let! bid := match build with
    | Some (BuildById i) =>
        let! w := get_world in
        let! b := lift (client_get_build (w_server w) i) in cli_ret (Some (build_id b))
    | Some (BuildFromDoc d) =>
        let! w := get_world in
        let! id := fresh_id in
        let! b := client_call (fun s => client_create_build s id (pipeline_id p)
                                 (w_active_stack w) (doc_images d) (doc_is_local d)) in
        cli_ret (Some (build_id b))
    | None => let! ob := pipeline_build p config in cli_ret (option_map build_id ob)
    end in
  let! rid := fresh_id in
  let! w := get_world in
  let! r := client_call (fun s => client_create_run s rid (pipeline_name p ++ "-" ++ rid)
                                   (pipeline_id p) bid (w_active_stack w)) in
  match orchestrate p (w_active_stack w) config with
  | Running => cli_ret tt
  | st => client_update (fun s => client_update_run s (run_id r) st)
  end.

(** ** [zenml pipeline register SOURCE] *)

Definition register_pipeline (source : string) : Cli unit :=
  print_active_config ;;
  (if negb (contains_char "." source) then
     cli_error ("The given source path `" ++ source ++ "` is invalid. Make sure it looks " ++
                "like `some.module.name_of_pipeline_instance_variable` and " ++
                "resolves to a pipeline object.")
   else cli_ret tt) ;;
  (let! w := get_world in
   if w_root w then cli_ret tt
   else warning ("You're running the `zenml pipeline register` command without a " ++
     "ZenML repository. Your current working directory will be used " ++
     "as the source root relative to which the `source` argument is " ++
     "expected. To silence this warning, run `zenml init` at your " ++
     "source code root.")) ;;
  match load_source_path source with
  | SrcModuleNotFound m =>
      cli_error ("Unable to import module `" ++ m ++ "`. Make sure the source path is " ++
                 "relative to your source root `" ++ source_root ++ "`.")
  | SrcAttributeError msg => cli_error ("Unable to load attribute from module: " ++ msg)
  | SrcOther =>
      cli_error ("The given source path `" ++ source ++ "` does not resolve to a pipeline " ++
                 "object.")
  | SrcPipeline name spec => let! _ := pipeline_register name spec in cli_ret tt
  end.

(** ** [zenml pipeline build NAME_OR_ID [-v] [-c] [-s] [-o]] *)

Definition build_pipeline (x : string) (version config stack output : option string)
    : Cli unit :=
  check_path_exists config ;;
  print_active_config ;;
  warn_no_root "build" "the registered step classes will be resolved." ;;
  let! w := get_world in
  let! p := lift (client_get_pipeline (w_server w) x version) in
  let! b := temporary_active_stack stack (pipeline_build p config) in
  match b with
  | Some b =>
      declare ("Created pipeline build `" ++ build_id b ++ "`.") ;;
      match output with
      | Some o =>
          if py_truthy o then
            declare ("Writing pipeline build output to `" ++ o ++ "`.") ;;
            write_file o (FYaml (build_yaml b ["id"; "images"; "is_local"]))
          else cli_ret tt
      | None => cli_ret tt
      end
  | None => declare "No docker builds required."
  end.

(** ** [zenml pipeline run NAME_OR_ID [-v] [-c] [-s] [-b]] *)

Definition parse_build_option (o : option string) : Cli (option BuildArg) :=
  match o with
  | Some x =>
      if py_truthy x then
        if is_valid_uuid x then cli_ret (Some (BuildById x))
        else let! w := get_world in
             match lookup_file w x with
             | Some c => let! d := lift (build_from_yaml c) in cli_ret (Some (BuildFromDoc d))
             | None => cli_error ("The specified build " ++ x ++ " is not a valid UUID " ++
                                  "or file path.")
             end
      else cli_ret None
  | None => cli_ret None
  end.

Definition run_pipeline (x : string) (version config stack build : option string) : Cli unit :=
  check_path_exists config ;;
  print_active_config ;;
  warn_no_root "run" "the registered step classes will be resolved." ;;
  let! w := get_world in
  let! p := lift (client_get_pipeline (w_server w) x version) in
  let! b := parse_build_option build in
  temporary_active_stack stack (pipeline_run p config b).

(** ** Listing *)

(** [cli_utils.print_pydantic_models(page, exclude_columns=...)]. *)
Definition print_pydantic_models {E} `{Tabular E} (pg : Page E) (exclude : list string) : Cli unit :=
  let keep (kv : string * string) := negb (existsb (String.eqb (fst kv)) exclude) in
  emit (MTable (match page_items pg with e :: _ => map fst (List.filter keep (tab_row e)) | [] => [] end)
               (map (fun e => map snd (List.filter keep (tab_row e))) (page_items pg))).

(** [try: ... except KeyError as e: cli_utils.error(str(e))]. *)
Definition catch_key_error {A} (r : result A ZenError) (k : A -> Cli unit) : Cli unit :=
  match r with
  | Ok a => k a
  | Err e => if is_key_error e then cli_error (zen_error_str e) else cli_stop (Uncaught e)
  end.

Definition list_pipelines (args : ListArgs) : Cli unit :=
  print_active_config ;;
  let! w := get_world in
  let! pg := lift (client_list_pipelines (w_server w) (name_filter (la_name args))
                     (la_page args) (la_size args)) in
  match page_items pg with
  | [] => declare "No pipelines found for this filter." ;; cli_stop Return
  | _ => print_pydantic_models pg ["id"; "created"; "updated"; "user"; "workspace"]
  end.

(** [not schedules] on a [Page]: its [__len__], the number of items. *)
Definition page_is_empty {A} (pg : Page A) : bool := Nat.eqb (List.length (page_items pg)) 0.

Definition list_schedules (args : ListArgs) : Cli unit :=
  print_active_config ;;
  let! w := get_world in
  let! pg := lift (client_list_schedules (w_server w) (name_filter (la_name args))
                     (la_page args) (la_size args)) in
  if page_is_empty pg then declare "No schedules found for this filter." ;; cli_stop Return
  else print_pydantic_models pg ["id"; "created"; "updated"; "user"; "workspace"].

Definition list_pipeline_runs (args : ListArgs) : Cli unit :=
  print_active_config ;;
  let! w := get_world in
  catch_key_error (client_list_runs (w_server w) (name_filter (la_name args))
                     (la_page args) (la_size args)) (fun pg =>
    match page_items pg with
    | [] => declare "No pipeline runs found for this filter." ;; cli_stop Return
    | items => emit (MRunsTable items) ;;
               emit (MPageInfo (page_index pg) (page_total_pages pg) (page_total pg))
    end).

Definition list_pipeline_builds (args : ListArgs) : Cli unit :=
  print_active_config ;;
  let! w := get_world in
  catch_key_error (client_list_builds (w_server w) (fun _ => true)
                     (la_page args) (la_size args)) (fun pg =>
    match page_items pg with
    | [] => declare "No pipeline builds found for this filter." ;; cli_stop Return
    | _ => print_pydantic_models pg ["created"; "updated"; "user"; "workspace"]
    end).

(** ** Deleting *)

(** [if not yes: if not confirmation(prompt): declare(canceled); return]. *)
Definition confirm_or_cancel (yes : bool) (prompt canceled : string) : Cli unit :=
  if yes then cli_ret tt
  else let! c := confirmation prompt in
       if c then cli_ret tt else declare canceled ;; cli_stop Return.

(** [try: op() except KeyError as e: error(str(e)) else: declare(done)]. *)
Definition delete_with (op : S -> result S ZenError) (done_msg : string) : Cli unit :=
  let! w := get_world in
  catch_key_error (op (w_server w)) (fun s' => set_server s' ;; declare done_msg).

Definition version_suffix (version : option string) : string :=
  match version with
  | Some v => if py_truthy v then " (version " ++ v ++ ")" else ""
  | None => ""
  end.

Definition delete_pipeline (x : string) (version : option string) (yes : bool) : Cli unit :=
  print_active_config ;;
  confirm_or_cancel yes
    ("Are you sure you want to delete pipeline `" ++ x ++ version_suffix version ++
     "`? This will change all existing runs of this pipeline to become unlisted.")
    "Pipeline deletion canceled." ;;
  delete_with (fun s => client_delete_pipeline s x version)
    ("Deleted pipeline `" ++ x ++ version_suffix version ++ "`.").

Definition delete_schedule (x : string) (yes : bool) : Cli unit :=
  print_active_config ;;
  confirm_or_cancel yes ("Are you sure you want to delete schedule `" ++ x ++ "`?")
    "Schedule deletion canceled." ;;
  delete_with (fun s => client_delete_schedule s x) ("Deleted schedule '" ++ x ++ "'.").

Definition delete_pipeline_run (x : string) (yes : bool) : Cli unit :=
  print_active_config ;;
  confirm_or_cancel yes ("Are you sure you want to delete pipeline run `" ++ x ++ "`?")
    "Pipeline run deletion canceled." ;;
  delete_with (fun s => client_delete_pipeline_run s x) ("Deleted pipeline run '" ++ x ++ "'.").

Definition delete_pipeline_build (x : string) (yes : bool) : Cli unit :=
  print_active_config ;;
  confirm_or_cancel yes ("Are you sure you want to delete pipeline build `" ++ x ++ "`?")
    "Pipeline build deletion canceled." ;;
  delete_with (fun s => client_delete_build s x) ("Deleted pipeline build '" ++ x ++ "'.").

(** ** Dispatch: [zenml pipeline ...], [... schedule ...], [... runs ...], [... builds ...] *)

Definition dispatch (c : Command) : Cli unit :=
  match c with
  | CmdRegister src => register_pipeline src
  | CmdBuild x v c s o => build_pipeline x v c s o
  | CmdRun x v c s b => run_pipeline x v c s b
  | CmdList a => list_pipelines a
  | CmdDelete x v y => delete_pipeline x v y
  | CmdScheduleList a => list_schedules a
  | CmdScheduleDelete x y => delete_schedule x y
  | CmdRunsList a => list_pipeline_runs a
  | CmdRunsDelete x y => delete_pipeline_run x y
  | CmdBuildsList a => list_pipeline_builds a
  | CmdBuildsDelete x y => delete_pipeline_build x y
  end.

(** A sequence of invocations, each a process of its own: its exit ends
    it, and the server, the local files, the ID supply, the console
    transcript and the remaining answers carry over to the next. *)
Fixpoint run_session (cs : list Command) (w : World) : World :=
  match cs with
  | [] => w
  | c :: cs' => run_session cs' (fst (dispatch c w))
  end.
End Handlers.

Notation "'let!' x := c 'in' k" := (cli_bind c (fun x => k))
  (at level 10, x name, c at level 100, k at level 200).
Notation "c ;; k" := (cli_bind c (fun _ => k)) (at level 100, right associativity).

(** ** Properties of the handlers, for any client *)

Section Props.
Context {S : Type} `{Client S} `{Backend}.
#[local] Abbreviation World := (@World S).

Lemma decline_run (w : World) rest prompt canceled (k : Cli unit) :
  w_answers w = false :: rest ->
  cli_bind print_active_config (fun _ => cli_bind (confirm_or_cancel false prompt canceled) (fun _ => k)) w =
  (mkWorld (w_server w) (w_root w) (w_active_stack w) (w_files w)
     (w_out w ++ [MActiveConfig (w_active_stack w); MPrompt prompt; MDeclare canceled])%list
     rest (w_ids w),
   Err Return).
Proof.
  intros Ha. destruct w as [sv root stk files out answers ids]; simpl in *; subst.
  unfold cli_bind, print_active_config, confirm_or_cancel, confirmation, declare, emit,
    cli_stop, with_out; simpl. by rewrite <- !app_assoc.
Qed.

Definition declined (w : World) rest (res : World * result unit CliExit) (canceled : string) : Prop :=
  w_server (fst res) = w_server w /\ exit_code (snd res) = 0 /\ w_answers (fst res) = rest /\
  w_files (fst res) = w_files w /\ w_ids (fst res) = w_ids w /\
  exists prompt, w_out (fst res) =
    (w_out w ++ [MActiveConfig (w_active_stack w); MPrompt prompt; MDeclare canceled])%list.

Lemma decline_declined (w : World) rest prompt canceled (k : Cli unit) :
  w_answers w = false :: rest ->
  declined w rest (cli_bind print_active_config
    (fun _ => cli_bind (confirm_or_cancel false prompt canceled) (fun _ => k)) w) canceled.
Proof. intros Ha. rewrite (decline_run w rest) by done. repeat split; eauto. Qed.

(** C10: answering "no" to the confirmation of any delete command leaves
    the server's records, the files and the ID supply untouched, exits
    with code 0, and ends with the command's "canceled" notice. *)
Theorem delete_declined_no_change (w : World) rest x v :
  w_answers w = false :: rest ->
  declined w rest (delete_pipeline x v false w) "Pipeline deletion canceled." /\
  declined w rest (delete_schedule x false w) "Schedule deletion canceled." /\
  declined w rest (delete_pipeline_run x false w) "Pipeline run deletion canceled." /\
  declined w rest (delete_pipeline_build x false w) "Pipeline build deletion canceled.".
Proof. intros Ha. split_and!; apply decline_declined; done. Qed.

(** The [try]/[except KeyError]/[else] of the delete commands, run. *)
Lemma delete_with_run (op : S -> result S ZenError) msg (w : World) :
  delete_with op msg w =
    match op (w_server w) with
    | Ok s' => (with_out (with_server w s') (MDeclare msg), Ok tt)
    | Err e => if is_key_error e
               then (with_out w (MError (zen_error_str e)), Err (ClickError (zen_error_str e)))
               else (w, Err (Uncaught e))
    end.
Proof.
  unfold delete_with, catch_key_error, cli_bind, get_world, set_server, declare, emit,
    cli_error, cli_stop.
  destruct (op _); [done |]. by destruct is_key_error.
Qed.

(** C11: with [--yes], [zenml pipeline delete] calls the client once:
    on success it stores the new records and declares the deletion; a
    [KeyError] (not found, ambiguous) becomes a CLI error with exit
    code 1 and no change; any other error escapes the handler. *)
Theorem delete_pipeline_yes (w : World) x v :
  delete_pipeline x v true w =
    let w1 := with_out w (MActiveConfig (w_active_stack w)) in
    match client_delete_pipeline (w_server w) x v with
    | Ok s' => (with_out (with_server w1 s')
                  (MDeclare ("Deleted pipeline `" ++ x ++ version_suffix v ++ "`.")), Ok tt)
    | Err e => if is_key_error e
               then (with_out w1 (MError (zen_error_str e)), Err (ClickError (zen_error_str e)))
               else (w1, Err (Uncaught e))
    end.
Proof.
  unfold delete_pipeline, confirm_or_cancel, print_active_config, cli_bind at 1 2, cli_ret.
  by rewrite delete_with_run.
Qed.
Lemma activate_stack_known s (w : World) :
  existsb (String.eqb s) (client_stacks (w_server w)) = true -> activate_stack s w = (with_stack w s, Ok tt).
Proof. unfold activate_stack. by intros ->. Qed.

Lemma activate_stack_unknown s (w : World) :
  existsb (String.eqb s) (client_stacks (w_server w)) = false ->
  activate_stack s w = (w, Err (Uncaught (NotFound s))).
Proof. unfold activate_stack. by intros ->. Qed.

(** [temporary_active_stack] with a stack re-activates the previous
    stack on every exit path of its body.  If the requested stack is
    unknown the body never runs and the [KeyError] escapes; otherwise the
    body runs with the requested stack active and its result, success or
    error, is the result of the whole.  Without a stack it is the body. *)
Theorem temporary_active_stack_restores {A} (stack : option string) (body : Cli A) (w : World) :
  existsb (String.eqb (w_active_stack w)) (client_stacks (w_server w)) = true ->
  (forall w0, client_stacks (w_server (fst (body w0))) = client_stacks (w_server w0)) ->
  match stack with
  | Some s =>
      if py_truthy s then
        w_active_stack (fst (temporary_active_stack stack body w)) = w_active_stack w /\
        if existsb (String.eqb s) (client_stacks (w_server w))
        then snd (temporary_active_stack stack body w) = snd (body (with_stack w s))
        else temporary_active_stack stack body w = (w, Err (Uncaught (NotFound s)))
      else temporary_active_stack stack body w = body w
  | None => temporary_active_stack stack body w = body w
  end.
Proof.
  intros Hold Hbody. destruct stack as [s|]; [| done]. cbn [temporary_active_stack].
  destruct (py_truthy s); [| done].
  destruct (existsb (String.eqb s) _) eqn:Hs.
  - rewrite (activate_stack_known s w Hs). destruct (body (with_stack w s)) as [w2 r] eqn:Hb.
    pose proof (Hbody (with_stack w s)) as Hs2. rewrite Hb in Hs2. simpl in Hs2.
    unfold activate_stack. rewrite Hs2. simpl. rewrite Hold. split; reflexivity.
  - rewrite (activate_stack_unknown s w Hs). split; reflexivity.
Qed.

(** C13: [zenml pipeline run --build X] with an [X] that is neither a
    UUID nor an existing file stops with the CLI error naming [X] (exit
    code 1), after resolving the pipeline and before any run, build or
    stack change. *)
Theorem run_invalid_build (w : World) x v stack b p :
  client_get_pipeline (w_server w) x v = Ok p ->
  py_truthy b = true -> is_valid_uuid b = false -> lookup_file w b = None ->
  let msg := "The specified build " ++ b ++ " is not a valid UUID or file path." in
  let res := run_pipeline x v None stack (Some b) w in
  snd res = Err (ClickError msg) /\ exit_code (snd res) = 1 /\
  w_server (fst res) = w_server w /\ w_active_stack (fst res) = w_active_stack w /\
  w_ids (fst res) = w_ids w /\ last (w_out (fst res)) = Some (MError msg).
Proof.
  intros Hp Ht Hu Hf msg res. subst res. destruct w.
  unfold run_pipeline, check_path_exists, print_active_config, warn_no_root, parse_build_option,
    cli_bind, cli_ret, get_world, lift, cli_error, emit, cli_stop, warning, with_out in *.
  unfold lookup_file in *. simpl in *.
  destruct w_root0; simpl; rewrite Hp; simpl; rewrite Ht, Hu; simpl; rewrite Hf; simpl;
    split_and!; try done; by rewrite last_snoc.
Qed.

Lemma yaml_str_map_roundtrip (l : list (string * string)) :
  yaml_str_map (map (fun kv => (fst kv, YStr (snd kv))) l) = Some l.
Proof. induction l as [|[k v] l IH]; simpl; [done |]. by rewrite IH. Qed.

(** What [zenml pipeline build NAME -o PATH] does when a Docker build is
    required: it exits 0 and leaves at [PATH] the YAML document of the
    build the server created. *)
Lemma build_output_file (w : World) x v o p images is_local id rest b s1 :
  client_get_pipeline (w_server w) x v = Ok p ->
  required_build p (w_active_stack w) None = Some (images, is_local) ->
  w_ids w = id :: rest ->
  client_create_build (w_server w) id (pipeline_id p) (w_active_stack w) images is_local = Ok (b, s1) ->
  py_truthy o = true ->
  let res := build_pipeline x v None None (Some o) w in
  snd res = Ok tt /\ lookup_file (fst res) o = Some (FYaml (build_yaml b ["id"; "images"; "is_local"])).
Proof.
  intros Hp Hreq Hids Hcb Ho res. subst res.
  destruct w as [sv root stk files out answers ids]; simpl in *; subst ids.
  unfold build_pipeline, temporary_active_stack, pipeline_build, client_call, check_path_exists,
    print_active_config, warn_no_root, cli_bind, get_world, cli_ret, lift, fresh_id, set_server,
    declare, emit, write_file, warning, lookup_file, with_out, with_server; simpl.
  destruct root; simpl; rewrite Hp; simpl; rewrite Hreq; simpl; rewrite Hcb; simpl; rewrite Ho; simpl;
    rewrite String.eqb_refl; split; reflexivity.
Qed.

(** C14: the build document is a round trip between two commands:
    after [zenml pipeline build NAME -o PATH] (no [--stack]) has created
    a build on the server, [zenml pipeline run ... --build PATH], on any
    later world where [PATH] still holds what the build command wrote,
    reads back from it exactly the images and the [is_local] flag of
    that build, and hands them to the run as a build document. *)
Theorem build_doc_roundtrip (w : World) x v o p images is_local id rest b s1 :
  client_get_pipeline (w_server w) x v = Ok p ->
  required_build p (w_active_stack w) None = Some (images, is_local) ->
  w_ids w = id :: rest ->
  client_create_build (w_server w) id (pipeline_id p) (w_active_stack w) images is_local = Ok (b, s1) ->
  py_truthy o = true -> is_valid_uuid o = false ->
  let res := build_pipeline x v None None (Some o) w in
  snd res = Ok tt /\
  forall w' : World, lookup_file w' o = lookup_file (fst res) o ->
    parse_build_option (Some o) w' =
      (w', Ok (Some (BuildFromDoc (mkBuildDoc (build_images b) (build_is_local b))))).
Proof.
  intros Hp Hreq Hids Hcb Ho Hu res.
  destruct (build_output_file w x v o p images is_local id rest b s1 Hp Hreq Hids Hcb Ho) as [Hok Hf].
  split; [exact Hok |]. intros w' Hw'. subst res. rewrite Hf in Hw'.
  unfold parse_build_option, cli_bind, cli_ret, get_world, lift. rewrite Ho, Hu, Hw'.
  unfold build_from_yaml, yaml_get, build_yaml. simpl. by rewrite yaml_str_map_roundtrip.
Qed.

(** C15: [zenml pipeline register] rejects a source path without a dot
    before anything else: a CLI error (exit code 1), no repository
    warning, no import, no registration, no ID consumed. *)
Theorem register_requires_dot (w : World) source :
  contains_char "." source = false ->
  let msg := "The given source path `" ++ source ++ "` is invalid. Make sure it looks " ++
             "like `some.module.name_of_pipeline_instance_variable` and " ++
             "resolves to a pipeline object." in
  register_pipeline source w =
    (with_out (with_out w (MActiveConfig (w_active_stack w))) (MError msg), Err (ClickError msg)).
Proof.
  intros Hs msg. unfold register_pipeline, cli_bind, print_active_config, cli_error, emit, cli_stop.
  rewrite Hs. reflexivity.
Qed.

End Props.

(** ** The registry as the client's server *)

(** The server's records, and the storage failure it will inject into
    the next cascade ([None]: none). *)
Record Server := mkServer { srv_store : Store; srv_fail_at : option nat }.

Definition on_store {A} (s : Server) (r : result (A * Store) ZenError) : result (A * Server) ZenError :=
  let? x := r in Ok (fst x, mkServer (snd x) (srv_fail_at s)).

Definition on_store_ {A} (s : Server) (r : result (A * Store) ZenError) : result Server ZenError :=
  let? x := r in Ok (mkServer (snd x) (srv_fail_at s)).

#[export] Instance Registry_Client : Client Server := {|
  client_stacks s := st_stacks (srv_store s);
  client_get_pipeline s x v := resolve (st_pipelines (srv_store s)) x v;
  client_register_pipeline s id name spec := on_store s (create_pipeline (srv_store s) id name spec);
  client_create_build s id pid stack images is_local :=
    on_store s (create_build (srv_store s) id pid stack images is_local);
  client_get_build s i := resolve (st_builds (srv_store s)) i None;
  client_create_run s id name pid build stack :=
    on_store s (create_run (srv_store s) id name pid build stack);
  client_update_run s id st :=
    let? st' := update_run_status (srv_store s) id st in Ok (mkServer st' (srv_fail_at s));
  client_delete_pipeline s x v :=
    on_store_ s (Registry.delete_pipeline (srv_fail_at s) (srv_store s) x v);
  client_delete_schedule s x :=
    let? st' := Registry.delete_schedule (srv_store s) x in Ok (mkServer st' (srv_fail_at s));
  client_delete_pipeline_run s x :=
    let? st' := Registry.delete_pipeline_run (srv_store s) x in Ok (mkServer st' (srv_fail_at s));
  client_delete_build s x :=
    let? st' := Registry.delete_build (srv_store s) x in Ok (mkServer st' (srv_fail_at s));
  client_list_pipelines s P i n := filter_page P (st_pipelines (srv_store s)) i n;
  client_list_schedules s P i n := filter_page P (st_schedules (srv_store s)) i n;
  client_list_runs s P i n := filter_page P (st_runs (srv_store s)) i n;
  client_list_builds s P i n := filter_page P (st_builds (srv_store s)) i n |}.

(** ** A concrete backend and world *)

#[export] Instance demo_backend : Backend := {|
  load_source_path src :=
    if String.eqb src "pipelines.digits" then SrcPipeline "digits" "dag-v3"
    else SrcModuleNotFound src;
  source_root := "/repo";
  required_build _ _ _ := Some ([("trainer", "img:1")], false);
  orchestrate _ _ _ := Completed |}.

Definition demo_world (answers : list bool) (fail_at : option nat) : @World Server :=
  mkWorld (mkServer demo_store fail_at) true "default" [] [] answers
    ["00000000-0000-0000-0000-000000000005"; "00000000-0000-0000-0000-000000000006";
     "00000000-0000-0000-0000-000000000007"].

(** ** Witnesses *)

Lemma delete_declined_no_change_witness :
  declined (demo_world [false] None) [] (delete_pipeline "digits" None false (demo_world [false] None))
    "Pipeline deletion canceled.".
Proof. apply (delete_declined_no_change (demo_world [false] None) [] "digits" None). reflexivity. Defined.

Lemma run_invalid_build_witness :
  snd (run_pipeline "digits" None None None (Some "build.yaml") (demo_world [] None)) =
    Err (ClickError "The specified build build.yaml is not a valid UUID or file path.").
Proof.
  apply (run_invalid_build (demo_world [] None) "digits" None None "build.yaml" digits_v2);
    reflexivity.
Defined.

Lemma register_requires_dot_witness :
  snd (register_pipeline "digits" (demo_world [] None)) =
    Err (ClickError ("The given source path `digits` is invalid. Make sure it looks " ++
      "like `some.module.name_of_pipeline_instance_variable` and resolves to a pipeline object.")).
Proof. rewrite (register_requires_dot (demo_world [] None) "digits"); reflexivity. Defined.

Lemma build_doc_roundtrip_witness :
  snd (build_pipeline "digits" None None None (Some "build.yaml") (demo_world [] None)) = Ok tt.
Proof.
  edestruct (build_doc_roundtrip (demo_world [] None) "digits" None "build.yaml" digits_v2
               [("trainer", "img:1")] false "00000000-0000-0000-0000-000000000005"
               ["00000000-0000-0000-0000-000000000006"; "00000000-0000-0000-0000-000000000007"]
               (mkBuild "00000000-0000-0000-0000-000000000005" uuid2 "default" [("trainer", "img:1")] false))
    as [H _]; [reflexivity | reflexivity | reflexivity | reflexivity | reflexivity | reflexivity | exact H].
Defined.

End Cli.
