(* ===== verification/Materializer.v ===== *)
(** * The Huggingface TF model materializer
      ([src/src/zenml/integrations/huggingface/materializers/huggingface_tf_model_materializer.py])

    [HFTFModelMaterializer] keeps a model under [uri/hf_tf_model]: [save]
    lets [transformers] write the model into a temporary directory and
    copies that directory into place file by file ([io_utils.copy_dir]);
    [load] reads the config, picks the class ["TF" ++ architectures[0]]
    from [transformers] and calls its [from_pretrained]; [extract_metadata]
    returns three counters.  [save] and [load] first call the methods of
    [BaseMaterializer], which raise [TypeError] unless the model (or
    the requested type) is a subclass of one of [ASSOCIATED_TYPES].

    The artifact store is a [gmap] from paths to file contents; a path is
    the list of its segments, so [os.path.join(uri, d)] on a relative [d]
    is list append.  [transformers] is the [HFLibrary] class: its
    functions, and the laws the library guarantees (what [save_pretrained]
    records in the config, and that [from_pretrained] reads back what
    [save_pretrained] wrote). *)

From stdpp Require Import gmap.
From S2P Require Import Prelude.

Module Materializer.

Local Open Scope list_scope.

Abbreviation Path := (list string).

Definition DEFAULT_TF_MODEL_DIR : string := "hf_tf_model".

(** A Python class: its name and its method resolution order, the
    qualified names ([module.name]) of the class and of all its
    ancestors, so that two classes of the same name stay apart. *)
Record PyType := mkPyType { py_name : string; py_mro : list string }.

(** [issubclass(t, c)] for a class named [c]. *)
Definition issubclass (t : PyType) (c : string) : bool := existsb (String.eqb c) (py_mro t).

(** [HFTFModelMaterializer.ASSOCIATED_TYPES = (TFPreTrainedModel,)] *)
Definition ASSOCIATED_TYPES : list string := ["transformers.modeling_tf_utils.TFPreTrainedModel"].

(** [zenml.enums.ArtifactType]. *)
Inductive ArtifactType :=
| DataArtifact | DataAnalysisArtifact | ModelArtifact | SchemaArtifact
| ServiceArtifact | StatisticsArtifact.

(** [HFTFModelMaterializer.ASSOCIATED_ARTIFACT_TYPE = ArtifactType.MODEL] *)
Definition ASSOCIATED_ARTIFACT_TYPE : ArtifactType := ModelArtifact.

(** [BaseMaterializer._can_handle_type]: a subclass of an associated type. *)
Definition can_handle_type (t : PyType) : bool := existsb (issubclass t) ASSOCIATED_TYPES.

(** The part of [transformers] the materializer calls. *)
Class HFLibrary := {
  Blob : Type;
  HFModel : Type;
  (** [model.__class__.__name__], e.g. [TFBertModel], and the name
      without its [TF] prefix *)
  hf_class_name : HFModel -> string;
  hf_base_name : HFModel -> string;
  (** [type(model)], whose name is the class name *)
  hf_type : HFModel -> PyType;
  (** the files [model.save_pretrained(d)] writes under [d] *)
  save_pretrained : HFModel -> gmap Path Blob;
  (** [AutoConfig.from_pretrained(d).architectures]; [None] when [d]
      holds no readable config *)
  auto_config_architectures : gmap Path Blob -> option (list string);
  (** [hasattr(transformers, name)] *)
  transformers_has : string -> bool;
  (** [getattr(transformers, name).from_pretrained(d)] *)
  from_pretrained : string -> gmap Path Blob -> option HFModel;
  hf_layers : HFModel -> nat;
  (** [model.num_parameters(only_trainable=...)] *)
  num_parameters : HFModel -> bool -> nat;
  (** laws of the library, for its TensorFlow models *)
  hf_type_name : forall m, py_name (hf_type m) = hf_class_name m;
  hf_class_name_tf : forall m, can_handle_type (hf_type m) = true ->
    hf_class_name m = ("TF" ++ hf_base_name m)%string;
  save_config : forall m, auto_config_architectures (save_pretrained m) = Some [hf_base_name m];
  has_saved_class : forall m, can_handle_type (hf_type m) = true ->
    transformers_has (hf_class_name m) = true;
  from_save : forall m, can_handle_type (hf_type m) = true ->
    from_pretrained (hf_class_name m) (save_pretrained m) = Some m }.

(** Exceptions [save] and [load] can raise. *)
Inductive MatError :=
| FileExistsError (p : Path)        (** [fileio.copy] onto an existing file *)
| OSError (msg : string)            (** no config, or [from_pretrained] failed *)
| IndexError                        (** [config.architectures[0]] on an empty list *)
| AttributeError (name : string)    (** [getattr(transformers, name)] *)
| TypeError (msg : string).         (** the type check of [BaseMaterializer] *)

(** A metadata value ([MetadataType]). *)
Inductive MetadataValue := MInt (n : nat).

Section Materializer.
Context `{HFLibrary}.

Abbreviation FS := (gmap Path Blob).

(** [Some r] when [p = d ++ r]. *)
Fixpoint strip_prefix (d p : Path) : option Path :=
  match d, p with
  | [], _ => Some p
  | x :: d', y :: p' => if String.eqb x y then strip_prefix d' p' else None
  | _ :: _, [] => None
  end.

(** The files under directory [d], by their path relative to [d]. *)
Definition dir_view (fs : FS) (d : Path) : gmap Path Blob :=
  list_to_map (omap (fun kv => (fun r => (r, kv.2)) <$> strip_prefix d kv.1) (map_to_list fs)).

(** [files] written under directory [d]. *)
Definition write_files (fs : FS) (d : Path) (files : gmap Path Blob) : FS :=
  kmap (app d) files ∪ fs.

(** The directory [d] and everything under it removed. *)
Definition remove_dir (fs : FS) (d : Path) : FS :=
  filter (fun kv => strip_prefix d kv.1 = None) fs.

(** The copy loop of [io_utils.copy_dir(src, dst)] over the listing of
    [src]: each file is copied to [dst] unless that path exists. *)
Fixpoint copy_files (dst : Path) (fs : FS) (l : list (Path * Blob)) : FS * option MatError :=
  match l with
  | [] => (fs, None)
  | (r, b) :: l' =>
      match fs !! (dst ++ r) with
      | Some _ => (fs, Some (FileExistsError (dst ++ r)))
      | None => copy_files dst (<[dst ++ r := b]> fs) l'
      end
  end.

Definition copy_dir (fs : FS) (src dst : Path) : FS * option MatError :=
  copy_files dst fs (map_to_list (dir_view fs src)).

Definition model_dir (uri : Path) : Path := uri ++ [DEFAULT_TF_MODEL_DIR].

(** The messages of the [TypeError] of [BaseMaterializer.save] and [load]. *)
Definition write_type_error (t : PyType) : string :=
  ("Unable to write " ++ py_name t ++ ". HFTFModelMaterializer can only write the following types: " ++
  String.concat ", " ASSOCIATED_TYPES ++ ".")%string.

Definition read_type_error (t : PyType) : string :=
  ("Unable to handle type " ++ py_name t ++ ". HFTFModelMaterializer can only read artifacts of " ++
  "the following types: " ++ String.concat ", " ASSOCIATED_TYPES ++ ".")%string.

(** [HFTFModelMaterializer.save]: [super().save(model)] checks the type of
    the model before anything is written; [tmp] is the fresh directory of
    [TemporaryDirectory()], removed when the object is finalised at the
    end of the call. *)
Definition save (uri tmp : Path) (fs : FS) (m : HFModel) : FS * option MatError :=
  if negb (can_handle_type (hf_type m)) then (fs, Some (TypeError (write_type_error (hf_type m))))
  else
  let fs1 := write_files fs tmp (save_pretrained m) in
  let '(fs2, err) := copy_dir fs1 tmp (model_dir uri) in
  (remove_dir fs2 tmp, err).

(** [HFTFModelMaterializer.load]: [super().load(data_type)] checks the
    requested type first. *)
Definition load (data_type : PyType) (uri : Path) (fs : FS) : result HFModel MatError :=
  if negb (can_handle_type data_type) then Err (TypeError (read_type_error data_type)) else
  let files := dir_view fs (model_dir uri) in
  match auto_config_architectures files with
  | None => Err (OSError "Can't load config.")
  | Some archs =>
      match head archs with
      | None => Err IndexError
      | Some a =>
          let architecture := ("TF" ++ a)%string in
          if transformers_has architecture then
            match from_pretrained architecture files with
            | Some m => Ok m
            | None => Err (OSError "Can't load weights.")
            end
          else Err (AttributeError architecture)
      end
  end.

(** [HFTFModelMaterializer.extract_metadata]: the result of
    [super().extract_metadata(model)] is discarded, and that call has no
    other effect, so only the three counters are returned. *)
Definition extract_metadata (m : HFModel) : list (string * MetadataValue) :=
  [("num_layers", MInt (hf_layers m));
   ("num_params", MInt (num_parameters m false));
   ("num_trainable_params", MInt (num_parameters m true))].

(** ** Lemmas on paths and directory views *)

#[local] Instance app_path_inj (d : Path) : Inj eq eq (app d).
Proof. intros x y. apply app_inv_head. Qed.

Lemma strip_prefix_Some d p r : strip_prefix d p = Some r <-> p = d ++ r.
Proof.
  revert p. induction d as [|x d IH]; intros [|y p]; simpl; try (split; congruence).
  destruct (String.eqb_spec x y) as [-> | Hne]; rewrite ?IH; split; congruence.
Qed.

Lemma strip_prefix_app d r : strip_prefix d (d ++ r) = Some r.
Proof. by apply strip_prefix_Some. Qed.

Lemma elem_of_dir_view_list (fs : FS) d r b :
  (r, b) ∈ omap (fun kv => (fun r => (r, kv.2)) <$> strip_prefix d kv.1) (map_to_list fs) <->
  fs !! (d ++ r) = Some b.
Proof.
  rewrite list_elem_of_omap. split.
  - intros ([k b'] & Hin & Hs). apply elem_of_map_to_list in Hin. simpl in Hs.
    destruct (strip_prefix d k) as [r'|] eqn:Hk; simplify_eq/=.
    apply strip_prefix_Some in Hk as ->. done.
  - intros Hl. exists (d ++ r, b). rewrite elem_of_map_to_list. simpl.
    by rewrite strip_prefix_app.
Qed.

(** Reading a directory view is reading the store under the prefix. *)
Lemma lookup_dir_view (fs : FS) d r : dir_view fs d !! r = fs !! (d ++ r).
Proof.
  unfold dir_view. destruct (fs !! (d ++ r)) as [b|] eqn:Hl.
  - apply elem_of_list_to_map_1'; [| by apply elem_of_dir_view_list].
    intros y Hy%elem_of_dir_view_list. congruence.
  - apply not_elem_of_list_to_map_1. intros ([r' y] & Heq & Hy)%list_elem_of_fmap.
    simpl in Heq. subst r'. apply elem_of_dir_view_list in Hy. congruence.
Qed.

Lemma dir_view_empty (fs : FS) d : dir_view fs d = ∅ <-> forall r, fs !! (d ++ r) = None.
Proof.
  split.
  - intros He r. by rewrite <- lookup_dir_view, He, lookup_empty.
  - intros Hn. apply map_eq. intros r. by rewrite lookup_dir_view, Hn, lookup_empty.
Qed.

Lemma lookup_write_files_in (fs : FS) d files r :
  write_files fs d files !! (d ++ r) =
    match files !! r with Some b => Some b | None => fs !! (d ++ r) end.
Proof.
  unfold write_files. rewrite lookup_union, lookup_kmap.
  destruct (files !! r), (fs !! (d ++ r)); reflexivity.
  Unshelve. all: apply app_path_inj.
Qed.

Lemma lookup_write_files_out (fs : FS) d files p :
  (forall r, p <> d ++ r) -> write_files fs d files !! p = fs !! p.
Proof.
  intros Hp. unfold write_files. rewrite lookup_union.
  rewrite (proj2 (lookup_kmap_None _ _ _)); [by destruct (fs !! p) |].
  intros i ->. by destruct (Hp i).
  Unshelve. all: apply app_path_inj.
Qed.

(** With every destination free, the copy loop writes the whole listing
    and reports no error. *)
Lemma copy_files_ok (dst : Path) (fs : FS) (l : list (Path * Blob)) :
  NoDup l.*1 -> (forall r b, (r, b) ∈ l -> fs !! (dst ++ r) = None) ->
  copy_files dst fs l = (write_files fs dst (list_to_map l), None).
Proof.
  revert fs. induction l as [|[r b] l IH]; intros fs Hnd Hfree; simpl.
  - unfold write_files. by rewrite kmap_empty, map_empty_union.
  - apply NoDup_cons in Hnd as [Hr Hnd].
    rewrite (Hfree r b) by (left; done). rewrite IH; [| done |].
    + f_equal. unfold write_files. rewrite kmap_insert.
      assert (Hn : (kmap (app dst) (list_to_map l : gmap Path Blob) : gmap Path Blob)
                     !! (dst ++ r) = None).
      { rewrite lookup_kmap. by apply not_elem_of_list_to_map_1. Unshelve. apply app_path_inj. }
      rewrite <- insert_union_r by done. rewrite insert_union_l. done.
      Unshelve. apply app_path_inj.
    + intros r' b' Hin. rewrite lookup_insert_ne; [by apply (Hfree r' b'); right |].
      intros Heq%app_inv_head. subst r'. apply Hr. apply list_elem_of_fmap. by exists (r, b').
Qed.

Lemma lookup_remove_dir (fs : FS) d p :
  remove_dir fs d !! p = if strip_prefix d p is Some _ then None else fs !! p.
Proof.
  unfold remove_dir. rewrite map_lookup_filter.
  destruct (fs !! p); simpl; [| by destruct (strip_prefix d p)].
  case_guard as Hc; simpl; destruct (strip_prefix d p); congruence.
Qed.

(** Saving into a fresh temporary directory: its files are exactly those
    [save_pretrained] wrote. *)
Lemma dir_view_tmp (fs : FS) tmp m :
  dir_view fs tmp = ∅ -> dir_view (write_files fs tmp (save_pretrained m)) tmp = save_pretrained m.
Proof.
  intros Hf. apply map_eq. intros r. rewrite lookup_dir_view, lookup_write_files_in.
  apply dir_view_empty with (r := r) in Hf. rewrite Hf. by destruct (save_pretrained m !! r).
Qed.

(** C16: the save/load round trip.  Saving a model into a fresh
    artifact directory, through a fresh temporary directory that does
    not overlap it, reports no error; loading the artifact gives the
    model back; the temporary directory is gone; and no other file of
    the store changes. *)
Theorem save_load_roundtrip (uri tmp : Path) (fs : FS) (m : HFModel) :
  can_handle_type (hf_type m) = true ->
  dir_view fs tmp = ∅ -> dir_view fs (model_dir uri) = ∅ ->
  (forall r1 r2, tmp ++ r1 <> model_dir uri ++ r2) ->
  let fs' := fst (save uri tmp fs m) in
  snd (save uri tmp fs m) = None /\ load (hf_type m) uri fs' = Ok m /\ dir_view fs' tmp = ∅ /\
  forall p, (forall r, p <> tmp ++ r) -> (forall r, p <> model_dir uri ++ r) -> fs' !! p = fs !! p.
Proof.
  intros Hty Htmp Hdst Hdisj fs'. subst fs'. unfold save, copy_dir. rewrite Hty. cbn [negb].
  rewrite (dir_view_tmp fs tmp m Htmp).
  set (fs1 := write_files fs tmp (save_pretrained m)).
  assert (Hfree : forall r, fs1 !! (model_dir uri ++ r) = None).
  { intros r. unfold fs1. rewrite lookup_write_files_out by (intros r' Heq; by apply (Hdisj r' r)).
    by apply dir_view_empty. }
  rewrite copy_files_ok.
  2: apply NoDup_fst_map_to_list.
  2: intros r b _; apply Hfree.
  rewrite list_to_map_to_list. simpl.
  assert (Hnot_tmp : forall r, strip_prefix tmp (model_dir uri ++ r) = None).
  { intros r. destruct (strip_prefix tmp _) as [r'|] eqn:Hs; [| done].
    apply strip_prefix_Some in Hs. by destruct (Hdisj r' r). }
  assert (Hview : dir_view (remove_dir (write_files fs1 (model_dir uri) (save_pretrained m)) tmp)
                    (model_dir uri) = save_pretrained m).
  { apply map_eq. intros r. rewrite lookup_dir_view, lookup_remove_dir, Hnot_tmp,
      lookup_write_files_in, Hfree. by destruct (save_pretrained m !! r). }
  split_and!; [done | | |].
  - unfold load. rewrite Hty. cbn [negb]. rewrite Hview, save_config. simpl.
    rewrite <- hf_class_name_tf, has_saved_class, from_save by done. done.
  - apply dir_view_empty. intros r. by rewrite lookup_remove_dir, strip_prefix_app.
  - intros p Hp1 Hp2. rewrite lookup_remove_dir.
    destruct (strip_prefix tmp p) as [r|] eqn:Hs; [apply strip_prefix_Some in Hs; by destruct (Hp1 r) |].
    rewrite lookup_write_files_out by done. unfold fs1. by rewrite lookup_write_files_out.
Qed.

(** The copy loop fails only on an existing destination file. *)
Lemma copy_files_no_type_error (dst : Path) (fs : FS) (l : list (Path * Blob)) (msg : string) : snd (copy_files dst fs l) <> Some (TypeError msg).
Proof.
  revert fs; induction l as [|[r b] l IH]; intros fs; simpl; [discriminate |].
  destruct (fs !! _); [discriminate | apply IH].
Qed.

(** C30: the type check of [BaseMaterializer] comes first.  [save] raises
    [TypeError] exactly when the model is not a [TFPreTrainedModel], and
    then it writes nothing, not even the temporary directory; [load]
    raises [TypeError] exactly when the requested type is not one. *)
Theorem materializer_type_check (uri tmp : Path) (fs : FS) (m : HFModel) (t : PyType) :
  (snd (save uri tmp fs m) = Some (TypeError (write_type_error (hf_type m))) <->
     can_handle_type (hf_type m) = false) /\
  (can_handle_type (hf_type m) = false -> fst (save uri tmp fs m) = fs) /\
  (load t uri fs = Err (TypeError (read_type_error t)) <-> can_handle_type t = false).
Proof.
  unfold save, load. split_and!.
  - destruct (can_handle_type (hf_type m)); simpl; [| done]. split; [| discriminate].
    destruct (copy_dir _ _ _) as [fs2 err] eqn:Hc. simpl. intros ->.
    unfold copy_dir in Hc. exfalso. eapply copy_files_no_type_error. rewrite Hc. done.
  - by intros ->.
  - destruct (can_handle_type t); simpl; [| done]. split; [| discriminate].
    by repeat case_match.
Qed.

(** The copy loop over a listing in two parts: the second part is copied
    only when the first one raised nothing. *)
Lemma copy_files_app (dst : Path) (fs : FS) (l1 l2 : list (Path * Blob)) :
  copy_files dst fs (l1 ++ l2) =
    match copy_files dst fs l1 with
    | (fs1, None) => copy_files dst fs1 l2
    | (fs1, Some e) => (fs1, Some e)
    end.
Proof.
  revert fs; induction l1 as [|[r b] l1 IH]; intros fs; simpl; [done |].
  destruct (fs !! (dst ++ r)); [done | apply IH].
Qed.

(** Outside the temporary directory, writing it first changes nothing. *)
Lemma remove_dir_write_tmp (fs : FS) tmp files d l :
  remove_dir (write_files (write_files fs tmp files) d l) tmp = remove_dir (write_files fs d l) tmp.
Proof.
  apply map_eq. intros p. rewrite !lookup_remove_dir.
  destruct (strip_prefix tmp p) as [r|] eqn:Hs; [done |].
  unfold write_files at 1 3. rewrite !lookup_union. f_equal.
  apply lookup_write_files_out. intros r Hp. subst p. by rewrite strip_prefix_app in Hs.
Qed.

(** C17: [save] is not atomic.  When the artifact directory already
    holds a file that the model also writes, [save] raises
    [FileExistsError] for that file after it has copied, and left in
    place, every file listed before it: the artifact then holds the new
    files of the listing up to the clash next to the old ones, with the
    temporary directory removed, and nothing else of the store changed. *)
Theorem save_partial_on_clash (uri tmp : Path) (fs : FS) (m : HFModel) l1 r b l2 :
  can_handle_type (hf_type m) = true ->
  dir_view fs tmp = ∅ -> (forall r1 r2, tmp ++ r1 <> model_dir uri ++ r2) ->
  map_to_list (save_pretrained m) = l1 ++ (r, b) :: l2 ->
  (forall r' b', (r', b') ∈ l1 -> fs !! (model_dir uri ++ r') = None) ->
  is_Some (fs !! (model_dir uri ++ r)) ->
  save uri tmp fs m = (remove_dir (write_files fs (model_dir uri) (list_to_map l1)) tmp,
                       Some (FileExistsError (model_dir uri ++ r))).
Proof.
  intros Hty Htmp Hdisj Hl Hfree [old Hold]. unfold save, copy_dir. rewrite Hty. cbn [negb].
  rewrite (dir_view_tmp fs tmp m Htmp), Hl, copy_files_app.
  pose proof (NoDup_fst_map_to_list (save_pretrained m)) as Hnd. rewrite Hl, fmap_app in Hnd.
  apply NoDup_app in Hnd as (Hnd1 & Hnd12 & Hnd2).
  assert (Hout : forall r', write_files fs tmp (save_pretrained m) !! (model_dir uri ++ r') =
                            fs !! (model_dir uri ++ r'))
    by (intros r'; apply lookup_write_files_out; intros r1 Heq; by apply (Hdisj r1 r')).
  rewrite copy_files_ok by (done || (intros r' b' Hin; rewrite Hout; by apply (Hfree r' b'))).
  cbn [copy_files]. rewrite lookup_write_files_in, Hout.
  rewrite (not_elem_of_list_to_map_1 l1 r); [rewrite Hold; by rewrite remove_dir_write_tmp |].
  intros Hin. apply (Hnd12 r Hin). by left.
Qed.

End Materializer.

(** ** A concrete library: a model and the two files it saves *)

(** A model of the library: a TensorFlow class ([TFBertModel]) or a
    PyTorch one ([BertModel]). *)
Record DemoModel := mkDemoModel {
  dm_tf : bool; dm_base : string; dm_layers : nat; dm_params : nat; dm_trainable : nat }.

Inductive DemoBlob := BConfig (architectures : list string) | BWeights (m : DemoModel).

Definition demo_save (m : DemoModel) : gmap Path DemoBlob :=
  <[["config.json"] := BConfig [dm_base m]]> {[ ["tf_model.h5"] := BWeights m ]}.

Definition demo_class_name (m : DemoModel) : string :=
  if dm_tf m then ("TF" ++ dm_base m)%string else dm_base m.

Definition demo_type (m : DemoModel) : PyType :=
  mkPyType (demo_class_name m)
    (if dm_tf m
     then [("transformers.models.tf." ++ demo_class_name m)%string;
           "transformers.modeling_tf_utils.TFPreTrainedModel"; "keras.engine.training.Model";
           "builtins.object"]
     else [("transformers.models.torch." ++ demo_class_name m)%string;
           "transformers.modeling_utils.PreTrainedModel"; "torch.nn.modules.module.Module";
           "builtins.object"]).

Definition demo_from_pretrained (cls : string) (files : gmap Path DemoBlob) : option DemoModel :=
  match files !! ["tf_model.h5"] with
  | Some (BWeights m) => if String.eqb cls (demo_class_name m) then Some m else None
  | _ => None
  end.

Definition demo_config_architectures (files : gmap Path DemoBlob) : option (list string) :=
  match files !! ["config.json"] with Some (BConfig a) => Some a | _ => None end.

Definition demo_num_parameters (m : DemoModel) (only_trainable : bool) : nat :=
  if only_trainable then Nat.min (dm_trainable m) (dm_params m) else dm_params m.

(** [hasattr(transformers, name)]: the TF classes this library exports. *)
Definition demo_has (name : string) : bool :=
  match name with
  | String a (String b _) => Ascii.eqb a "T" && Ascii.eqb b "F"
  | _ => false
  end.

(** Only the TensorFlow models are [TFPreTrainedModel]s: a PyTorch class
    name never starts with [TF]. *)
Lemma demo_can_handle m : can_handle_type (demo_type m) = true -> dm_tf m = true.
Proof.
  unfold can_handle_type, demo_type, issubclass. destruct (dm_tf m); [done |]. done.
Qed.

Lemma demo_class_name_tf m :
  can_handle_type (demo_type m) = true -> demo_class_name m = ("TF" ++ dm_base m)%string.
Proof. intros Hc. unfold demo_class_name. by rewrite (demo_can_handle m Hc). Qed.

Lemma demo_has_saved m : can_handle_type (demo_type m) = true -> demo_has (demo_class_name m) = true.
Proof. intros Hc. by rewrite demo_class_name_tf. Qed.

Lemma demo_save_config m : demo_config_architectures (demo_save m) = Some [dm_base m].
Proof. unfold demo_config_architectures, demo_save. by rewrite lookup_insert_eq. Qed.

Lemma demo_from_save m :
  can_handle_type (demo_type m) = true -> demo_from_pretrained (demo_class_name m) (demo_save m) = Some m.
Proof.
  intros _. unfold demo_from_pretrained, demo_save.
  rewrite lookup_insert_ne by discriminate. rewrite lookup_singleton_eq. by rewrite String.eqb_refl.
Qed.

#[export] Instance demo_transformers : HFLibrary := {|
  Blob := DemoBlob;
  HFModel := DemoModel;
  hf_class_name := demo_class_name;
  hf_base_name := dm_base;
  hf_type := demo_type;
  save_pretrained := demo_save;
  auto_config_architectures := demo_config_architectures;
  transformers_has := demo_has;
  from_pretrained := demo_from_pretrained;
  hf_layers := dm_layers;
  num_parameters := demo_num_parameters;
  hf_type_name _ := eq_refl;
  hf_class_name_tf := demo_class_name_tf;
  save_config := demo_save_config;
  has_saved_class := demo_has_saved;
  from_save := demo_from_save |}.

Definition bert : @HFModel demo_transformers := mkDemoModel true "BertModel" 12 4386 4386.

(** The PyTorch [BertModel], which this materializer does not handle. *)
Definition torch_bert : @HFModel demo_transformers := mkDemoModel false "BertModel" 12 4386 4386.

Definition artifact_uri : Path := ["artifacts"; "trainer"; "output"; "42"].
Definition tmp_dir : Path := ["tmp"; "tmpk3j2"].

Lemma save_load_roundtrip_witness :
  load (hf_type bert) artifact_uri (fst (save artifact_uri tmp_dir ∅ bert)) = Ok bert.
Proof.
  apply (save_load_roundtrip artifact_uri tmp_dir ∅ bert).
  - reflexivity.
  - apply map_eq. intros r. by rewrite lookup_dir_view, !lookup_empty.
  - apply map_eq. intros r. by rewrite lookup_dir_view, !lookup_empty.
  - intros r1 r2. discriminate.
Defined.

Lemma materializer_type_check_witness :
  snd (save artifact_uri tmp_dir ∅ torch_bert) =
    Some (TypeError (write_type_error (hf_type torch_bert))) /\
  fst (save artifact_uri tmp_dir ∅ torch_bert) = ∅ /\
  load (hf_type torch_bert) artifact_uri ∅ = Err (TypeError (read_type_error (hf_type torch_bert))).
Proof.
  destruct (materializer_type_check artifact_uri tmp_dir ∅ torch_bert (hf_type torch_bert))
    as (H1 & H2 & H3).
  split_and!; [apply H1 | apply H2 | apply H3]; reflexivity.
Defined.

(** An older artifact whose weights file is still in place. *)
Definition old_bert : @HFModel demo_transformers := mkDemoModel true "BertModel" 6 2193 2193.

Definition stale_store : gmap Path (@Blob demo_transformers) :=
  {[ model_dir artifact_uri ++ ["tf_model.h5"] := BWeights old_bert ]}.

Lemma save_partial_on_clash_witness :
  save artifact_uri tmp_dir stale_store bert =
    (remove_dir (write_files stale_store (model_dir artifact_uri)
                   (list_to_map [(["config.json"], BConfig ["BertModel"])])) tmp_dir,
     Some (FileExistsError (model_dir artifact_uri ++ ["tf_model.h5"]))).
Proof.
  apply (save_partial_on_clash artifact_uri tmp_dir stale_store bert
           [(["config.json"], BConfig ["BertModel"])] ["tf_model.h5"] (BWeights bert) []).
  - reflexivity.
  - apply dir_view_empty. intros r. unfold stale_store. rewrite lookup_singleton_ne; [done | discriminate].
  - intros r1 r2. discriminate.
  - vm_compute. reflexivity.
  - intros r' b' Hin. apply list_elem_of_singleton in Hin. injection Hin as -> _.
    unfold stale_store. rewrite lookup_singleton_ne; [done | discriminate].
  - unfold stale_store. rewrite lookup_singleton_eq. by eexists.
Defined.

End Materializer.
