(* ===== verification/Trainer.v ===== *)
(** * The WandB example trainer step

    [src/examples/wandb_tracking/steps/trainer/trainer_step.py]: the
    import-time guard on the active stack's experiment tracker, the
    [TrainerParameters] defaults, and the [tf_trainer] step: the
    [Sequential([Flatten((28, 28)), Dense(10)])] model with its layer
    shapes and parameter counts, its compile configuration, and the
    [model.fit] call: every epoch draws a fresh permutation of the
    training rows ([shuffle=True]), trains on them in batches of 32,
    evaluates on the validation data, and [WandbCallback(log_evaluation=
    True)] logs the epoch's metrics and, at the end of training, a table
    of predictions on the validation data.  The numerics of a training
    step, the metrics, the evaluation, the prediction table and the
    permutations are Section variables: the file proves what the step
    does with them, not what TensorFlow computes. *)

From Stdlib Require Import ZArith QArith_base.
From S2P Require Import Prelude.

#[local] Set Warnings "-abstract-large-number".

Module Trainer.

(** ** The module-level guard *)

(** The flavor of the active stack's experiment tracker. *)
Inductive TrackerFlavor := WandbFlavor | MLflowFlavor | OtherFlavor (flavor : string).

Record ExperimentTracker := mkTracker { tracker_name : string; tracker_flavor : TrackerFlavor }.

(** [isinstance(experiment_tracker, WandbExperimentTracker)] *)
Definition is_wandb (t : ExperimentTracker) : bool :=
  match tracker_flavor t with WandbFlavor => true | _ => false end.

Inductive TrainerError :=
| RuntimeError (msg : string)
| ValueError (msg : string).

Definition guard_msg : string :=
  "Your active stack needs to contain a WandB experiment tracker for this example to work.".

(** Lines 22 to 30, then [@step(experiment_tracker=experiment_tracker.name)]:
    importing the module either raises or yields the tracker name the
    step is configured with.  A missing component is [None], the only
    falsy value [Client().active_stack.experiment_tracker] takes. *)
Definition module_guard (tracker : option ExperimentTracker) : result string TrainerError :=
  match tracker with
  | Some t => if is_wandb t then Ok (tracker_name t) else Err (RuntimeError guard_msg)
  | None => Err (RuntimeError guard_msg)
  end.

(** ** Parameters *)

Record TrainerParameters := mkTrainerParameters { epochs : Z; lr : Q }.

Definition default_params : TrainerParameters := mkTrainerParameters 1 (1 # 1000).

(** ** The Keras model *)

Inductive Layer :=
| Flatten (input_shape : option (list nat))
| Dense (units : nat).

(** Output shape (without the batch axis) and number of weights of a
    layer applied to an input of shape [s]: [Flatten] multiplies the
    axes out, [Dense] replaces the last axis by [units] with a kernel
    and a bias. *)
Definition layer_output (l : Layer) (s : list nat) : list nat :=
  match l with
  | Flatten _ => [foldr Nat.mul 1 s]
  | Dense u => (removelast s ++ [u])%list
  end.

Definition layer_params (l : Layer) (s : list nat) : nat :=
  match l with
  | Flatten _ => 0
  | Dense u => List.last s 0 * u + u
  end.

Fixpoint build_layers (s : list nat) (ls : list Layer) : list (list nat * nat) :=
  match ls with
  | [] => []
  | l :: ls' => (layer_output l s, layer_params l s) :: build_layers (layer_output l s) ls'
  end.

(** [tf.keras.Sequential(layers)]: built eagerly when the first layer
    declares an [input_shape], otherwise unbuilt ([None]). *)
Definition sequential (ls : list Layer) : option (list (list nat * nat)) :=
  match ls with
  | Flatten (Some s) :: _ => Some (build_layers s ls)
  | _ => None
  end.

Definition count_params (built : list (list nat * nat)) : nat := foldr Nat.add 0 (map snd built).

Definition trainer_layers : list Layer := [Flatten (Some [28; 28]); Dense 10].

Record CompileConfig := mkCompile {
  cc_optimizer_lr : Q;  (** [tf.keras.optimizers.Adam(params.lr)] *)
  cc_loss_from_logits : bool;  (** [SparseCategoricalCrossentropy(from_logits=True)] *)
  cc_metrics : list string }.

Definition compile_config (p : TrainerParameters) : CompileConfig :=
  mkCompile (lr p) true ["accuracy"].

(** ** Batching: [model.fit] with the default [batch_size] of 32 *)

Definition DEFAULT_BATCH_SIZE : nat := 32.

Fixpoint batches_fuel {A} (fuel bs : nat) (xs : list A) : list (list A) :=
  match fuel, xs with
  | 0, _ | _, [] => []
  | S f, _ => take bs xs :: batches_fuel f bs (drop bs xs)
  end.

(** One pass over [xs] in consecutive batches of [bs] rows, the last
    one possibly shorter.  Each batch consumes at least one row, so the
    length of [xs] is enough fuel. *)
Definition batches {A} (bs : nat) (xs : list A) : list (list A) :=
  batches_fuel (List.length xs) bs xs.

(** ** Lemmas on batching *)

Lemma ceil_div_step n bs : 0 < bs -> 0 < n -> ceil_div n bs = S (ceil_div (n - bs) bs).
Proof.
  intros Hbs Hn. unfold ceil_div.
  replace (n + bs - 1) with ((n - 1) + 1 * bs) by lia. rewrite Nat.div_add by lia.
  destruct (le_lt_dec n bs).
  - rewrite !Nat.div_small by lia. done.
  - replace (n - bs + bs - 1) with (n - 1) by lia. lia.
Qed.

Section Batches.
Context {A : Type} (bs : nat) (Hbs : 0 < bs).

Lemma batches_fuel_concat f (xs : list A) :
  List.length xs <= f -> List.concat (batches_fuel f bs xs) = xs.
Proof.
  revert xs; induction f as [|f IH]; intros [|x xs] Hlen; simpl in *; try lia; try done.
  rewrite IH; [apply take_drop |]. rewrite length_drop. simpl. lia.
Qed.

Lemma batches_fuel_length f (xs : list A) :
  List.length xs <= f -> List.length (batches_fuel f bs xs) = ceil_div (List.length xs) bs.
Proof.
  revert xs; induction f as [|f IH]; intros [|x xs] Hlen; simpl in *.
  - unfold ceil_div. rewrite Nat.div_small; lia.
  - lia.
  - unfold ceil_div. rewrite Nat.div_small; lia.
  - rewrite IH by (rewrite length_drop; simpl; lia). rewrite length_drop.
    rewrite (ceil_div_step (S (List.length xs))) by lia. done.
Qed.

Lemma batches_fuel_sizes f (xs : list A) :
  Forall (fun b => 0 < List.length b <= bs) (batches_fuel f bs xs).
Proof.
  revert xs; induction f as [|f IH]; intros [|x xs]; simpl; constructor; [| apply IH].
  rewrite length_take. simpl. lia.
Qed.

End Batches.

(** ** Shuffling: [model.fit(..., shuffle=True)] *)

(** [xs[perm]] for an index array [perm]: the rows of [xs] in the order
    of [perm].  [model.fit] on NumPy arrays draws a fresh permutation of
    the row indices for every epoch (its default [shuffle=True]). *)
Definition take_rows {A} (perm : list nat) (xs : list A) : list A := omap (fun i => xs !! i) perm.

Lemma omap_lookup_seq {A} (xs : list A) k :
  omap (fun i => xs !! i) (seq k (List.length xs - k)) = drop k xs.
Proof.
  remember (List.length xs - k) as n eqn:Hn. revert k Hn; induction n as [|n IH]; intros k Hn; simpl.
  - rewrite drop_ge; [done | lia].
  - destruct (lookup_lt_is_Some_2 xs k) as [x Hx]; [lia |]. rewrite Hx, (drop_S xs x k Hx).
    f_equal. apply IH. lia.
Qed.

(** Taking the rows in the order of a permutation of their indices
    permutes them. *)
Lemma take_rows_perm {A} perm (xs : list A) : perm ≡ₚ seq 0 (List.length xs) -> take_rows perm xs ≡ₚ xs.
Proof.
  intros Hp. unfold take_rows. rewrite Hp.
  replace (seq 0 (List.length xs)) with (seq 0 (List.length xs - 0)) by (f_equal; lia).
  by rewrite omap_lookup_seq, drop_0.
Qed.

(** Whatever the index array, the rows taken are rows of [xs]. *)
Lemma take_rows_Forall {A} (P : A -> Prop) perm (xs : list A) :
  Forall P xs -> Forall P (take_rows perm xs).
Proof.
  rewrite !List.Forall_forall. intros HP y Hy. apply list_elem_of_In, list_elem_of_omap in Hy
    as (i & _ & Hi). apply HP, list_elem_of_In. by apply list_elem_of_lookup_2 with i.
Qed.

(** ** The training loop and the step *)

Section Fit.
Context {X Y Weights Metrics Table : Type}.
(** one optimiser update on a batch; the training metrics Keras reports
    for an epoch, from the weights it starts with and its batches; an
    evaluation on a data set; the table of predictions [WandbCallback]
    logs for [log_evaluation=True] *)
Variable train_batch : Weights -> list (X * Y) -> Weights.
Variable epoch_logs : Weights -> list (list (X * Y)) -> Metrics.
Variable evaluate : Weights -> list (X * Y) -> Metrics.
Variable predict_table : Weights -> list (X * Y) -> Table.
(** the initial (random) weights of a built model, and the shape of an input *)
Variable init_weights : list (list nat * nat) -> Weights.
Variable x_shape : X -> list nat.
(** the index permutation drawn for epoch [e] over [n] rows *)
Variable shuffle : nat -> nat -> list nat.

(** What the run records: [WandbCallback.on_epoch_end] logs the epoch's
    training and validation metrics, and [on_train_end] the prediction
    table when a batch was trained since the last one
    ([log_evaluation_frequency=0]: only at the end). *)
Inductive LogEntry :=
| EpochLog (epoch : nat) (train val : Metrics)
| EvalTable (t : Table).

(** The batches of epoch [e]: the shuffled rows in batches of 32. *)
Definition epoch_batches (e : nat) (train : list (X * Y)) : list (list (X * Y)) :=
  batches DEFAULT_BATCH_SIZE (take_rows (shuffle e (List.length train)) train).

Definition train_epoch (e : nat) (train : list (X * Y)) (w : Weights) : Weights :=
  foldl train_batch w (epoch_batches e train).

(** Keras' data adapter: inputs and labels in equal number. *)
Definition check_cardinality (xs : list X) (ys : list Y) : result (list (X * Y)) TrainerError :=
  if Nat.eqb (List.length xs) (List.length ys) then Ok (combine xs ys)
  else Err (ValueError "Data cardinality is ambiguous").

(** The built model accepts only inputs of its input shape. *)
Definition check_shapes (s : list nat) (rows : list (X * Y)) : result unit TrainerError :=
  if forallb (fun r => bool_decide (x_shape r.1 = s)) rows then Ok tt
  else Err (ValueError "Input shape mismatch").

(** [for epoch in range(initial_epoch, epochs)]: train the epoch's
    batches, then evaluate on the validation data, whose handler Keras
    builds at the end of the first epoch, and log.  The flag records
    whether a batch was trained. *)
Fixpoint fit_loop (s : list nat) (k epoch : nat) (train : list (X * Y)) (xv : list X) (yv : list Y)
    (w : Weights) : result (Weights * list LogEntry * bool) TrainerError :=
  match k with
  | 0 => Ok (w, [], false)
  | S k' =>
      let bs := epoch_batches epoch train in
      let? _ := check_shapes s (List.concat bs) in
      let w' := foldl train_batch w bs in
      let? val := check_cardinality xv yv in
      let? _ := check_shapes s val in
      let? r := fit_loop s k' (S epoch) train xv yv w' in
      let '(wf, logs, trained) := r in
      Ok (wf, EpochLog epoch (epoch_logs w bs) (evaluate w' val) :: logs,
          match bs with [] => trained | _ :: _ => true end)
  end.

(** [model.fit(x, y, epochs=n, validation_data=(xv, yv), callbacks=[WandbCallback(
    log_evaluation=True, ...)])] on a model of input shape [s]. *)
Definition fit (s : list nat) (n_epochs : Z) (xt : list X) (yt : list Y) (xv : list X) (yv : list Y)
    (w : Weights) : result (Weights * list LogEntry) TrainerError :=
  let? train := check_cardinality xt yt in
  let? r := fit_loop s (Z.to_nat n_epochs) 0 train xv yv w in
  let '(wf, logs, trained) := r in
  Ok (wf, (logs ++ (if trained then [EvalTable (predict_table wf (combine xv yv))] else []))%list).

Record TrainedModel := mkTrained {
  tm_layers : list (list nat * nat);
  tm_compile : CompileConfig;
  tm_weights : Weights }.

(** [tf_trainer(params, x_train, y_train, x_val, y_val)]: build and
    compile the model, fit it for [params.epochs] epochs, return it. *)
Definition tf_trainer (p : TrainerParameters) (x_train : list X) (y_train : list Y)
    (x_val : list X) (y_val : list Y)
  : result (TrainedModel * list LogEntry) TrainerError :=
  match sequential trainer_layers with
  | None => Err (ValueError "model is not built")
  | Some built =>
      let? r := fit [28; 28] (epochs p) x_train y_train x_val y_val (init_weights built) in
      Ok (mkTrained built (compile_config p) r.1, r.2)
  end.

(** ** Lemmas on the loop *)

(** The weights after [k] epochs numbered from [e]. *)
Fixpoint run_epochs (k e : nat) (train : list (X * Y)) (w : Weights) : Weights :=
  match k with
  | 0 => w
  | S k' => run_epochs k' (S e) train (train_epoch e train w)
  end.

Definition has_batches (bs : list (list (X * Y))) : bool := match bs with [] => false | _ => true end.

Lemma check_cardinality_Ok xs ys : List.length xs = List.length ys -> check_cardinality xs ys = Ok (combine xs ys).
Proof. intros Hl. unfold check_cardinality. by rewrite Hl, Nat.eqb_refl. Qed.

Lemma check_shapes_Ok s (rows : list (X * Y)) : Forall (fun r => x_shape r.1 = s) rows -> check_shapes s rows = Ok tt.
Proof.
  intros Hr. unfold check_shapes. replace (forallb _ rows) with true; [done |]. symmetry.
  apply forallb_forall. intros r Hin. apply bool_decide_eq_true. rewrite List.Forall_forall in Hr. by apply Hr.
Qed.

Lemma Forall_combine_fst (P : X -> Prop) (xs : list X) (ys : list Y) :
  Forall P xs -> Forall (fun r => P r.1) (combine xs ys).
Proof.
  revert ys; induction xs as [|x xs IH]; intros [|y ys] Hx; simpl; [constructor .. |].
  apply Forall_cons_1 in Hx as [Hx Hxs]. constructor; [done | by apply IH].
Qed.

(** Every epoch reads every row once, whatever the shuffle. *)
Lemma epoch_batches_rows P e (train : list (X * Y)) :
  Forall P train -> Forall P (List.concat (epoch_batches e train)).
Proof.
  intros HP. unfold epoch_batches, batches.
  rewrite batches_fuel_concat; [by apply take_rows_Forall | unfold DEFAULT_BATCH_SIZE; lia | done].
Qed.

Lemma map_seq_succ {A} (f : nat -> A) k : map f (seq 0 (S k)) = f 0 :: map (fun i => f (S i)) (seq 0 k).
Proof. cbn [seq map]. by rewrite <- seq_shift, map_map. Qed.

Lemma existsb_seq_succ (f : nat -> bool) k :
  existsb f (seq 0 (S k)) = f 0 || existsb (fun i => f (S i)) (seq 0 k).
Proof. cbn [seq existsb]. rewrite <- seq_shift. f_equal. induction (seq 0 k); simpl; congruence. Qed.

(** On valid data, the loop runs every epoch: its weights, its log, and
    whether a batch was trained. *)
Lemma fit_loop_closed s k e train xv yv w :
  Forall (fun r => x_shape r.1 = s) train -> List.length xv = List.length yv ->
  Forall (fun x => x_shape x = s) xv ->
  fit_loop s k e train xv yv w =
    Ok (run_epochs k e train w,
        map (fun i => EpochLog (e + i) (epoch_logs (run_epochs i e train w) (epoch_batches (e + i) train))
                               (evaluate (run_epochs (S i) e train w) (combine xv yv))) (seq 0 k),
        existsb (fun i => has_batches (epoch_batches (e + i) train)) (seq 0 k)).
Proof.
  intros Ht Hl Hv. revert e w; induction k as [|k IH]; intros e w; [done |].
  cbn [fit_loop]. rewrite check_shapes_Ok by (by apply epoch_batches_rows).
  cbn [bind_res]. rewrite check_cardinality_Ok by done. cbn [bind_res].
  rewrite check_shapes_Ok by (by apply (Forall_combine_fst (fun x => x_shape x = s))).
  cbn [bind_res]. rewrite IH. cbn [bind_res].
  rewrite map_seq_succ, existsb_seq_succ. cbn [run_epochs]. rewrite !Nat.add_0_r.
  unfold train_epoch, has_batches. assert (Hm : forall i, e + S i = S e + i) by (intros; lia).
  apply (f_equal Ok). apply (f_equal2 pair); [apply (f_equal2 pair) |].
  - reflexivity.
  - apply (f_equal2 cons); [reflexivity |]. apply map_ext. intros i. by rewrite Hm.
  - destruct (epoch_batches e train); [| done]. simpl.
    clear IH. induction (seq 0 k) as [|i l IHl]; simpl; [done |]. rewrite Nat.add_succ_r. f_equal. exact IHl.
Qed.

Lemma map_seq_shift_add {A} (f : nat -> A) e k :
  map (fun i => f (S e + i)) (seq 0 k) = map (fun i => f (e + S i)) (seq 0 k).
Proof. apply map_ext. intros i. f_equal. lia. Qed.

(** The weights after [k] epochs: every batch of every epoch, in order. *)
Lemma run_epochs_foldl k e train w :
  run_epochs k e train w =
  foldl train_batch w (List.concat (map (fun i => epoch_batches (e + i) train) (seq 0 k))).
Proof.
  revert e w; induction k as [|k IH]; intros e w; [done |].
  rewrite map_seq_succ. cbn [run_epochs List.concat]. rewrite foldl_app, Nat.add_0_r, IH.
  by rewrite (map_seq_shift_add (fun j => epoch_batches j train)).
Qed.

Section Shuffled.
(** numpy's [shuffle] draws a permutation of the row indices *)
Hypothesis Hshuffle : forall e n, shuffle e n ≡ₚ seq 0 n.

(** An epoch reads every row exactly once, in [ceil(n / 32)] batches of
    at most 32 rows. *)
Lemma epoch_batches_spec e (train : list (X * Y)) :
  List.concat (epoch_batches e train) ≡ₚ train /\
  List.length (epoch_batches e train) = ceil_div (List.length train) DEFAULT_BATCH_SIZE /\
  Forall (fun b => 0 < List.length b <= DEFAULT_BATCH_SIZE) (epoch_batches e train).
Proof.
  pose proof (take_rows_perm _ train (Hshuffle e (List.length train))) as Hp.
  assert (Hbs : 0 < DEFAULT_BATCH_SIZE) by (unfold DEFAULT_BATCH_SIZE; lia).
  unfold epoch_batches, batches. split_and!.
  - by rewrite batches_fuel_concat.
  - rewrite batches_fuel_length by done. by rewrite (Permutation_length Hp).
  - by apply batches_fuel_sizes.
Qed.

Lemma has_batches_epoch e (train : list (X * Y)) :
  has_batches (epoch_batches e train) = (Nat.ltb 0 (List.length train)).
Proof.
  destruct (epoch_batches_spec e train) as (_ & Hl & _). unfold has_batches.
  destruct (Nat.ltb_spec 0 (List.length train)) as [Hn | Hn].
  - destruct (epoch_batches e train) eqn:Eb; [| done]. cbn [List.length] in Hl. exfalso.
    unfold ceil_div, DEFAULT_BATCH_SIZE in Hl.
    assert (1 <= (List.length train + 32 - 1) / 32) by (apply (Nat.div_le_lower_bound _ 32 1); lia). lia.
  - replace (List.length train) with 0 in Hl by lia.
    destruct (epoch_batches e train) eqn:Eb; [done |]. discriminate Hl.
Qed.

Lemma existsb_const (c : bool) k : existsb (fun _ : nat => c) (seq 0 k) = (Nat.ltb 0 k) && c.
Proof. destruct k; simpl; [done |]. destruct c; [done |]. by induction (seq 1 k). Qed.

(** C20: on well-formed data, [tf_trainer] returns the built
    [Flatten; Dense 10] model ([784] then [10] outputs, 0 and 7850
    weights) compiled with the parameters' learning rate, trained for
    [max(epochs, 0)] epochs, each on a fresh shuffle of the training
    rows; the callback has logged, for each epoch in order, its training
    metrics and the validation metrics after it, and at the end of
    training, when a batch was trained, the prediction table of the
    final model on the validation data. *)
Theorem tf_trainer_ok p xt yt xv yv :
  List.length xt = List.length yt -> Forall (fun x => x_shape x = [28; 28]) xt ->
  List.length xv = List.length yv -> Forall (fun x => x_shape x = [28; 28]) xv ->
  let built := [([784], 0); ([10], 7850)] in
  let train := combine xt yt in
  let E := Z.to_nat (epochs p) in
  let W i := run_epochs i 0 train (init_weights built) in
  tf_trainer p xt yt xv yv =
    Ok (mkTrained built (compile_config p) (W E),
        (map (fun i => EpochLog i (epoch_logs (W i) (epoch_batches i train))
                                 (evaluate (W (S i)) (combine xv yv))) (seq 0 E) ++
         if (Nat.ltb 0 E) && (Nat.ltb 0 (List.length xt))
         then [EvalTable (predict_table (W E) (combine xv yv))] else [])%list).
Proof.
  intros Hlt Hst Hlv Hsv built train E W. unfold tf_trainer, fit. cbn [sequential trainer_layers].
  rewrite check_cardinality_Ok by done. cbn [bind_res].
  rewrite fit_loop_closed by (done || by apply (Forall_combine_fst (fun x => x_shape x = [28; 28]))).
  cbn [bind_res]. replace (existsb _ (seq 0 (Z.to_nat (epochs p)))) with ((Nat.ltb 0 E) && (Nat.ltb 0 (List.length xt))).
  - reflexivity.
  - rewrite <- existsb_const. apply existsb_ext. intros i. simpl.
    rewrite has_batches_epoch. subst train. rewrite length_combine, Hlt, Nat.min_id. done.
Qed.

(** C21: the optimiser updates of [model.fit] over [n] epochs: the final
    weights are the initial ones updated by a schedule of exactly
    [max(n, 0)] epochs, each of which splits a permutation of the
    training rows, every row once, into [ceil(rows / 32)] batches of at
    most 32 rows, whatever permutations the shuffle draws. *)
Theorem fit_schedule s n xt yt xv yv w :
  List.length xt = List.length yt -> Forall (fun x => x_shape x = s) xt ->
  List.length xv = List.length yv -> Forall (fun x => x_shape x = s) xv ->
  exists sched logs,
    fit s n xt yt xv yv w = Ok (foldl train_batch w (List.concat sched), logs) /\
    List.length sched = Z.to_nat n /\
    Forall (fun bs => List.concat bs ≡ₚ combine xt yt /\
                      List.length bs = ceil_div (List.length xt) DEFAULT_BATCH_SIZE /\
                      Forall (fun b => 0 < List.length b <= DEFAULT_BATCH_SIZE) bs) sched.
Proof.
  intros Hlt Hst Hlv Hsv. set (train := combine xt yt).
  exists (map (fun i => epoch_batches i train) (seq 0 (Z.to_nat n))). eexists.
  unfold fit. rewrite check_cardinality_Ok by done. cbn [bind_res].
  rewrite fit_loop_closed by (done || by apply (Forall_combine_fst (fun x => x_shape x = s))).
  cbn [bind_res]. split_and!.
  - by rewrite run_epochs_foldl.
  - by rewrite length_map, length_seq.
  - apply Forall_map, List.Forall_forall. intros i _.
    assert (Hn : List.length train = List.length xt) by (subst train; rewrite length_combine; lia).
    rewrite <- Hn. apply epoch_batches_spec.
Qed.

End Shuffled.

End Fit.

(** C19: importing the module succeeds exactly when the active stack has
    an experiment tracker of the WandB flavor, and then configures the
    step with that tracker's name; every other stack raises the
    [RuntimeError] of line 27. *)
Theorem module_guard_spec t :
  (forall n, module_guard t = Ok n <-> exists tr, t = Some tr /\ is_wandb tr = true /\ n = tracker_name tr) /\
  (forall e, module_guard t = Err e -> e = RuntimeError guard_msg).
Proof.
  split.
  - intros n. destruct t as [tr|]; simpl; [| split; [discriminate | intros (? & ? & _); discriminate]].
    destruct (is_wandb tr) eqn:Hw; split.
    + intros [= <-]. eauto.
    + intros (tr' & [= <-] & _ & ->). done.
    + discriminate.
    + intros (tr' & [= <-] & Hw' & _). congruence.
  - intros e. destruct t as [tr|]; simpl; [destruct (is_wandb tr) |]; congruence.
Qed.

(** ** A concrete run: the weights read the labels in the order trained *)

Definition demo_train (w : nat) (b : list (unit * nat)) : nat := foldl (fun acc r => acc * 2 + r.2) w b.
Definition demo_epoch_logs (_ : nat) (bs : list (list (unit * nat))) : nat := List.length bs.
Definition demo_eval (w : nat) (_ : list (unit * nat)) : nat := w.
Definition demo_table (_ : nat) (v : list (unit * nat)) : nat := List.length v.
Definition demo_init (_ : list (list nat * nat)) : nat := 0.
Definition demo_shape (_ : unit) : list nat := [28; 28].

(** even epochs read the rows backwards, odd ones in order *)
Definition demo_shuffle (e n : nat) : list nat := if Nat.even e then rev (seq 0 n) else seq 0 n.

Lemma demo_shuffle_perm e n : demo_shuffle e n ≡ₚ seq 0 n.
Proof. unfold demo_shuffle. destruct (Nat.even e); [| done]. symmetry. apply Permutation_rev. Qed.

Definition demo_trainer :=
  tf_trainer demo_train demo_epoch_logs demo_eval demo_table demo_init demo_shape demo_shuffle.

Lemma tf_trainer_ok_witness :
  demo_trainer (mkTrainerParameters 2 (1 # 1000)) [tt; tt; tt] [1; 0; 0] [tt] [0] =
  Ok (mkTrained [([784], 0); ([10], 7850)] (compile_config (mkTrainerParameters 2 (1 # 1000))) 12,
      [EpochLog 0 1 1; EpochLog 1 1 12; EvalTable 1]).
Proof.
  unfold demo_trainer.
  rewrite (tf_trainer_ok demo_train demo_epoch_logs demo_eval demo_table demo_init demo_shape demo_shuffle
             demo_shuffle_perm (mkTrainerParameters 2 (1 # 1000)));
    [| reflexivity | apply List.Forall_forall; reflexivity | reflexivity | apply List.Forall_forall; reflexivity].
  vm_compute. reflexivity.
Defined.

Lemma fit_schedule_witness :
  exists sched logs,
    fit demo_train demo_epoch_logs demo_eval demo_table demo_shape demo_shuffle [28; 28] 2
      [tt; tt; tt] [1; 0; 0] [tt] [0] 0 = Ok (foldl demo_train 0 (List.concat sched), logs) /\
    List.length sched = 2 /\
    Forall (fun bs => List.concat bs ≡ₚ combine [tt; tt; tt] [1; 0; 0] /\
                      List.length bs = ceil_div 3 DEFAULT_BATCH_SIZE /\
                      Forall (fun b => 0 < List.length b <= DEFAULT_BATCH_SIZE) bs) sched.
Proof.
  apply (fit_schedule demo_train demo_epoch_logs demo_eval demo_table demo_shape demo_shuffle
           demo_shuffle_perm [28; 28] 2);
    [reflexivity | apply List.Forall_forall; reflexivity | reflexivity | apply List.Forall_forall; reflexivity].
Defined.

End Trainer.
