(* ===== verification/Argv.v ===== *)
(** * Command lines: click's parsing of [zenml pipeline ...]

    The decorators of [src/src/zenml/cli/pipeline.py] declare, for every
    command of the [pipeline] group and of its [schedule], [runs] and
    [builds] sub-groups, one positional argument and a set of options
    ([--version/-v], [--config/-c], [--stack/-s], [--output/-o],
    [--build/-b], the flag [--yes/-y]); [list_options] adds the filter
    options of the list commands.  This file models how click turns the
    words after [zenml pipeline] into one [Command] of [Cli]:
    - the option parser of click ([parse_tokens]): long options with a
      separate or [=]-attached value, clusters of short options with a
      separate or attached value, [--] ending the options, and options
      anywhere among the arguments; a repeated option keeps its last
      value;
    - the parameter processing that follows: [--help], a missing or an
      extra argument; the filter options of [list_options] are strings
      ([type=str]), which the client reads and validates;
    - the group's lookup of the command name.
    Failures are the [ArgError] values click reports as usage errors
    (exit code 2).  Not modelled: the "Did you mean" suggestions of an
    unknown option, the text of the help pages, and the filter options
    of [list_options] other than [--name], [--page] and [--size] ([builds
    list] has no [--name]: a build has no name); a [--config] path
    that does not exist is reported by the handler ([check_path_exists]),
    so when a command line has both that and an extra argument, click
    names the path and the model the extra argument.  [cli_main] runs a command line: the parsed command
    through [dispatch], or the usage error. *)

From S2P Require Import Prelude PyInt Registry Cli.
Import PyInt Registry Cli.

Module Argv.

(** ** Option declarations *)

Inductive OptKind := ValueOpt | FlagOpt.

(** [click.option("--long", "-s", "dest", is_flag=...)] *)
Record OptSpec := mkOpt {
  opt_long : string;
  opt_short : option ascii;
  opt_dest : string;
  opt_kind : OptKind }.

#[export] Instance OptKind_eq_dec : EqDecision OptKind.
Proof. solve_decision. Defined.

#[export] Instance OptSpec_eq_dec : EqDecision OptSpec.
Proof. solve_decision. Defined.

Inductive OptVal := VStr (s : string) | VFlag.

(** What the parser collects: option values, the most recent first, and
    the positional arguments in order. *)
Record Parsed := mkParsed { p_opts : list (string * OptVal); p_args : list string }.

Definition empty_parsed : Parsed := mkParsed [] [].

(** The usage errors of click, and [--help]. *)
Inductive ArgError :=
| NoSuchOption (opt : string)
| RequiresArgument (opt : string)
| DoesNotTakeValue (opt : string)
| MissingArgument (arg : string)
| ExtraArguments (args : list string)
| NoSuchCommand (cmd : string)
| MissingCommand.

Definition arg_error_msg (e : ArgError) : string :=
  match e with
  | NoSuchOption o => "No such option: " ++ o
  | RequiresArgument o => "Option '" ++ o ++ "' requires an argument."
  | DoesNotTakeValue o => "Option '" ++ o ++ "' does not take a value."
  | MissingArgument a => "Missing argument '" ++ a ++ "'."
  | ExtraArguments [a] => "Got unexpected extra argument (" ++ a ++ ")"
  | ExtraArguments l => "Got unexpected extra arguments (" ++ String.concat " " l ++ ")"
  | NoSuchCommand c => "No such command '" ++ c ++ "'."
  | MissingCommand => "Missing command."
  end.

(** ** click's [OptionParser] *)

Definition find_long (specs : list OptSpec) (name : string) : option OptSpec :=
  List.find (fun o => String.eqb (opt_long o) name) specs.

Definition find_short (specs : list OptSpec) (c : ascii) : option OptSpec :=
  List.find (fun o => match opt_short o with Some d => Ascii.eqb d c | None => false end) specs.

Definition set_opt (o : OptSpec) (v : OptVal) (p : Parsed) : Parsed :=
  mkParsed ((opt_dest o, v) :: p_opts p) (p_args p).

Definition add_args (a : list string) (p : Parsed) : Parsed :=
  mkParsed (p_opts p) (p_args p ++ a).

(** [arg.split("=", 1)] on the part after [--]. *)
Fixpoint split_eq (s : string) : string * option string :=
  match s with
  | EmptyString => ("", None)
  | String c s' =>
      if Ascii.eqb c "=" then ("", Some s')
      else let '(n, v) := split_eq s' in (String c n, v)
  end.

(** [arg[:1] in prefixes and len(arg) > 1] *)
Definition option_like (t : string) : bool :=
  match t with String a (String _ _) => Ascii.eqb a "-" | _ => false end.

(** The outcome of a cluster of short options: done, or the last one
    takes the next word as its value. *)
Inductive ShortStep :=
| ShortDone (p : Parsed)
| ShortNeeds (o : OptSpec) (typed : string) (p : Parsed)
| ShortErr (e : ArgError).

(** [_match_short_opt] on the letters after a single [-]: flags are set
    one by one; an option taking a value takes the rest of the word, or
    the next word when nothing is left. *)
Fixpoint parse_short (specs : list OptSpec) (cs : string) (p : Parsed) : ShortStep :=
  match cs with
  | EmptyString => ShortDone p
  | String c rest =>
      let typed := String "-" (String c EmptyString) in
      match find_short specs c with
      | None => ShortErr (NoSuchOption typed)
      | Some o =>
          match opt_kind o with
          | FlagOpt => parse_short specs rest (set_opt o VFlag p)
          | ValueOpt =>
              match rest with
              | EmptyString => ShortNeeds o typed p
              | _ => ShortDone (set_opt o (VStr rest) p)
              end
          end
      end
  end.

(** [OptionParser._process_args_for_options]: words left to right.  A
    word of two or more characters starting with [-] is an option;
    [--] ends the options; anything else is a positional argument. *)
Fixpoint parse_tokens (specs : list OptSpec) (toks : list string) (p : Parsed)
    : result Parsed ArgError :=
  match toks with
  | [] => Ok p
  | t :: rest =>
      if String.eqb t "--" then Ok (add_args rest p)
      else match t with
      | String a (String b body) =>
          if negb (option_like t) then parse_tokens specs rest (add_args [t] p)
          else if Ascii.eqb b "-" then
            let '(name, attached) := split_eq body in
            let typed := "--" ++ name in
            match find_long specs name with
            | None => Err (NoSuchOption typed)
            | Some o =>
                match opt_kind o, attached with
                | FlagOpt, None => parse_tokens specs rest (set_opt o VFlag p)
                | FlagOpt, Some _ => Err (DoesNotTakeValue typed)
                | ValueOpt, Some v => parse_tokens specs rest (set_opt o (VStr v) p)
                | ValueOpt, None =>
                    match rest with
                    | v :: rest' => parse_tokens specs rest' (set_opt o (VStr v) p)
                    | [] => Err (RequiresArgument typed)
                    end
                end
            end
          else
            match parse_short specs (String b body) p with
            | ShortDone p' => parse_tokens specs rest p'
            | ShortNeeds o typed p' =>
                match rest with
                | v :: rest' => parse_tokens specs rest' (set_opt o (VStr v) p')
                | [] => Err (RequiresArgument typed)
                end
            | ShortErr e => Err e
            end
      | _ => parse_tokens specs rest (add_args [t] p)
      end
  end.

(** ** Parameter processing *)

(** The value of an option: the last one given. *)
Definition get_str (p : Parsed) (dest : string) : option string :=
  match List.find (fun kv => String.eqb (fst kv) dest) (p_opts p) with
  | Some (_, VStr s) => Some s
  | _ => None
  end.

Definition get_flag (p : Parsed) (dest : string) : bool :=
  existsb (fun kv => String.eqb (fst kv) dest) (p_opts p).

(** [click.argument(name, required=True)]: exactly one positional word. *)
Definition one_arg (name : string) (p : Parsed) : result string ArgError :=
  match p_args p with
  | [a] => Ok a
  | [] => Err (MissingArgument name)
  | _ :: extra => Err (ExtraArguments extra)
  end.

Definition no_args (p : Parsed) : result unit ArgError :=
  match p_args p with [] => Ok tt | extra => Err (ExtraArguments extra) end.

(** ** The declared options of each command *)

Definition help_opt := mkOpt "help" None "help" FlagOpt.
Definition version_opt := mkOpt "version" (Some "v"%char) "version" ValueOpt.
Definition config_opt := mkOpt "config" (Some "c"%char) "config_path" ValueOpt.
Definition stack_opt := mkOpt "stack" (Some "s"%char) "stack_name_or_id" ValueOpt.
Definition output_opt := mkOpt "output" (Some "o"%char) "output_path" ValueOpt.
Definition build_opt := mkOpt "build" (Some "b"%char) "build_path_or_id" ValueOpt.
Definition yes_opt := mkOpt "yes" (Some "y"%char) "yes" FlagOpt.

(** [list_options(FilterModel)]: the name filter and the page wanted. *)
Definition name_opt := mkOpt "name" None "name" ValueOpt.
Definition page_opt := mkOpt "page" None "page" ValueOpt.
Definition size_opt := mkOpt "size" None "size" ValueOpt.

Definition register_specs := [help_opt].
Definition build_specs := [help_opt; version_opt; config_opt; stack_opt; output_opt].
Definition run_specs := [help_opt; version_opt; config_opt; stack_opt; build_opt].
Definition list_specs := [help_opt; name_opt; page_opt; size_opt].
(** [list_options(PipelineBuildFilterModel)]: a build has no name. *)
Definition builds_list_specs := [help_opt; page_opt; size_opt].
Definition delete_specs := [help_opt; version_opt; yes_opt].
Definition schedule_delete_specs := [help_opt; yes_opt].
Definition runs_delete_specs := [help_opt; yes_opt].
Definition builds_delete_specs := [help_opt; yes_opt].

(** The option lists of the commands of the group. *)
Definition command_specs : list (list OptSpec) :=
  [register_specs; build_specs; run_specs; list_specs; builds_list_specs; delete_specs;
   schedule_delete_specs; runs_delete_specs; builds_delete_specs].

(** A command line either runs a command or asks for a help page. *)
Inductive Invocation := RunCommand (c : Command) | ShowHelp (path : list string).

(** Parse the words of one command, then process its parameters:
    [--help] first (an eager option), then the declared parameters. *)
Definition with_params (path : list string) (specs : list OptSpec) (toks : list string)
    (k : Parsed -> result Command ArgError) : result Invocation ArgError :=
  let? p := parse_tokens specs toks empty_parsed in
  if get_flag p "help" then Ok (ShowHelp path)
  else let? c := k p in Ok (RunCommand c).

(** [list_options] declares its options with [type=str]: their values
    reach the client, which reads and validates them. *)
Definition list_args (p : Parsed) : result ListArgs ArgError :=
  let? _ := no_args p in
  Ok (mkListArgs (get_str p "name") (get_str p "page") (get_str p "size")).

(** The group's own parsing ([allow_interspersed_args=False]): its only
    option is [--help], and the first other word names the command. *)
Fixpoint group_opts (help : bool) (toks : list string) : result (bool * list string) ArgError :=
  match toks with
  | [] => Ok (help, [])
  | t :: rest =>
      if String.eqb t "--" then Ok (help, rest)
      else if option_like t then
        let? _ := parse_tokens [help_opt] [t] empty_parsed in group_opts true rest
      else Ok (help, toks)
  end.

(** [MultiCommand]: no words at all print the help page
    ([no_args_is_help]); otherwise [--help] wins, and a missing or an
    unknown command name is a usage error. *)
Definition run_group (path : list string) (toks : list string)
    (cmds : string -> list string -> option (result Invocation ArgError)) : result Invocation ArgError :=
  match toks with
  | [] => Ok (ShowHelp path)
  | _ =>
      let? hr := group_opts false toks in
      let '(help, rest) := hr in
      if help then Ok (ShowHelp path)
      else match rest with
           | [] => Err MissingCommand
           | c :: rest' => match cmds c rest' with Some r => r | None => Err (NoSuchCommand c) end
           end
  end.

(** A sub-group ([schedule], [runs], [builds]) with its [list] and
    [delete] commands. *)
Definition sub_group (g arg : string) (lst_specs del_specs : list OptSpec) (mk_list : ListArgs -> Command)
    (mk_delete : string -> bool -> Command) (toks : list string) : result Invocation ArgError :=
  run_group [g] toks (fun c rest =>
    if String.eqb c "list" then
      Some (with_params [g; c] lst_specs rest (fun p => let? a := list_args p in Ok (mk_list a)))
    else if String.eqb c "delete" then
      Some (with_params [g; c] del_specs rest
              (fun p => let? x := one_arg arg p in Ok (mk_delete x (get_flag p "yes"))))
    else None).

(** [pipeline.group() schedule] with [list] and [delete SCHEDULE_NAME_OR_ID]. *)
Definition schedule_group : list string -> result Invocation ArgError :=
  sub_group "schedule" "SCHEDULE_NAME_OR_ID" list_specs schedule_delete_specs CmdScheduleList
    CmdScheduleDelete.

(** [pipeline.group() runs] with [list] and [delete RUN_NAME_OR_ID]. *)
Definition runs_group : list string -> result Invocation ArgError :=
  sub_group "runs" "RUN_NAME_OR_ID" list_specs runs_delete_specs CmdRunsList CmdRunsDelete.

(** [pipeline.group() builds] with [list] and [delete BUILD_ID]. *)
Definition builds_group : list string -> result Invocation ArgError :=
  sub_group "builds" "BUILD_ID" builds_list_specs builds_delete_specs CmdBuildsList CmdBuildsDelete.

(** [zenml pipeline WORDS] *)
Definition parse_argv (argv : list string) : result Invocation ArgError :=
  run_group [] argv (fun c rest =>
    if String.eqb c "register" then
      Some (with_params [c] register_specs rest
              (fun p => let? s := one_arg "SOURCE" p in Ok (CmdRegister s)))
    else if String.eqb c "build" then
      Some (with_params [c] build_specs rest
              (fun p => let? x := one_arg "PIPELINE_NAME_OR_ID" p in
                        Ok (CmdBuild x (get_str p "version") (get_str p "config_path")
                                     (get_str p "stack_name_or_id") (get_str p "output_path"))))
    else if String.eqb c "run" then
      Some (with_params [c] run_specs rest
              (fun p => let? x := one_arg "PIPELINE_NAME_OR_ID" p in
                        Ok (CmdRun x (get_str p "version") (get_str p "config_path")
                                   (get_str p "stack_name_or_id") (get_str p "build_path_or_id"))))
    else if String.eqb c "list" then
      Some (with_params [c] list_specs rest (fun p => let? a := list_args p in Ok (CmdList a)))
    else if String.eqb c "delete" then
      Some (with_params [c] delete_specs rest
              (fun p => let? x := one_arg "PIPELINE_NAME_OR_ID" p in
                        Ok (CmdDelete x (get_str p "version") (get_flag p "yes"))))
    else if String.eqb c "schedule" then
      Some (schedule_group rest)
    else if String.eqb c "runs" then
      Some (runs_group rest)
    else if String.eqb c "builds" then
      Some (builds_group rest)
    else None).

(** ** A declarative reading of well-formed option words *)

Inductive Word := WValue (o : OptSpec) (v : string) | WFlag (o : OptSpec) | WArg (a : string).

Definition word_tokens (w : Word) : list string :=
  match w with
  | WValue o v => ["--" ++ opt_long o; v]
  | WFlag o => ["--" ++ opt_long o]
  | WArg a => [a]
  end.

Definition collect (p : Parsed) (w : Word) : Parsed :=
  match w with
  | WValue o v => set_opt o (VStr v) p
  | WFlag o => set_opt o VFlag p
  | WArg a => add_args [a] p
  end.

(** A long name that click splits back to itself: non-empty, no [=]. *)
Definition long_ok (o : OptSpec) : bool :=
  negb (String.eqb (opt_long o) "") &&
  (let '(n, v) := split_eq (opt_long o) in String.eqb n (opt_long o) && negb (bool_decide (is_Some v))).

Definition word_ok (specs : list OptSpec) (w : Word) : Prop :=
  match w with
  | WValue o _ => find_long specs (opt_long o) = Some o /\ opt_kind o = ValueOpt /\ long_ok o = true
  | WFlag o => find_long specs (opt_long o) = Some o /\ opt_kind o = FlagOpt /\ long_ok o = true
  | WArg a => option_like a = false
  end.

(** A word of a command line of [specs] in long form: a declared option
    with a value, a declared flag, or a positional word that does not
    look like an option. *)
Definition declared_word (specs : list OptSpec) (w : Word) : Prop :=
  match w with
  | WValue o _ => In o specs /\ opt_kind o = ValueOpt
  | WFlag o => In o specs /\ opt_kind o = FlagOpt
  | WArg a => option_like a = false
  end.

(** ** Printing a command back to a command line *)

Definition opt_word (o : OptSpec) (v : option string) : list Word :=
  match v with Some s => [WValue o s] | None => [] end.

Definition flag_word (o : OptSpec) (b : bool) : list Word := if b then [WFlag o] else [].

Definition list_word (a : ListArgs) : list Word :=
  opt_word name_opt (la_name a) ++ opt_word page_opt (la_page a) ++ opt_word size_opt (la_size a).

(** The command path of a command, and its words: the positional
    argument first, then the options in long form. *)
Definition command_words (c : Command) : list string * list Word :=
  match c with
  | CmdRegister s => (["register"], [WArg s])
  | CmdBuild x v cf st o =>
      (["build"], WArg x :: opt_word version_opt v ++ opt_word config_opt cf ++
                  opt_word stack_opt st ++ opt_word output_opt o)
  | CmdRun x v cf st b =>
      (["run"], WArg x :: opt_word version_opt v ++ opt_word config_opt cf ++
                opt_word stack_opt st ++ opt_word build_opt b)
  | CmdList a => (["list"], list_word a)
  | CmdDelete x v y => (["delete"], WArg x :: opt_word version_opt v ++ flag_word yes_opt y)
  | CmdScheduleList a => (["schedule"; "list"], list_word a)
  | CmdScheduleDelete x y => (["schedule"; "delete"], WArg x :: flag_word yes_opt y)
  | CmdRunsList a => (["runs"; "list"], list_word a)
  | CmdRunsDelete x y => (["runs"; "delete"], WArg x :: flag_word yes_opt y)
  | CmdBuildsList a => (["builds"; "list"], (opt_word page_opt (la_page a) ++ opt_word size_opt (la_size a))%list)
  | CmdBuildsDelete x y => (["builds"; "delete"], WArg x :: flag_word yes_opt y)
  end.

(** The canonical command line of a command. *)
Definition render (c : Command) : list string :=
  (fst (command_words c) ++ List.concat (map word_tokens (snd (command_words c))))%list.

(** The positional argument of a command, if it has one. *)
Definition command_arg (c : Command) : option string :=
  match c with
  | CmdRegister x | CmdBuild x _ _ _ _ | CmdRun x _ _ _ _ | CmdDelete x _ _
  | CmdScheduleDelete x _ | CmdRunsDelete x _ | CmdBuildsDelete x _ => Some x
  | _ => None
  end.

(** The commands [render] prints faithfully: an argument that does not
    look like an option, and no name on [builds list], which has no
    [--name] option (its handler ignores the name). *)
Definition renderable (c : Command) : Prop :=
  match c with
  | CmdBuildsList a => la_name a = None
  | _ => forall x, command_arg c = Some x -> option_like x = false
  end.

(** The options a command declares, as [parse_argv] hands them to the
    parser. *)
Definition command_specs_of (c : Command) : list OptSpec :=
  match c with
  | CmdRegister _ => register_specs
  | CmdBuild _ _ _ _ _ => build_specs
  | CmdRun _ _ _ _ _ => run_specs
  | CmdList _ | CmdScheduleList _ | CmdRunsList _ => list_specs
  | CmdBuildsList _ => builds_list_specs
  | CmdDelete _ _ _ => delete_specs
  | CmdScheduleDelete _ _ => schedule_delete_specs
  | CmdRunsDelete _ _ => runs_delete_specs
  | CmdBuildsDelete _ _ => builds_delete_specs
  end.

(** [word_ok] for the option words, decided. *)
Definition option_word_okb (specs : list OptSpec) (w : Word) : bool :=
  match w with
  | WValue o _ => bool_decide (find_long specs (opt_long o) = Some o) &&
                  bool_decide (opt_kind o = ValueOpt) && long_ok o
  | WFlag o => bool_decide (find_long specs (opt_long o) = Some o) &&
               bool_decide (opt_kind o = FlagOpt) && long_ok o
  | WArg _ => false
  end.

(** ** Running a command line *)

Section Main.
Context {S : Type} `{Client S} `{Backend}.

(** [cli()] on [zenml pipeline argv]: a usage error is printed and exits
    with code 2 before any command runs; [--help] prints the help page. *)
Definition cli_main (argv : list string) : Cli unit :=
  match parse_argv argv with
  | Ok (RunCommand c) => dispatch c
  | Ok (ShowHelp path) => emit (MDeclare ("Usage: zenml pipeline " ++ String.concat " " path))
  | Err e => emit (MError (arg_error_msg e)) ;; cli_stop (UsageError (arg_error_msg e))
  end.

(** A shell session: [zenml pipeline LINE] for each line in turn, each
    on the world the previous one left, whether it failed or not. *)
Fixpoint run_lines (ls : list (list string)) (w : @World S) : @World S :=
  match ls with
  | [] => w
  | l :: ls' => run_lines ls' (fst (cli_main l w))
  end.

End Main.

(** The words of [delete train --version 3 --yes]. *)
Definition delete_words : list Word := [WArg "train"; WValue version_opt "3"; WFlag yes_opt].

(** ** Lemmas on the parser *)

Lemma option_like_not_dashdash t : option_like t = false -> String.eqb t "--" = false.
Proof. intros H. apply String.eqb_neq. intros ->. discriminate. Qed.

Lemma parse_tokens_plain specs t rest p :
  option_like t = false -> parse_tokens specs (t :: rest) p = parse_tokens specs rest (add_args [t] p).
Proof.
  intros H. cbn [parse_tokens]. rewrite option_like_not_dashdash by done.
  destruct t as [|a [|b body]]; [done | done |]. by rewrite H.
Qed.

Lemma split_eq_long o : long_ok o = true -> split_eq (opt_long o) = (opt_long o, None).
Proof.
  unfold long_ok. destruct (split_eq (opt_long o)) as [n [v|]]; simpl;
    rewrite ?andb_false_r; [discriminate |].
  rewrite andb_true_r, andb_true_iff, String.eqb_eq. by intros [_ ->].
Qed.

Lemma long_ok_nonempty o : long_ok o = true -> exists c l, opt_long o = String c l.
Proof.
  unfold long_ok. destruct (opt_long o) as [|c l]; [discriminate |]. eauto.
Qed.

Lemma parse_tokens_word specs w rest p :
  word_ok specs w ->
  parse_tokens specs (word_tokens w ++ rest) p = parse_tokens specs rest (collect p w).
Proof.
  destruct w as [o v | o | a]; simpl.
  - intros (Hf & Hk & Hl). pose proof (split_eq_long o Hl) as Hs.
    destruct (long_ok_nonempty o Hl) as (c & l & Hol).
    rewrite Hol in *. cbn -[split_eq find_long]. change ("" ++ String c l) with (String c l). rewrite Hs, Hf, Hk. done.
  - intros (Hf & Hk & Hl). pose proof (split_eq_long o Hl) as Hs.
    destruct (long_ok_nonempty o Hl) as (c & l & Hol).
    rewrite Hol in *. cbn -[split_eq find_long]. change ("" ++ String c l) with (String c l). rewrite Hs, Hf, Hk. done.
  - intros H. by apply parse_tokens_plain.
Qed.

Lemma option_word_okb_sound specs w : option_word_okb specs w = true -> word_ok specs w.
Proof.
  destruct w; simpl; rewrite ?andb_true_iff, ?bool_decide_eq_true; [tauto | tauto | discriminate].
Qed.

Lemma option_words_ok specs ws : forallb (option_word_okb specs) ws = true -> Forall (word_ok specs) ws.
Proof.
  intros H. apply forallb_Forall in H. eapply Forall_impl; [exact H |]. apply option_word_okb_sound.
Qed.

(** Well-formed words are read one by one, whatever follows them. *)
Lemma parse_words_app specs ws rest p :
  Forall (word_ok specs) ws ->
  parse_tokens specs (List.concat (map word_tokens ws) ++ rest) p =
    parse_tokens specs rest (foldl collect p ws).
Proof.
  revert p; induction ws as [|w ws IH]; intros p Hws; [done |].
  apply Forall_cons_1 in Hws as [Hw Hws]. cbn [map List.concat foldl].
  rewrite <- app_assoc, parse_tokens_word by done. by apply IH.
Qed.

Lemma parse_words_gen specs ws p :
  Forall (word_ok specs) ws ->
  parse_tokens specs (List.concat (map word_tokens ws)) p = Ok (foldl collect p ws).
Proof.
  intros Hws. rewrite <- (app_nil_r (List.concat _)), parse_words_app by done. done.
Qed.



Lemma with_params_words path specs ws k :
  Forall (word_ok specs) ws ->
  with_params path specs (List.concat (map word_tokens ws)) k =
    (let p := foldl collect empty_parsed ws in
     if get_flag p "help" then Ok (ShowHelp path) else let? c := k p in Ok (RunCommand c)).
Proof. intros Hws. unfold with_params. by rewrite parse_words_gen. Qed.

(** Parse a command line up to a positional word [x] that does not look
    like an option, step over it, and parse the rest. *)
Ltac parse_around x Hx :=
  match goal with |- context [x :: ?tail] =>
    let l := fresh "l" in let El := fresh "El" in
    remember (x :: tail) as l eqn:El; cbv [String.append]; cbn; unfold with_params; cbn; subst l;
    rewrite parse_tokens_plain by exact Hx; cbn; reflexivity
  end.

Ltac destruct_params :=
  repeat match goal with
         | o : option string |- _ => destruct o
         | b : bool |- _ => destruct b
         | a : ListArgs |- _ => destruct a
         end.

(** The declarations of every command give distinct long names without
    [=], so each declared option is found, in long form, as itself. *)
Lemma command_specs_long specs o :
  In specs command_specs -> In o specs -> find_long specs (opt_long o) = Some o /\ long_ok o = true.
Proof.
  intros Hs Ho. repeat destruct Hs as [<- | Hs]; try done;
    repeat destruct Ho as [<- | Ho]; done.
Qed.

(** Parse the canonical command line of a command: the command path
    selects [with_params], the words are read by [with_params_words]
    once [ok] shows them well formed, and the parameters are processed. *)
Ltac enter_command :=
  cbn [command_words fst snd];
  match goal with |- parse_argv (_ ++ ?toks)%list = _ =>
    let t := fresh "t" in remember toks as t eqn:Et; cbn -[with_params]; subst t end.

Ltac parse_render ok :=
  enter_command; (rewrite with_params_words; [| ok]); cbn; reflexivity.

(** The words of a command are well formed: its argument by [H], its
    options by [option_word_okb]. *)
Ltac command_words_ok H :=
  try (apply Forall_cons_2; [exact H |]); apply option_words_ok; reflexivity.

Lemma render_parse_gen c :
  renderable c ->
  parse_argv (render c) = Ok (RunCommand c).
Proof.
  intros H. unfold render.
  destruct c; simpl in H; try specialize (H _ eq_refl); destruct_params;
    try (cbn in H; discriminate H);
    parse_render ltac:(command_words_ok H).
Qed.

(** The words of a command that [render] prints faithfully are well
    formed for that command's options. *)
Lemma command_words_wf c :
  renderable c -> Forall (word_ok (command_specs_of c)) (snd (command_words c)).
Proof.
  intros H. destruct c; simpl in H; try specialize (H _ eq_refl); destruct_params;
    try (cbn in H; discriminate H); cbn [command_words snd command_specs_of]; command_words_ok H.
Qed.

(** The command path of a command leads to its own option list, whatever
    words follow it. *)
Lemma parse_argv_path c toks :
  exists k, parse_argv (fst (command_words c) ++ toks) =
              with_params (fst (command_words c)) (command_specs_of c) toks k.
Proof. destruct c; eexists; enter_command; reflexivity. Qed.

(** A flag once set stays set. *)
Lemma get_flag_foldl p ws d : get_flag p d = true -> get_flag (foldl collect p ws) d = true.
Proof.
  revert p; induction ws as [|w ws IH]; intros p Hp; [done |]. apply IH.
  destruct w; unfold get_flag in *; simpl; rewrite ?Hp, ?orb_true_r; done.
Qed.


(** C22: on the option lists the commands of [pipeline.py] declare,
    click's option parser is the declarative reading of a command line:
    on declared options in long form (with their values), declared
    flags and positional words that do not look like options, in any
    order, it collects exactly the options and the arguments word by
    word, so that [get_str] sees the last value given. *)
Theorem parse_words specs ws p :
  In specs command_specs -> Forall (declared_word specs) ws ->
  parse_tokens specs (List.concat (map word_tokens ws)) p = Ok (foldl collect p ws).
Proof.
  intros Hs Hws. apply parse_words_gen. eapply Forall_impl; [exact Hws |].
  intros [o v | o | a]; simpl; [| | done];
    intros [Ho Hk]; destruct (command_specs_long specs o Hs Ho); done.
Qed.

(** C23: printing a command as its canonical command line and parsing
    it back gives the command again, for every command of the group
    whose positional argument does not look like an option. *)
Theorem render_parse c :
  renderable c ->
  parse_argv (render c) = Ok (RunCommand c).
Proof. apply render_parse_gen. Qed.

(** C24: the spellings click accepts for the options of [zenml pipeline
    delete] agree, wherever they stand around the argument: long options
    with a separate or an attached value, short options alone or in a
    cluster with an attached value; and of two values of [--version] the
    last one counts. *)
Theorem delete_spellings x v v0 :
  option_like x = false -> v <> "" ->
  let expected := Ok (RunCommand (CmdDelete x (Some v) true)) in
  parse_argv ["delete"; x; "--version"; v; "--yes"] = expected /\
  parse_argv ["delete"; "--version=" ++ v; x; "-y"] = expected /\
  parse_argv ["delete"; "-y"; "-v"; v; x] = expected /\
  parse_argv ["delete"; "-yv" ++ v; x] = expected /\
  parse_argv ["delete"; "-v"; v0; x; "--yes"; "--version"; v] = expected.
Proof.
  intros Hx Hv expected. destruct v as [|c v]; [done |]. subst expected.
  split_and!; parse_around x Hx.
Qed.


(** C28: click rejects one word too many: the canonical command line of
    any command of the group followed by a further word that does not
    look like an option fails with [ExtraArguments] naming that word,
    for the commands with an argument and for the list commands alike. *)
Theorem render_extra_arg c y :
  renderable c -> option_like y = false ->
  parse_argv (render c ++ [y]) = Err (ExtraArguments [y]).
Proof.
  intros H Hy. unfold render. rewrite <- app_assoc.
  change [y] with (List.concat (map word_tokens [WArg y])). rewrite <- concat_app, <- map_app.
  destruct c; simpl in H; try specialize (H _ eq_refl); destruct_params;
    try (cbn in H; discriminate H);
    parse_render ltac:(apply Forall_app_2; [command_words_ok H | by repeat constructor]).
Qed.

(** C29: [--help] is eager: inserted at any word boundary of a
    command's canonical line after its path (between two words, not in
    place of an option's value, or at the end), it shows that command's
    help page whatever the other words are; and [--help] right after the
    path shows it even when the required argument is missing. *)
Theorem render_help c ws1 ws2 :
  renderable c -> snd (command_words c) = (ws1 ++ ws2)%list ->
  parse_argv (fst (command_words c) ++ List.concat (map word_tokens (ws1 ++ WFlag help_opt :: ws2))) =
    Ok (ShowHelp (fst (command_words c))) /\
  parse_argv (fst (command_words c) ++ ["--help"]) = Ok (ShowHelp (fst (command_words c))).
Proof.
  intros Hr Hw. pose proof (command_words_wf c Hr) as Hf. rewrite Hw in Hf.
  apply Forall_app in Hf as [Hf1 Hf2].
  assert (Hh : word_ok (command_specs_of c) (WFlag help_opt)) by (destruct c; split_and!; reflexivity).
  destruct (parse_argv_path c (List.concat (map word_tokens (ws1 ++ WFlag help_opt :: ws2)))) as [k Hk].
  destruct (parse_argv_path c ["--help"]) as [k' Hk']. rewrite Hk, Hk'. split.
  - rewrite with_params_words by (apply Forall_app_2; [done | by constructor]).
    rewrite foldl_app. cbn [foldl]. by rewrite get_flag_foldl.
  - change ["--help"] with (List.concat (map word_tokens [WFlag help_opt])).
    rewrite with_params_words by (by constructor). reflexivity.
Qed.

(** ** Witnesses *)

Lemma parse_words_witness :
  parse_tokens delete_specs (List.concat (map word_tokens delete_words)) empty_parsed =
    Ok (mkParsed [("yes", VFlag); ("version", VStr "3")] ["train"]).
Proof.
  apply (parse_words delete_specs delete_words empty_parsed).
  - right; right; right; right; right; left; reflexivity.
  - repeat constructor; simpl; tauto.
Defined.

Lemma render_parse_witness :
  render (CmdBuild "train" (Some "2") None (Some "local") None) =
    ["build"; "train"; "--version"; "2"; "--stack"; "local"] /\
  parse_argv (render (CmdBuild "train" (Some "2") None (Some "local") None)) =
    Ok (RunCommand (CmdBuild "train" (Some "2") None (Some "local") None)).
Proof.
  split; [reflexivity |].
  apply render_parse. intros x Hx. injection Hx as <-. reflexivity.
Defined.

Lemma delete_spellings_witness :
  parse_argv ["delete"; "-yv" ++ "2"; "train"] = Ok (RunCommand (CmdDelete "train" (Some "2") true)).
Proof.
  apply (delete_spellings "train" "2" "1"); [reflexivity | discriminate].
Defined.

Lemma render_extra_arg_witness :
  parse_argv ["runs"; "delete"; "r-1"; "--yes"; "r-2"] = Err (ExtraArguments ["r-2"]).
Proof.
  apply (render_extra_arg (CmdRunsDelete "r-1" true) "r-2"); [| reflexivity].
  intros x Hx. injection Hx as <-. reflexivity.
Defined.

Lemma render_help_witness :
  parse_argv ["build"; "train"; "--help"; "--version"; "2"] = Ok (ShowHelp ["build"]) /\
  parse_argv ["builds"; "delete"; "--help"] = Ok (ShowHelp ["builds"; "delete"]).
Proof.
  destruct (render_help (CmdBuild "train" (Some "2") None None None) [WArg "train"]
              [WValue version_opt "2"]) as [H1 _];
    [intros x Hx; injection Hx as <-; reflexivity | reflexivity |].
  destruct (render_help (CmdBuildsDelete "b-1" false) [WArg "b-1"] []) as [_ H2];
    [intros x Hx; injection Hx as <-; reflexivity | reflexivity |].
  split; [exact H1 | exact H2].
Defined.

(** ** What running a command line does *)

Section MainProps.
Context {S : Type} `{Client S} `{Backend}.


(** C26: a first word that names no command of the group is a usage
    error before anything runs: [zenml pipeline WORD ...], for a word
    that does not look like an option and is none of [register],
    [build], [run], [list], [delete], [schedule], [runs] and [builds],
    prints click's "No such command" and exits with code 2, whatever
    follows it. *)
Theorem cli_unknown_command c rest (w : @World S) :
  option_like c = false ->
  existsb (String.eqb c) ["register"; "build"; "run"; "list"; "delete"; "schedule"; "runs"; "builds"] = false ->
  cli_main (c :: rest) w =
    (with_out w (MError (arg_error_msg (NoSuchCommand c))),
     Err (UsageError (arg_error_msg (NoSuchCommand c)))) /\
  exit_code (snd (cli_main (c :: rest) w)) = 2.
Proof.
  intros Ho Hn. cbn [existsb] in Hn. rewrite !orb_false_iff in Hn.
  destruct Hn as (H1 & H2 & H3 & H4 & H5 & H6 & H7 & H8 & _).
  assert (Hdd : String.eqb c "--" = false)
    by (apply String.eqb_neq; intros ->; discriminate Ho).
  unfold cli_main, parse_argv, run_group. cbn [group_opts]. rewrite Hdd, Ho. cbn [bind_res].
  rewrite H1, H2, H3, H4, H5, H6, H7, H8. split; reflexivity.
Qed.

End MainProps.


Lemma cli_unknown_command_witness :
  cli_main ["deploy"; "digits"] (demo_world [] None) =
    (with_out (demo_world [] None) (MError "No such command 'deploy'."),
     Err (UsageError "No such command 'deploy'.")) /\
  exit_code (snd (cli_main ["deploy"; "digits"] (demo_world [] None))) = 2.
Proof. apply (cli_unknown_command "deploy" ["digits"]); reflexivity. Defined.

End Argv.
