(* ===== verification/Session.v ===== *)
(** * Command sessions: the [zenml pipeline] commands over the registry

    A relation [RW] between worlds that every primitive of the command
    monad respects is respected by every command of the click group
    ([dispatch]), by every session of commands ([run_session]), and by
    every shell session of command lines parsed by click ([run_lines]).
    The framework is proved once against the [Client] interface, with
    the state-changing client calls collected in [client_succ]; it is
    instantiated twice over the registry server of [Cli]: the server's
    store moves by registry steps (so reachability from an empty store,
    and the invariant [wf], survive any session), and the set of stacks
    and the active stack are what they were before each command.  The
    end-to-end properties of the delete, register and list commands
    over the registry follow. *)

From S2P Require Import Prelude PyInt Registry Cli Argv.
Import PyInt Registry Cli Argv.

Module Session.

Section WorldRel.
Context {S : Type} `{Client S} `{Backend}.
#[local] Abbreviation World := (@World S).

(** One successful state-changing client call, from server [s] to [s']. *)
Inductive client_succ (s : S) : S -> Prop :=
| cs_register id n sp p s' : client_register_pipeline s id n sp = Ok (p, s') -> client_succ s s'
| cs_build id pid stk ims loc b s' :
    client_create_build s id pid stk ims loc = Ok (b, s') -> client_succ s s'
| cs_run id n pid bld stk r s' : client_create_run s id n pid bld stk = Ok (r, s') -> client_succ s s'
| cs_update id st s' : client_update_run s id st = Ok s' -> client_succ s s'
| cs_delete_pipeline x v s' : client_delete_pipeline s x v = Ok s' -> client_succ s s'
| cs_delete_schedule x s' : client_delete_schedule s x = Ok s' -> client_succ s s'
| cs_delete_run x s' : client_delete_pipeline_run s x = Ok s' -> client_succ s s'
| cs_delete_build x s' : client_delete_build s x = Ok s' -> client_succ s s'.

Variable RW : World -> World -> Prop.
Context `{!PreOrder RW}.
(** a change of the console, the answers, the files or the ID supply *)
Hypothesis RW_local : forall w w',
  w_server w' = w_server w -> w_active_stack w' = w_active_stack w -> RW w w'.
(** a successful client call *)
Hypothesis RW_client : forall w s', client_succ (w_server w) s' -> RW w (with_server w s').

Definition w_ok {A} (c : Cli A) : Prop := forall w, RW w (fst (c w)).

(** the temporary stack of [cli_utils.temporary_active_stack] *)
Hypothesis RW_tas : forall A stack (body : Cli A), w_ok body -> w_ok (temporary_active_stack stack body).

Lemma w_ok_ret {A} (a : A) : w_ok (cli_ret a).
Proof. intros w. by apply RW_local. Qed.

Lemma w_ok_stop {A} e : w_ok (@cli_stop _ A e).
Proof. intros w. by apply RW_local. Qed.

Lemma w_ok_emit m : w_ok (emit m).
Proof. intros w. by apply RW_local. Qed.

Lemma w_ok_print_active_config : w_ok print_active_config.
Proof. intros w. by apply RW_local. Qed.

Lemma w_ok_get_world : w_ok get_world.
Proof. intros w. by apply RW_local. Qed.

Lemma w_ok_lift {A} (r : result A ZenError) : w_ok (lift r).
Proof. intros w. apply RW_local; unfold lift; by destruct r. Qed.

Lemma w_ok_fresh_id : w_ok fresh_id.
Proof. intros w. apply RW_local; unfold fresh_id; by destruct (w_ids w). Qed.

Lemma w_ok_confirmation t : w_ok (confirmation t).
Proof. intros w. apply RW_local; unfold confirmation; by destruct (w_answers _). Qed.

Lemma w_ok_write_file p c : w_ok (write_file p c).
Proof. intros w. by apply RW_local. Qed.

Lemma w_ok_check_path_exists o : w_ok (check_path_exists o).
Proof. intros w. apply RW_local; unfold check_path_exists; destruct o; simpl; try case_match; done. Qed.

Lemma w_ok_bind {A B} (c : Cli A) (k : A -> Cli B) :
  w_ok c -> (forall a, w_ok (k a)) -> w_ok (cli_bind c k).
Proof.
  intros Hc Hk w. unfold cli_bind. specialize (Hc w).
  destruct (c w) as [w1 [a|e]]; simpl in *; [| done]. etrans; [exact Hc | apply Hk].
Qed.

Lemma w_ok_cli_error {A} t : w_ok (@cli_error _ A t).
Proof. apply w_ok_bind; [apply w_ok_emit | intros; apply w_ok_stop]. Qed.

Lemma w_ok_client_call {A} (f : S -> result (A * S) ZenError) :
  (forall s a s', f s = Ok (a, s') -> client_succ s s') -> w_ok (client_call f).
Proof.
  intros Hf w. unfold client_call, cli_bind, get_world, lift, set_server, cli_ret.
  destruct (f (w_server w)) as [[a s']|e] eqn:E; simpl; [| by apply RW_local].
  apply RW_client. by apply (Hf _ a).
Qed.

Lemma w_ok_client_update (f : S -> result S ZenError) :
  (forall s s', f s = Ok s' -> client_succ s s') -> w_ok (client_update f).
Proof.
  intros Hf w. unfold client_update, cli_bind, get_world, lift, set_server.
  destruct (f (w_server w)) as [s'|e] eqn:E; simpl; [| by apply RW_local].
  apply RW_client. by apply Hf.
Qed.

Lemma w_ok_catch_key_error {A} (r : result A ZenError) (k : A -> Cli unit) :
  (forall a, w_ok (k a)) -> w_ok (catch_key_error r k).
Proof.
  intros Hk. unfold catch_key_error. destruct r; [done |].
  case_match; [apply w_ok_cli_error | apply w_ok_stop].
Qed.

Lemma w_ok_delete_with (op : S -> result S ZenError) msg :
  (forall s s', op s = Ok s' -> client_succ s s') -> w_ok (delete_with op msg).
Proof.
  intros Hop w. unfold delete_with, cli_bind at 1, get_world.
  destruct (op (w_server w)) as [s'|e] eqn:E; simpl.
  - unfold cli_bind, set_server; simpl. etrans; [apply RW_client; by apply Hop |].
    apply RW_local; done.
  - destruct (is_key_error e); [apply w_ok_cli_error | apply w_ok_stop].
Qed.

Create HintDb w_ok.
#[local] Hint Resolve w_ok_ret w_ok_stop w_ok_emit w_ok_print_active_config w_ok_get_world
  w_ok_lift w_ok_fresh_id w_ok_confirmation w_ok_write_file w_ok_check_path_exists
  w_ok_cli_error : w_ok.
#[local] Hint Constructors client_succ : w_ok.

(** Split a command into its primitives, cases and client calls. *)
Ltac w_ok_solve :=
  repeat match goal with
  | |- w_ok (cli_bind _ _) => apply w_ok_bind; [| intros ?]
  | |- w_ok (match ?x with _ => _ end) => destruct x
  | |- w_ok (if ?b then _ else _) => destruct b
  | |- w_ok (temporary_active_stack _ _) => apply RW_tas
  | |- w_ok (client_call _) => apply w_ok_client_call; intros ???; eauto with w_ok
  | |- w_ok (client_update _) => apply w_ok_client_update; intros ??; eauto with w_ok
  | |- w_ok (delete_with _ _) => apply w_ok_delete_with; intros ??; eauto with w_ok
  | |- w_ok (catch_key_error _ _) => apply w_ok_catch_key_error; intros ?
  | |- w_ok (pipeline_register _ _) => unfold pipeline_register
  | |- w_ok (pipeline_build _ _) => unfold pipeline_build
  | |- w_ok (pipeline_run _ _ _) => unfold pipeline_run
  | |- w_ok (parse_build_option _) => unfold parse_build_option
  | |- w_ok (warn_no_root _ _) => unfold warn_no_root
  | |- w_ok (confirm_or_cancel _ _ _) => unfold confirm_or_cancel
  | |- w_ok (print_pydantic_models _ _) => unfold print_pydantic_models
  | |- w_ok (declare _) => apply w_ok_emit
  | |- w_ok (warning _) => apply w_ok_emit
  | |- _ => solve [eauto with w_ok]
  end.

(** Every command of the click group respects [RW]. *)
Lemma dispatch_w_ok c : w_ok (dispatch c).
Proof.
  destruct c; simpl;
    unfold register_pipeline, build_pipeline, run_pipeline, list_pipelines, list_schedules,
      list_pipeline_runs, list_pipeline_builds, delete_pipeline, delete_schedule,
      delete_pipeline_run, delete_pipeline_build;
    w_ok_solve.
Qed.

Lemma run_session_RW cs w : RW w (run_session cs w).
Proof.
  revert w; induction cs as [|c cs IH]; intros w; simpl; [done |].
  etrans; [apply dispatch_w_ok | apply IH].
Qed.

(** A command line runs the parsed command, or only prints. *)
Lemma cli_main_w_ok argv : w_ok (cli_main argv).
Proof.
  unfold cli_main. destruct (parse_argv argv) as [[c | path] | e];
    [apply dispatch_w_ok | apply w_ok_emit | apply w_ok_bind; [apply w_ok_emit | intros; apply w_ok_stop]].
Qed.

Lemma run_lines_RW ls w : RW w (run_lines ls w).
Proof.
  revert w; induction ls as [|l ls IH]; intros w; simpl; [done |].
  etrans; [apply cli_main_w_ok | apply IH].
Qed.

End WorldRel.

(** ** The registry server: a session moves the store by registry steps *)

Section RegistrySessions.
Context `{Backend}.
#[local] Abbreviation World := (@World Server).

Lemma registry_client_succ (s s' : Server) : client_succ s s' -> step (srv_store s) (srv_store s').
Proof.
  intros Hs. destruct Hs as [id n sp p s' Hc | id pid stk ims loc b s' Hc | id n pid bld stk r s' Hc
    | id st s' Hc | x v s' Hc | x s' Hc | x s' Hc | x s' Hc]; simpl in Hc;
    unfold on_store, on_store_ in Hc; res_simpl; simplify_eq; simpl.
  - destruct a; eapply step_create_pipeline; eassumption.
  - destruct a; eapply step_create_build; eassumption.
  - destruct a; eapply step_create_run; eassumption.
  - eapply step_update_run; eassumption.
  - destruct a; eapply step_delete_pipeline; eassumption.
  - eapply step_delete_schedule; eassumption.
  - eapply step_delete_run; eassumption.
  - eapply step_delete_build; eassumption.
Qed.

Definition store_steps (w w' : World) : Prop := rtc step (srv_store (w_server w)) (srv_store (w_server w')).

#[local] Instance store_steps_preorder : PreOrder store_steps.
Proof. split; [intros w; apply rtc_refl | intros x y z Hxy Hyz; unfold store_steps in *; etrans; eassumption]. Qed.

#[local] Instance server_steps_preorder : PreOrder (fun s s' : Server => rtc step (srv_store s) (srv_store s')).
Proof. split; [intros s; apply rtc_refl | intros x y z Hxy Hyz; etrans; eassumption]. Qed.

Lemma activate_stack_server s (w : World) : w_server (fst (activate_stack s w)) = w_server w.
Proof. unfold activate_stack. by case_match. Qed.

(** A relation on the server alone is kept by the temporary stack of a
    body that keeps it: activating a stack does not touch the server. *)
Lemma server_rel_tas (Rs : Server -> Server -> Prop) `{!PreOrder Rs} A stack (body : Cli A) :
  w_ok (fun w w' => Rs (w_server w) (w_server w')) body ->
  w_ok (fun w w' => Rs (w_server w) (w_server w')) (temporary_active_stack stack body).
Proof.
  intros Hb w. destruct stack as [s|]; [| apply Hb]. cbn [temporary_active_stack].
  destruct (py_truthy s); [| apply Hb].
  pose proof (activate_stack_server s w) as H1.
  destruct (activate_stack s w) as [w1 [u|e]]; simpl in *; [| rewrite H1; reflexivity].
  specialize (Hb w1). destruct (body w1) as [w2 r]. simpl in Hb.
  pose proof (activate_stack_server (w_active_stack w) w2) as Ha.
  destruct (activate_stack _ w2) as [w3 [?|?]]; simpl in *; rewrite Ha, <- H1; exact Hb.
Qed.

Lemma store_steps_tas A stack (body : Cli A) :
  w_ok store_steps body -> w_ok store_steps (temporary_active_stack stack body).
Proof. apply (server_rel_tas (fun s s' => rtc step (srv_store s) (srv_store s'))). Qed.

Lemma store_steps_local (w1 w2 : World) :
  w_server w2 = w_server w1 -> w_active_stack w2 = w_active_stack w1 -> store_steps w1 w2.
Proof. intros Hs _. unfold store_steps. rewrite Hs. apply rtc_refl. Qed.

Lemma store_steps_client (w1 : World) s' : client_succ (w_server w1) s' -> store_steps w1 (with_server w1 s').
Proof. intros Hs. apply rtc_once. by apply registry_client_succ. Qed.

Lemma store_steps_session cs (w : World) : store_steps w (run_session cs w).
Proof. exact (run_session_RW store_steps store_steps_local store_steps_client store_steps_tas cs w). Qed.

Lemma store_steps_lines ls (w : World) : store_steps w (run_lines ls w).
Proof. exact (run_lines_RW store_steps store_steps_local store_steps_client store_steps_tas ls w). Qed.

End RegistrySessions.

(** ** The registry server: stacks and the active stack *)

Section StackKept.
Context `{Backend}.
#[local] Abbreviation World := (@World Server).

Definition stack_known (w : World) : bool :=
  existsb (String.eqb (w_active_stack w)) (client_stacks (w_server w)).

(** The stacks are unchanged and, when the active stack is a known one,
    it is active again. *)
Definition stack_kept (w w' : World) : Prop :=
  client_stacks (w_server w') = client_stacks (w_server w) /\
  (stack_known w = true -> w_active_stack w' = w_active_stack w).

#[local] Instance stack_kept_preorder : PreOrder stack_kept.
Proof.
  split; [intros w; by split |].
  intros x y z [Hs1 Ha1] [Hs2 Ha2]. split; [congruence |].
  intros Hk. rewrite Ha2; [by apply Ha1 |]. unfold stack_known in *. by rewrite Hs1, Ha1.
Qed.

#[local] Instance stacks_eq_preorder : PreOrder (fun s s' : Server => client_stacks s' = client_stacks s).
Proof. split; [done | intros x y z ??; congruence]. Qed.

Lemma stack_kept_tas A stack (body : Cli A) :
  w_ok stack_kept body -> w_ok stack_kept (temporary_active_stack stack body).
Proof.
  intros Hb w. split.
  - apply (server_rel_tas (fun s s' => client_stacks s' = client_stacks s)). intros w0. apply Hb.
  - intros Hk. pose proof (temporary_active_stack_restores stack body w Hk (fun w0 => proj1 (Hb w0))) as Hr.
    destruct stack as [s|]; [destruct (py_truthy s) eqn:Ht; rewrite ?Ht in Hr; cbn iota in Hr |].
    + apply Hr.
    + rewrite Hr. by apply Hb.
    + rewrite Hr. by apply Hb.
Qed.

Lemma stack_kept_local (w1 w2 : World) :
  w_server w2 = w_server w1 -> w_active_stack w2 = w_active_stack w1 -> stack_kept w1 w2.
Proof. intros Hs Ha. split; [by rewrite Hs | done]. Qed.

Lemma stack_kept_client (w1 : World) s' : client_succ (w_server w1) s' -> stack_kept w1 (with_server w1 s').
Proof. intros Hs. split; [| done]. exact (step_stacks _ _ (registry_client_succ _ _ Hs)). Qed.

Lemma stack_kept_session cs (w : World) : stack_kept w (run_session cs w).
Proof. exact (run_session_RW stack_kept stack_kept_local stack_kept_client stack_kept_tas cs w). Qed.

Lemma stack_kept_lines ls (w : World) : stack_kept w (run_lines ls w).
Proof. exact (run_lines_RW stack_kept stack_kept_local stack_kept_client stack_kept_tas ls w). Qed.

End StackKept.

(** ** End-to-end properties over the registry *)

Section RegistryCommands.
Context `{Backend}.
#[local] Abbreviation World := (@World Server).

Definition store_of (w : World) : Store := srv_store (w_server w).

(** C3: every session of [zenml pipeline] commands against the registry
    moves its store by registry operations only: a store reachable from
    an empty one stays reachable, hence well formed (IDs unique per
    table, (name, version) unique, versions positive, foreign keys of
    builds, schedules and listed runs valid), whatever the commands,
    their arguments, the answers and the backend's results. *)
Theorem cli_session_reachable stacks cs (w : World) :
  reachable stacks (store_of w) ->
  reachable stacks (store_of (run_session cs w)) /\ wf (store_of (run_session cs w)).
Proof.
  intros Hr. assert (Hr' : reachable stacks (store_of (run_session cs w)))
    by (unfold reachable in *; etrans; [exact Hr | apply store_steps_session]).
  split; [done | by apply (reachable_wf stacks)].
Qed.

(** C12: every command restores the active stack: after any session of
    commands (builds and runs on a temporary [--stack] included, and
    whatever their errors), the stacks are those before and, when the
    active stack was a known one, it is active again. *)
Theorem cli_commands_keep_stack cs (w : World) :
  stack_known w = true ->
  w_active_stack (run_session cs w) = w_active_stack w /\
  st_stacks (store_of (run_session cs w)) = st_stacks (store_of w).
Proof. intros Hk. destruct (stack_kept_session cs w) as [Hs Ha]. split; [by apply Ha | exact Hs]. Qed.

(** [zenml pipeline delete X --yes] against the registry, run. *)
Lemma registry_delete_cmd (w : World) x v :
  delete_pipeline x v true w =
    let w1 := with_out w (MActiveConfig (w_active_stack w)) in
    match Registry.delete_pipeline (srv_fail_at (w_server w)) (store_of w) x v with
    | Ok (_, st') => (with_out (with_server w1 (mkServer st' (srv_fail_at (w_server w))))
                        (MDeclare ("Deleted pipeline `" ++ x ++ version_suffix v ++ "`.")), Ok tt)
    | Err e => if is_key_error e
               then (with_out w1 (MError (zen_error_str e)), Err (ClickError (zen_error_str e)))
               else (w1, Err (Uncaught e))
    end.
Proof.
  unfold delete_pipeline, confirm_or_cancel, print_active_config, cli_bind at 1 2, cli_ret.
  rewrite delete_with_run. simpl. unfold on_store_.
  by destruct (Registry.delete_pipeline _ _ _ _) as [[p st']|e].
Qed.

(** A delete command with [--yes]: the client call decides the outcome. *)
Lemma delete_yes_server (w : World) (op : Server -> result Server ZenError) prompt canceled msg :
  let res := (print_active_config ;; confirm_or_cancel true prompt canceled ;; delete_with op msg) w in
  match op (w_server w) with
  | Ok s' => snd res = Ok tt /\ w_server (fst res) = s'
  | Err e => snd res = (if is_key_error e then Err (ClickError (zen_error_str e)) else Err (Uncaught e)) /\
             w_server (fst res) = w_server w
  end.
Proof.
  cbn zeta. unfold print_active_config, confirm_or_cancel, cli_bind, cli_ret. rewrite delete_with_run.
  simpl. destruct (op _); [done |]. by destruct (is_key_error _).
Qed.

(** What a delete command did to the store: the [after] store of the
    resolved record and exit 0, or the resolver's error, reported, and
    the store as it was. *)
Definition deleted_as {E} (st : Store) (r : result E ZenError) (after : E -> Store)
    (res : World * result unit CliExit) : Prop :=
  match r with
  | Ok e => snd res = Ok tt /\ store_of (fst res) = after e
  | Err e => snd res = (if is_key_error e then Err (ClickError (zen_error_str e)) else Err (Uncaught e)) /\
             store_of (fst res) = st
  end.

Lemma leaf_delete_outcome {E} (w : World) (r : result E ZenError) (after : E -> Store)
    (op : Server -> result Server ZenError) prompt canceled msg :
  op (w_server w) = (let? e := r in Ok (mkServer (after e) (srv_fail_at (w_server w)))) ->
  deleted_as (store_of w) r after ((print_active_config ;; confirm_or_cancel true prompt canceled ;;
                                    delete_with op msg) w).
Proof.
  intros Hop. pose proof (delete_yes_server w op prompt canceled msg) as Hd. cbn zeta in Hd.
  rewrite Hop in Hd. unfold deleted_as, store_of.
  destruct r; cbn [bind_res] in Hd; destruct Hd as [H1 H2]; rewrite H2; done.
Qed.

(** C18: [zenml pipeline runs delete], [builds delete] and [schedule
    delete] with [--yes] hard-delete exactly the record the argument
    resolves to (by UUID, name or ID prefix) and nothing else: the
    other tables are untouched, there is no cascade (spec 4.3), and the
    command exits 0; when the argument resolves to no record or to
    several, the store is unchanged and the resolver's error is
    reported as a CLI error (exit 1). *)
Theorem cli_delete_leaf (w : World) x :
  let st := store_of w in
  deleted_as st (resolve (st_runs st) x None)
    (fun r => with_runs st (remove_id (run_id r) (st_runs st))) (delete_pipeline_run x true w) /\
  deleted_as st (resolve (st_builds st) x None)
    (fun b => with_builds st (remove_id (build_id b) (st_builds st))) (delete_pipeline_build x true w) /\
  deleted_as st (resolve (st_schedules st) x None)
    (fun sc => with_schedules st (remove_id (schedule_id sc) (st_schedules st))) (delete_schedule x true w).
Proof.
  intros st. subst st. unfold delete_pipeline_run, delete_pipeline_build, delete_schedule.
  split_and!; apply leaf_delete_outcome; cbn [client_delete_pipeline_run client_delete_build
    client_delete_schedule Registry_Client];
    unfold Registry.delete_pipeline_run, Registry.delete_build, Registry.delete_schedule, store_of;
    by destruct (resolve _ x None).
Qed.

(** Without a storage failure, the delete command applies the cascade of
    whatever the resolver returns, or reports the resolver's error. *)
Lemma registry_delete_outcome (w : World) x v :
  wf (store_of w) -> srv_fail_at (w_server w) = None ->
  let res := delete_pipeline x v true w in
  match resolve (st_pipelines (store_of w)) x v with
  | Ok p => store_of (fst res) = cascade_spec (store_of w) (pipeline_id p) /\ snd res = Ok tt
  | Err e => store_of (fst res) = store_of w /\
             snd res = (if is_key_error e then Err (ClickError (zen_error_str e)) else Err (Uncaught e))
  end.
Proof.
  intros Hwf Hf res. subst res. rewrite registry_delete_cmd, Hf. simpl.
  destruct (resolve _ x v) as [p|e] eqn:Hres.
  - by rewrite (Registry.delete_pipeline_spec None _ x v p Hwf Hres).
  - unfold Registry.delete_pipeline. rewrite Hres. simpl. by destruct (is_key_error e).
Qed.

(** C1: [zenml pipeline delete X --yes] through the registry is
    all-or-nothing and refines the declarative cascade of spec 4.3 for
    the pipeline [X] resolves to: without a storage failure the store
    becomes exactly [cascade_spec] and the command exits 0; with one
    inside the cascade, the [CascadeFailed] error is not a [KeyError],
    escapes the handler (exit code 1) and the server keeps its records. *)
Theorem cli_delete_pipeline_cascade (w : World) x v p :
  wf (store_of w) -> resolve (st_pipelines (store_of w)) x v = Ok p ->
  let res := delete_pipeline x v true w in
  if fails (srv_fail_at (w_server w)) 0 (List.length (cascade_plan (store_of w) (pipeline_id p)))
  then w_server (fst res) = w_server w /\
       snd res = Err (Uncaught (CascadeFailed "storage failure")) /\ exit_code (snd res) = 1
  else store_of (fst res) = cascade_spec (store_of w) (pipeline_id p) /\ exit_code (snd res) = 0.
Proof.
  intros Hwf Hres res. subst res. rewrite registry_delete_cmd.
  rewrite (Registry.delete_pipeline_spec _ _ x v p Hwf Hres).
  destruct fails; simpl; auto.
Qed.

(** C2: the cascade contract as the user sees it: after [zenml pipeline
    delete X --yes] succeeds, no run is hard-deleted (the run IDs are
    those before, in order) and every run of the deleted pipeline is
    there with status [Unlisted]; the builds and schedules left are
    exactly those of other pipelines, and so are the pipelines. *)
Theorem cli_delete_unlists_runs (w : World) x v p :
  wf (store_of w) -> srv_fail_at (w_server w) = None ->
  resolve (st_pipelines (store_of w)) x v = Ok p ->
  let st := store_of w in
  let st' := store_of (fst (delete_pipeline x v true w)) in
  snd (delete_pipeline x v true w) = Ok tt /\
  map run_id (st_runs st') = map run_id (st_runs st) /\
  (forall r, In r (st_runs st) -> run_pipeline_id r = pipeline_id p ->
     In (set_status Unlisted r) (st_runs st')) /\
  (forall b, In b (st_builds st') <-> In b (st_builds st) /\ build_pipeline_id b <> pipeline_id p) /\
  (forall sc, In sc (st_schedules st') <->
     In sc (st_schedules st) /\ schedule_pipeline_id sc <> pipeline_id p) /\
  (forall q, In q (st_pipelines st') <-> In q (st_pipelines st) /\ pipeline_id q <> pipeline_id p).
Proof.
  intros Hwf Hf Hres st st'. subst st st'.
  assert (Hd : Registry.delete_pipeline None (store_of w) x v =
               Ok (p, cascade_spec (store_of w) (pipeline_id p)))
    by (by rewrite (Registry.delete_pipeline_spec None _ x v p Hwf Hres)).
  rewrite registry_delete_cmd, Hf, Hd. simpl.
  destruct (delete_pipeline_cascade None _ x v p _ Hwf Hd) as (Hids & Hruns & Hb & Hs & Hp).
  split_and!; try done.
  intros r Hr Hpid. specialize (Hruns r Hr). by rewrite Hpid, String.eqb_refl in Hruns.
Qed.

Lemma pipeline_name_is x (p : Pipeline) : name_is x p = true <-> pipeline_name p = x.
Proof. unfold name_is. simpl. apply String.eqb_eq. Qed.

(** C4: [zenml pipeline delete UUID --yes] deletes (by the cascade) the
    pipeline with exactly that ID, or reports [NotFound] as a CLI error
    and changes nothing; an ID is never ambiguous. *)
Theorem cli_delete_by_uuid (w : World) x v :
  wf (store_of w) -> srv_fail_at (w_server w) = None -> is_valid_uuid x = true ->
  let res := delete_pipeline x v true w in
  match List.find (id_is x) (st_pipelines (store_of w)) with
  | Some p => store_of (fst res) = cascade_spec (store_of w) (pipeline_id p) /\ snd res = Ok tt
  | None => store_of (fst res) = store_of w /\ snd res = Err (ClickError (zen_error_str (NotFound x)))
  end.
Proof.
  intros Hwf Hf Hv res. pose proof (registry_delete_outcome w x v Hwf Hf) as Ho.
  rewrite (resolve_by_uuid _ x v) in Ho by (done || exact (wf_pipeline_ids _ Hwf)).
  subst res. by destruct (List.find _ _).
Qed.

Lemma filter_id_none (ps : list Pipeline) pid :
  List.find (id_is pid) ps = None ->
  List.filter (fun q => negb (String.eqb (pipeline_id q) pid)) ps = ps.
Proof.
  intros Hn. apply filter_all_true. intros q Hq.
  pose proof (find_none _ _ Hn q Hq) as Hf. unfold id_is in Hf. simpl in Hf. by rewrite Hf.
Qed.

(** [zenml pipeline delete ID --yes] on a valid UUID removes the pipeline
    with that ID, if any, and keeps the invariant and the absence of
    storage failures. *)
Lemma delete_by_id_step (w : World) pid :
  wf (store_of w) -> srv_fail_at (w_server w) = None -> is_valid_uuid pid = true ->
  let w' := fst (delete_pipeline pid None true w) in
  st_pipelines (store_of w') =
    List.filter (fun q => negb (String.eqb (pipeline_id q) pid)) (st_pipelines (store_of w)) /\
  wf (store_of w') /\ srv_fail_at (w_server w') = None.
Proof.
  intros Hwf Hf Hv w'.
  assert (Hfail : srv_fail_at (w_server w') = None).
  { subst w'. rewrite registry_delete_cmd, Hf. cbv zeta.
    destruct (Registry.delete_pipeline _ _ _ _) as [[? ?]|e]; [| destruct (is_key_error e)]; done. }
  pose proof (registry_delete_outcome w pid None Hwf Hf) as Ho. cbv zeta in Ho.
  rewrite (resolve_by_uuid _ pid None) in Ho by (done || exact (wf_pipeline_ids _ Hwf)).
  subst w'. destruct (List.find (id_is pid) _) as [q|] eqn:Hq; destruct Ho as [-> _].
  - apply find_id_is in Hq as [_ Hid]. simpl in Hid. rewrite Hid.
    split_and!; [done | by apply cascade_spec_wf | done].
  - split_and!; [by rewrite filter_id_none | done | done].
Qed.

(** A session deleting the pipelines [ps] by ID, one after the other,
    leaves exactly the pipelines whose ID is not among theirs. *)
Lemma delete_ids_session (ps : list Pipeline) (w : World) :
  wf (store_of w) -> srv_fail_at (w_server w) = None ->
  Forall (fun p => is_valid_uuid (pipeline_id p) = true) ps ->
  let w' := run_session (map (fun p => CmdDelete (pipeline_id p) None true) ps) w in
  st_pipelines (store_of w') =
    List.filter (fun q => negb (existsb (String.eqb (pipeline_id q)) (map pipeline_id ps)))
      (st_pipelines (store_of w)) /\
  wf (store_of w') /\ srv_fail_at (w_server w') = None.
Proof.
  revert w; induction ps as [|p ps IH]; intros w Hwf Hf Hv; simpl.
  - split_and!; [by rewrite filter_all_true | done | done].
  - apply Forall_cons_1 in Hv as [Hp Hv].
    destruct (delete_by_id_step w (pipeline_id p) Hwf Hf Hp) as (Hps & Hwf1 & Hf1).
    destruct (IH _ Hwf1 Hf1 Hv) as (Hps' & Hwf' & Hf'). split_and!; [| done | done].
    rewrite Hps', Hps, filter_filter_andb. apply filter_ext. intros q.
    by rewrite negb_orb, andb_comm.
Qed.

(** A table whose rows all point at an existing pipeline is empty once
    no pipeline is left. *)
Lemma no_pipeline_exists st x : st_pipelines st = [] -> pipeline_exists st x = false.
Proof. unfold pipeline_exists. by intros ->. Qed.

Lemma fk_no_pipelines {A} st (f : A -> string) (l : list A) :
  st_pipelines st = [] -> Forall (fun a => pipeline_exists st (f a) = true) l -> l = [].
Proof.
  intros Hp Hl. destruct Hl as [|a l Ha _]; [done |]. by rewrite no_pipeline_exists in Ha.
Qed.

(** C27: every pipeline can be deleted: from a well-formed registry
    without storage failures, the session running [zenml pipeline delete
    ID --yes] for the ID of each registered pipeline ends with no
    pipeline, no build and no schedule left, and every run unlisted. *)
Theorem cli_delete_all_pipelines (w : World) :
  wf (store_of w) -> srv_fail_at (w_server w) = None ->
  let w' := run_session (map (fun p => CmdDelete (pipeline_id p) None true)
                             (st_pipelines (store_of w))) w in
  st_pipelines (store_of w') = [] /\ st_builds (store_of w') = [] /\
  st_schedules (store_of w') = [] /\
  Forall (fun r => run_status r = Unlisted) (st_runs (store_of w')).
Proof.
  intros Hwf Hf w'.
  destruct (delete_ids_session (st_pipelines (store_of w)) w Hwf Hf (wf_pipeline_uuids _ Hwf))
    as (Hps & Hwf' & _).
  assert (Hnil : st_pipelines (store_of w') = []).
  { subst w'. rewrite Hps. destruct (List.filter _ _) as [|q l] eqn:E; [done | exfalso].
    assert (Hq : In q (q :: l)) by by left. rewrite <- E in Hq.
    apply filter_In in Hq as [Hq Hn]. apply negb_true_iff, not_true_iff_false in Hn. apply Hn.
    apply existsb_exists. exists (pipeline_id q). split; [by apply in_map | apply String.eqb_refl]. }
  split_and!; [done | exact (fk_no_pipelines _ _ _ Hnil (wf_build_fk _ Hwf'))
              | exact (fk_no_pipelines _ _ _ Hnil (wf_schedule_fk _ Hwf')) |].
  eapply Forall_impl; [exact (wf_run_fk _ Hwf') |]. intros r [Hr | Hr]; [| done].
  by rewrite no_pipeline_exists in Hr.
Qed.

(** Without a storage failure, deleting a bare name deletes the record
    of the highest version registered under it. *)
Lemma delete_latest_outcome (w : World) x q :
  wf (store_of w) -> srv_fail_at (w_server w) = None -> x <> "" -> is_valid_uuid x = false ->
  In q (st_pipelines (store_of w)) -> pipeline_name q = x ->
  exists p, In p (st_pipelines (store_of w)) /\ pipeline_name p = x /\
    (forall p', In p' (st_pipelines (store_of w)) -> pipeline_name p' = x ->
       pipeline_version p' <= pipeline_version p) /\
    store_of (fst (delete_pipeline x None true w)) = cascade_spec (store_of w) (pipeline_id p) /\
    snd (delete_pipeline x None true w) = Ok tt.
Proof.
  intros Hwf Hf Hx Hv Hq Hqn.
  destruct (resolve_latest (st_pipelines (store_of w)) x q) as (p & Hres & Hp & Hpn & Hmax);
    [exact (wf_name_version _ Hwf) | done | done | done | by apply pipeline_name_is |].
  pose proof (registry_delete_outcome w x None Hwf Hf) as Ho. rewrite Hres in Ho.
  exists p. split_and!; [done | by apply pipeline_name_is | | apply Ho | apply Ho].
  intros p' Hp' Hn'. apply (Hmax p' Hp'). by apply pipeline_name_is.
Qed.

(** C5: [zenml pipeline delete NAME --yes] without a version deletes the
    registered version of [NAME] with the highest version number. *)
Theorem cli_delete_latest (w : World) x q :
  wf (store_of w) -> srv_fail_at (w_server w) = None -> x <> "" -> is_valid_uuid x = false ->
  In q (st_pipelines (store_of w)) -> pipeline_name q = x ->
  exists p, In p (st_pipelines (store_of w)) /\ pipeline_name p = x /\
    (forall p', In p' (st_pipelines (store_of w)) -> pipeline_name p' = x ->
       pipeline_version p' <= pipeline_version p) /\
    store_of (fst (delete_pipeline x None true w)) = cascade_spec (store_of w) (pipeline_id p) /\
    snd (delete_pipeline x None true w) = Ok tt.
Proof. apply delete_latest_outcome. Qed.

(** C6: [zenml pipeline delete NAME --version V --yes] deletes the
    pipeline registered as exactly (NAME, V), or reports [NotFound] and
    changes nothing. *)
Theorem cli_delete_by_version (w : World) x v n :
  wf (store_of w) -> srv_fail_at (w_server w) = None -> x <> "" -> is_valid_uuid x = false ->
  parse_version v = Some n ->
  let res := delete_pipeline x (Some v) true w in
  match List.find (fun p => name_is x p && version_is n p) (st_pipelines (store_of w)) with
  | Some p => store_of (fst res) = cascade_spec (store_of w) (pipeline_id p) /\ snd res = Ok tt
  | None => store_of (fst res) = store_of w /\ snd res = Err (ClickError (zen_error_str (NotFound x)))
  end.
Proof.
  intros Hwf Hf Hx Hv Hp res. pose proof (registry_delete_outcome w x (Some v) Hwf Hf) as Ho.
  rewrite (resolve_by_version _ x v n) in Ho by (done || exact (wf_name_version _ Hwf)).
  subst res. by destruct (List.find _ _).
Qed.

(** [zenml pipeline register SOURCE] for a source that loads [name],
    with the next ID free: exit 0 and one record appended, at the next
    version of [name]. *)
Lemma register_outcome (w : World) source name spec id rest :
  contains_char "." source = true -> load_source_path source = SrcPipeline name spec ->
  w_ids w = id :: rest -> check_new_id (st_pipelines (store_of w)) id = Ok tt ->
  snd (register_pipeline source w) = Ok tt /\
  st_pipelines (store_of (fst (register_pipeline source w))) =
    (st_pipelines (store_of w) ++ [mkPipeline id name (next_version (st_pipelines (store_of w)) name) spec])%list.
Proof.
  intros Hdot Hsrc Hids Hc.
  destruct w as [sv root stk files out answers ids]; unfold store_of in *; simpl in *; subst ids.
  unfold register_pipeline, cli_bind, print_active_config, get_world, cli_ret; simpl.
  rewrite Hdot; simpl. destruct root; simpl; rewrite Hsrc;
    unfold pipeline_register, fresh_id, client_call, cli_bind, get_world, lift, set_server, cli_ret,
      warning, emit; simpl; unfold on_store, create_pipeline; rewrite Hc; split; reflexivity.
Qed.

(** C7: [zenml pipeline register SOURCE] for a source that loads a
    pipeline [name] exits 0 and appends exactly one pipeline to the
    store, with the loaded name and spec and the server's next ID, whose
    version is one more than every version registered under that name,
    and 1 for a new name. *)
Theorem cli_register_version (w : World) source name spec id rest :
  contains_char "." source = true -> load_source_path source = SrcPipeline name spec ->
  w_ids w = id :: rest -> is_valid_uuid id = true -> id_taken (st_pipelines (store_of w)) id = false ->
  let res := register_pipeline source w in
  snd res = Ok tt /\
  exists p, st_pipelines (store_of (fst res)) = (st_pipelines (store_of w) ++ [p])%list /\
    pipeline_name p = name /\ pipeline_spec p = spec /\ pipeline_id p = id /\
    (forall q, In q (st_pipelines (store_of w)) -> pipeline_name q = name ->
       pipeline_version q < pipeline_version p) /\
    ((forall q, In q (st_pipelines (store_of w)) -> pipeline_name q <> name) -> pipeline_version p = 1).
Proof.
  intros Hdot Hsrc Hids Hv Hfree res. subst res.
  assert (Hc : check_new_id (st_pipelines (store_of w)) id = Ok tt)
    by (unfold check_new_id; rewrite Hv, Hfree; reflexivity).
  destruct (register_outcome w source name spec id rest Hdot Hsrc Hids Hc) as [Hok Hps].
  set (p := mkPipeline id name (next_version (st_pipelines (store_of w)) name) spec).
  assert (Hcp : create_pipeline (store_of w) id name spec = Ok (p, with_pipelines (store_of w) (st_pipelines (store_of w) ++ [p])))
    by (unfold create_pipeline; rewrite Hc; reflexivity).
  destruct (create_pipeline_version _ _ _ _ _ _ Hcp) as (Hn & Hid & _ & Hlt & H1).
  split; [exact Hok |]. exists p. split_and!; auto.
Qed.

(** A registry lookup that does not find an ID still does not find it
    once records are filtered out. *)
Lemma id_taken_filter (ps : list Pipeline) (f : Pipeline -> bool) id :
  id_taken ps id = false -> id_taken (List.filter f ps) id = false.
Proof.
  intros Ht. apply not_true_is_false. intros (e & (He & _)%filter_In & Hid)%id_taken_In.
  apply id_taken_false in Ht. apply Ht. rewrite <- Hid. by apply in_map.
Qed.

Lemma delete_yes_ids (w : World) x v : w_ids (fst (delete_pipeline x v true w)) = w_ids w.
Proof. rewrite registry_delete_cmd. repeat case_match; reflexivity. Qed.

(** The same-name records left after deleting the highest version of a
    name are all below it: (name, version) is unique. *)
Lemma below_deleted_max (ps : list Pipeline) p x :
  List.NoDup (map name_version ps) -> In p ps -> pipeline_name p = x ->
  (forall p', In p' ps -> pipeline_name p' = x -> pipeline_version p' <= pipeline_version p) ->
  forall r, In r (List.filter (fun r => negb (String.eqb (pipeline_id r) (pipeline_id p))) ps) ->
  pipeline_name r = x -> pipeline_version r < pipeline_version p.
Proof.
  intros Hnd Hp Hpn Hmax r (Hr & Hid)%filter_In Hrn.
  destruct (Nat.eq_dec (pipeline_version r) (pipeline_version p)) as [Heq | Hne]; [| specialize (Hmax r Hr Hrn); lia].
  assert (r = p) as -> by (apply (NoDup_map_eq name_version ps); try done; cbv [name_version version_of]; simpl; congruence).
  by rewrite String.eqb_refl in Hid.
Qed.

(** C8: version numbers are reused.  Deleting a name without a version
    (its highest version [p]) and registering a pipeline of that name
    again gives a new record, with a new ID, whose version is at most
    the deleted one: exactly the deleted one when the name's versions
    below it were contiguous ([p] was version 1, or version [p - 1]
    exists), so two different pipelines carry the same (name, version)
    over time. *)
Theorem cli_version_reuse (w : World) x q source spec id rest :
  wf (store_of w) -> srv_fail_at (w_server w) = None -> x <> "" -> is_valid_uuid x = false ->
  In q (st_pipelines (store_of w)) -> pipeline_name q = x ->
  contains_char "." source = true -> load_source_path source = SrcPipeline x spec ->
  w_ids w = id :: rest -> is_valid_uuid id = true -> id_taken (st_pipelines (store_of w)) id = false ->
  let w1 := fst (delete_pipeline x None true w) in
  let w2 := fst (register_pipeline source w1) in
  snd (register_pipeline source w1) = Ok tt /\
  exists p p', In p (st_pipelines (store_of w)) /\ pipeline_name p = x /\ ~ In p (st_pipelines (store_of w2)) /\
    st_pipelines (store_of w2) = (st_pipelines (store_of w1) ++ [p'])%list /\
    pipeline_name p' = x /\ pipeline_id p' = id /\ id <> pipeline_id p /\
    pipeline_version p' <= pipeline_version p /\
    ((pipeline_version p = 1 \/ exists r, In r (st_pipelines (store_of w)) /\ pipeline_name r = x /\
                                         pipeline_version r = pipeline_version p - 1) ->
     pipeline_version p' = pipeline_version p).
Proof.
  intros Hwf Hf Hx Hv Hq Hqn Hdot Hsrc Hids Hvid Hfree w1 w2.
  destruct (delete_latest_outcome w x q Hwf Hf Hx Hv Hq Hqn) as (p & Hp & Hpn & Hmax & Hst & _).
  set (ps := st_pipelines (store_of w)) in *.
  set (keep := fun r : Pipeline => negb (String.eqb (pipeline_id r) (pipeline_id p))).
  assert (Hrem : st_pipelines (store_of w1) = List.filter keep ps) by (subst w1; rewrite Hst; reflexivity).
  assert (Hc : check_new_id (st_pipelines (store_of w1)) id = Ok tt)
    by (unfold check_new_id; rewrite Hvid, Hrem, id_taken_filter by done; reflexivity).
  assert (Hids1 : w_ids w1 = id :: rest) by (subst w1; rewrite delete_yes_ids; exact Hids).
  destruct (register_outcome w1 source x spec id rest Hdot Hsrc Hids1 Hc) as [Hok Hps].
  assert (Hidp : id <> pipeline_id p)
    by (intros ->; apply (id_taken_false ps (pipeline_id p) Hfree); by apply in_map).
  pose proof (below_deleted_max ps p x (wf_name_version _ Hwf) Hp Hpn Hmax) as Hbelow.
  assert (Hpos : 1 <= pipeline_version p)
    by (pose proof (wf_version_pos _ Hwf) as Hpos; rewrite List.Forall_forall in Hpos; by apply Hpos).
  set (vs := map pipeline_version (List.filter (name_is x) (List.filter keep ps))).
  assert (Hvs : max_list vs <= pipeline_version p - 1).
  { apply max_list_lub. intros v (r & <- & (Hr & Hrn)%filter_In)%in_map_iff.
    apply pipeline_name_is in Hrn. specialize (Hbelow r Hr Hrn). lia. }
  split; [exact Hok |].
  exists p, (mkPipeline id x (next_version (st_pipelines (store_of w1)) x) spec).
  subst w2. rewrite Hps, Hrem. unfold next_version. fold vs. cbn [pipeline_version pipeline_name pipeline_id].
  split_and!; [done | done | | done | done | done | done | lia |].
  - rewrite in_app_iff. intros [(_ & Hk)%filter_In | [Heq | []]].
    + unfold keep in Hk. by rewrite String.eqb_refl in Hk.
    + apply Hidp. by rewrite <- Heq.
  - intros [H1 | (r & Hr & Hrn & Hrv)]; [lia |].
    assert (Hrk : In r (List.filter keep ps)).
    { apply filter_In. split; [done |]. unfold keep. apply negb_true_iff, String.eqb_neq. intros Hid.
      assert (r = p) as -> by (apply (NoDup_map_eq pipeline_id ps); [apply Hwf | done | done | done]). lia. }
    assert (pipeline_version r <= max_list vs).
    { apply max_list_ge, in_map, filter_In. split; [done |]. by apply pipeline_name_is. }
    lia.
Qed.

(** The row [print_pydantic_models] prints for a pipeline in [zenml
    pipeline list]. *)
Definition pipeline_row (p : Pipeline) : list string :=
  map snd (List.filter (fun kv => negb (existsb (String.eqb (fst kv))
                                         ["id"; "created"; "updated"; "user"; "workspace"]))
                       (tab_row p)).

(** The rows of the table [zenml pipeline list] prints, if any. *)
Definition printed_rows (w : World) (args : ListArgs) : list (list string) :=
  match last (w_out (fst (list_pipelines args w))) with
  | Some (MTable _ rows) => rows
  | _ => []
  end.

(** The page and the size as [str(i)] and [str(k)] on the command line. *)
Definition page_args (n : option string) (i k : nat) : ListArgs :=
  mkListArgs n (Some (show_int (Z.of_nat i))) (Some (show_int (Z.of_nat k))).

Lemma printed_rows_page (w : World) n i k :
  0 < i -> 0 < k -> (Z.of_nat k <= PAGE_SIZE_MAXIMUM)%Z ->
  printed_rows w (page_args n i k) =
    map pipeline_row (match list_page (name_filter n) (st_pipelines (store_of w)) i k with
                      | Ok pg => page_items pg | Err _ => [] end).
Proof.
  intros Hi Hk Hm.
  unfold printed_rows, list_pipelines, cli_bind, print_active_config, get_world, lift.
  cbn [client_list_pipelines Registry_Client]. unfold filter_page, page_args. cbn [la_name la_page la_size].
  rewrite page_and_size_show by done.
  destruct i as [|i], k as [|k]; [lia .. |]. unfold list_page.
  simpl. destruct (firstn _ _) as [|p ps]; simpl;
    unfold declare, emit, cli_stop, print_pydantic_models, with_out; simpl;
    rewrite ?last_snoc; reflexivity.
Qed.

(** C9: listing is complete and in order: the tables [zenml pipeline
    list --name N --page i --size k] prints for the pages 1 to
    [total_pages], one after the other, are the rows of every pipeline
    matching [N], in registration order, each shown once. *)
Theorem cli_list_pages_complete (w : World) n k :
  0 < k -> (Z.of_nat k <= PAGE_SIZE_MAXIMUM)%Z ->
  let keep := List.filter (name_filter n) (st_pipelines (store_of w)) in
  List.concat (map (fun i => printed_rows w (page_args n i k)) (seq 1 (ceil_div (List.length keep) k)))
    = map pipeline_row keep.
Proof.
  intros Hk Hm keep.
  destruct (list_pages_complete (name_filter n) (st_pipelines (store_of w)) k Hk) as [Hc _].
  subst keep. rewrite <- Hc at 2. rewrite concat_map, map_map. f_equal.
  apply map_ext_in. intros i Hi. apply in_seq in Hi. apply printed_rows_page; lia.
Qed.


(** The four list commands of the group. *)
Definition list_commands : list (ListArgs -> Command) :=
  [CmdList; CmdScheduleList; CmdRunsList; CmdBuildsList].

(** A list command reaches the client only through [filter_page], so
    through the page and size the filter model reads. *)
Lemma list_command_page mk args args' (w : World) :
  In mk list_commands -> la_name args = la_name args' ->
  page_and_size (la_page args) (la_size args) = page_and_size (la_page args') (la_size args') ->
  dispatch (mk args) w = dispatch (mk args') w.
Proof.
  intros Hmk Hn Hp. destruct args, args'; simpl in Hn, Hp; subst.
  repeat destruct Hmk as [<- | Hmk]; try done; cbn [dispatch];
    unfold list_pipelines, list_schedules, list_pipeline_runs, list_pipeline_builds;
    cbn [client_list_pipelines client_list_schedules client_list_runs client_list_builds Registry_Client];
    unfold filter_page; cbn [la_name la_page la_size]; by rewrite Hp.
Qed.

(** C31: the list commands take [--page] and [--size] as strings and the
    client reads them with Python's [int()]: any spelling [int()]
    accepts (surrounding whitespace, a sign, underscores between digits)
    lists exactly what the plain decimal does. *)
Theorem cli_list_int_spellings mk n s t i k (w : World) :
  In mk list_commands -> py_int s = Some i -> py_int t = Some k ->
  dispatch (mk (mkListArgs n (Some s) (Some t))) w =
    dispatch (mk (mkListArgs n (Some (show_int i)) (Some (show_int k)))) w.
Proof.
  intros Hmk Hs Ht. apply list_command_page; [done | done |]. simpl.
  unfold page_and_size, filter_int. by rewrite Hs, Ht, !py_int_show.
Qed.

(** C32: a page or size the filter model rejects, a string that is not
    a Python integer, a page below 1, or a size outside 1 to
    [PAGE_SIZE_MAXIMUM], makes every list command fail with the
    validation error of the client uncaught (exit code 1): after the
    active configuration nothing is printed and the server is untouched. *)
Theorem cli_list_invalid_page mk args (w : World) :
  In mk list_commands -> page_and_size (la_page args) (la_size args) = None ->
  dispatch (mk args) w =
    (with_out w (MActiveConfig (w_active_stack w)),
     Err (Uncaught (InvalidArgument filter_validation_error))) /\
  exit_code (snd (dispatch (mk args) w)) = 1.
Proof.
  intros Hmk Hp. destruct args as [n pg sz]; simpl in Hp.
  assert (Hd : dispatch (mk (mkListArgs n pg sz)) w =
    (with_out w (MActiveConfig (w_active_stack w)),
     Err (Uncaught (InvalidArgument filter_validation_error)))).
  { repeat destruct Hmk as [<- | Hmk]; try done; cbn [dispatch];
      unfold list_pipelines, list_schedules, list_pipeline_runs, list_pipeline_builds;
      cbn [client_list_pipelines client_list_schedules client_list_runs client_list_builds Registry_Client];
      unfold filter_page; cbn [la_name la_page la_size]; rewrite Hp; reflexivity. }
  by rewrite Hd.
Qed.

End RegistryCommands.

(** ** Witnesses: the theorems at the demo registry *)

Definition demo_session : list Command :=
  [CmdRegister "pipelines.digits"; CmdRun "digits" None None (Some "default") None;
   CmdDelete "digits" (Some "1") true].

Lemma cli_session_reachable_witness :
  reachable ["default"] (store_of (run_session demo_session (demo_world [] None))) /\
  wf (store_of (run_session demo_session (demo_world [] None))).
Proof. apply (cli_session_reachable ["default"] demo_session (demo_world [] None)). exact demo_reachable. Defined.

Lemma cli_commands_keep_stack_witness :
  w_active_stack (run_session demo_session (demo_world [] None)) = "default" /\
  st_stacks (store_of (run_session demo_session (demo_world [] None))) = ["default"].
Proof. apply (cli_commands_keep_stack demo_session (demo_world [] None)). reflexivity. Defined.

Lemma cli_delete_pipeline_cascade_witness :
  store_of (fst (delete_pipeline "digits" (Some "1") true (demo_world [] None))) =
    cascade_spec demo_store uuid1 /\
  exit_code (snd (delete_pipeline "digits" (Some "1") true (demo_world [] None))) = 0.
Proof.
  apply (cli_delete_pipeline_cascade (demo_world [] None) "digits" (Some "1") digits_v1);
    [apply wfb_wf; vm_compute; reflexivity | vm_compute; reflexivity].
Defined.

Lemma cli_delete_unlists_runs_witness :
  snd (delete_pipeline "digits" (Some "1") true (demo_world [] None)) = Ok tt.
Proof.
  destruct (cli_delete_unlists_runs (demo_world [] None) "digits" (Some "1") digits_v1) as [H _];
    [apply wfb_wf; vm_compute; reflexivity | reflexivity | vm_compute; reflexivity | exact H].
Defined.

Lemma cli_delete_by_uuid_witness :
  store_of (fst (delete_pipeline uuid2 None true (demo_world [] None))) = cascade_spec demo_store uuid2.
Proof.
  pose proof (cli_delete_by_uuid (demo_world [] None) uuid2 None) as H.
  change (List.find (id_is uuid2) (st_pipelines (store_of (demo_world [] None)))) with (Some digits_v2) in H.
  apply H; [apply wfb_wf; vm_compute | |]; reflexivity.
Defined.

Lemma cli_delete_latest_witness :
  exists p, pipeline_name p = "digits" /\
    store_of (fst (delete_pipeline "digits" None true (demo_world [] None))) =
      cascade_spec demo_store (pipeline_id p).
Proof.
  destruct (cli_delete_latest (demo_world [] None) "digits" digits_v1) as (p & _ & Hn & _ & Hs & _);
    [apply wfb_wf; vm_compute; reflexivity | reflexivity | discriminate | reflexivity
    | simpl; auto | reflexivity |].
  exists p. split; [exact Hn | exact Hs].
Defined.

Lemma cli_delete_by_version_witness :
  store_of (fst (delete_pipeline "digits" (Some "1") true (demo_world [] None))) =
    cascade_spec demo_store uuid1.
Proof.
  pose proof (cli_delete_by_version (demo_world [] None) "digits" "1" 1) as H.
  change (List.find (fun p => name_is "digits" p && version_is 1 p)
            (st_pipelines (store_of (demo_world [] None)))) with (Some digits_v1) in H.
  apply H; [apply wfb_wf; vm_compute; reflexivity | reflexivity | discriminate | reflexivity | reflexivity].
Defined.

Lemma cli_register_version_witness :
  snd (register_pipeline "pipelines.digits" (demo_world [] None)) = Ok tt.
Proof.
  destruct (cli_register_version (demo_world [] None) "pipelines.digits" "digits" "dag-v3"
              "00000000-0000-0000-0000-000000000005"
              ["00000000-0000-0000-0000-000000000006"; "00000000-0000-0000-0000-000000000007"])
    as [H _]; [reflexivity .. | exact H].
Defined.

Lemma cli_version_reuse_witness :
  snd (register_pipeline "pipelines.digits"
         (fst (delete_pipeline "digits" None true (demo_world [] None)))) = Ok tt.
Proof.
  destruct (cli_version_reuse (demo_world [] None) "digits" digits_v1 "pipelines.digits" "dag-v3"
              "00000000-0000-0000-0000-000000000005"
              ["00000000-0000-0000-0000-000000000006"; "00000000-0000-0000-0000-000000000007"])
    as [H _];
    [apply wfb_wf; vm_compute; reflexivity | reflexivity | discriminate | reflexivity
    | simpl; auto | reflexivity | reflexivity | reflexivity | reflexivity | vm_compute; reflexivity
    | vm_compute; reflexivity | exact H].
Defined.

Lemma cli_list_pages_complete_witness :
  List.concat (map (fun i => printed_rows (demo_world [] None) (page_args (Some "digits") i 1)) (seq 1 2)) =
    map pipeline_row (List.filter (name_filter (Some "digits")) (st_pipelines demo_store)).
Proof.
  apply (cli_list_pages_complete (demo_world [] None) (Some "digits") 1);
    [lia | unfold PAGE_SIZE_MAXIMUM; lia].
Defined.

Lemma cli_delete_all_pipelines_witness :
  let w' := run_session (map (fun p => CmdDelete (pipeline_id p) None true) (st_pipelines demo_store))
                        (demo_world [] None) in
  st_pipelines (store_of w') = [] /\ st_builds (store_of w') = [] /\
  st_schedules (store_of w') = [] /\ Forall (fun r => run_status r = Unlisted) (st_runs (store_of w')).
Proof.
  apply (cli_delete_all_pipelines (demo_world [] None)); [apply wfb_wf; vm_compute |]; reflexivity.
Defined.

Lemma cli_list_int_spellings_witness :
  dispatch (CmdRunsList (mkListArgs None (Some " +1_0 ") (Some "1"))) (demo_world [] None) =
    dispatch (CmdRunsList (mkListArgs None (Some "10") (Some "1"))) (demo_world [] None).
Proof.
  apply (cli_list_int_spellings CmdRunsList None " +1_0 " "1" 10 1 (demo_world [] None));
    [right; right; left |..]; reflexivity.
Defined.

Lemma cli_list_invalid_page_witness :
  dispatch (CmdList (mkListArgs None (Some "0") None)) (demo_world [] None) =
    (with_out (demo_world [] None) (MActiveConfig "default"),
     Err (Uncaught (InvalidArgument filter_validation_error))) /\
  exit_code (snd (dispatch (CmdList (mkListArgs None (Some "0") None)) (demo_world [] None))) = 1.
Proof. apply (cli_list_invalid_page CmdList); [left |]; reflexivity. Defined.

End Session.
